(** * deeprank-core: graph construction and export engine

    A shallow embedding of the graph container
    ([deeprank_gnn/models/graph.py]), the query builders
    ([deeprank_gnn/models/query.py]), the PSSM feature attachment
    ([deeprankcore/feature/pssm.py]) and the PSSM parser
    ([deeprankcore/tools/pssm.py]), with the properties the specification
    states about them.

    Conventions.
    - Python floats are IEEE-754 binary64 numbers: Rocq's primitive [float].
    - A Python [dict] is an insertion-ordered association list whose keys
      are compared with the key type's [__eq__] ([PyDict]).
    - A Python call that may raise returns a [result]. *)

From Stdlib Require Import PrimFloat.
From Stdlib Require Import ZArith Ascii String.
From Stdlib Require Uint63 OrdersEx Sorted.
From stdpp Require Import gmap strings list pretty.

Local Open Scope string_scope.
Local Open Scope list_scope.

(** ** Exceptions *)

Inductive exception : Type :=
| NameError (name : string)
| KeyError (key : string)
| IndexError
| ValueError (msg : string)
| TypeError (msg : string)
| AttributeError (msg : string)
| StopIteration
| IOError (msg : string).

Inductive result (A : Type) : Type :=
| Ok (a : A)
| Raise (e : exception).

Arguments Ok {A} a.
Arguments Raise {A} e.

Instance result_bind : MBind result := λ A B k r,
  match r with
  | Ok a => k a
  | Raise e => Raise e
  end.

Instance result_ret : MRet result := λ A a, Ok a.

Definition is_ok {A : Type} (r : result A) : bool :=
  match r with Ok _ => true | Raise _ => false end.

Definition from_option {A : Type} (e : exception) (o : option A) : result A :=
  match o with Some a => Ok a | None => Raise e end.

(** [for x in xs: body] threaded through a state, stopping at the first
    exception. *)
Fixpoint for_each {A S : Type} (body : S → A → result S) (xs : list A) (s : S)
  : result S :=
  match xs with
  | [] => Ok s
  | x :: xs' => s' ← body s x ; for_each body xs' s'
  end.

(** [[f(x) for x in xs]] where [f] may raise. *)
Fixpoint map_result {A B : Type} (f : A → result B) (xs : list A)
  : result (list B) :=
  match xs with
  | [] => Ok []
  | x :: xs' => y ← f x ; ys ← map_result f xs' ; Ok (y :: ys)
  end.

(** ** Python dictionaries *)

(** Keys of a dictionary are compared with [__eq__] (and hashed
    consistently with it): an equivalence that need not be the identity of
    objects. *)
Class PyKey (K : Type) := {
  key_eqb : K → K → bool;
  key_eqb_refl : ∀ k, key_eqb k k = true;
  key_eqb_sym : ∀ a b, key_eqb a b = key_eqb b a;
  key_eqb_trans : ∀ a b c,
    key_eqb a b = true → key_eqb b c = true → key_eqb a c = true
}.

Module PyDict.
Section Dict.
Context {K V : Type} `{PyKey K}.

Definition dict : Type := list (K * V).

(** [d[k]], [None] standing for [KeyError]. *)
Fixpoint get (k : K) (d : dict) : option V :=
  match d with
  | [] => None
  | (k', v) :: d' => if key_eqb k' k then Some v else get k d'
  end.

(** [d[k] = v]: an equal key already present keeps its place and its key
    object, only the value is replaced; a new key goes to the end. *)
Fixpoint set (k : K) (v : V) (d : dict) : dict :=
  match d with
  | [] => [(k, v)]
  | (k', v') :: d' =>
      if key_eqb k' k then (k', v) :: d' else (k', v') :: set k v d'
  end.

(** [k in d] *)
Definition contains (k : K) (d : dict) : bool :=
  match get k d with Some _ => true | None => false end.

Definition keys (d : dict) : list K := d.*1.
Definition values (d : dict) : list V := d.*2.
Definition items (d : dict) : list (K * V) := d.

(** No two entries have equal keys. *)
Fixpoint wf (d : dict) : Prop :=
  match d with
  | [] => True
  | (k, _) :: d' => get k d' = None ∧ wf d'
  end.

End Dict.
Arguments dict : clear implicits.
End PyDict.

Abbreviation dict := PyDict.dict.

Lemma string_eqb_trans (a b c : string) :
  String.eqb a b = true → String.eqb b c = true → String.eqb a c = true.
Proof. intros ->%String.eqb_eq ->%String.eqb_eq. apply String.eqb_refl. Qed.

Instance string_pykey : PyKey string :=
  {| key_eqb := String.eqb;
     key_eqb_refl := String.eqb_refl;
     key_eqb_sym := String.eqb_sym;
     key_eqb_trans := string_eqb_trans |}.

(** The set of keys of a dictionary with string keys: a feature schema. *)
Definition key_set {V : Type} (d : dict string V) : gset string :=
  list_to_set (PyDict.keys d).

(** ** Geometry *)

(** A position is a numpy array of three floats. *)
Record Position : Type :=
  { px : PrimFloat.float; py : PrimFloat.float; pz : PrimFloat.float }.

Definition position_add (p q : Position) : Position :=
  {| px := (px p + px q)%float; py := (py p + py q)%float;
     pz := (pz p + pz q)%float |}.

Abbreviation float := PrimFloat.float.

Definition float_of_nat (n : nat) : float :=
  PrimFloat.of_uint63 (Uint63.of_Z (Z.of_nat n)).

(** [numpy.mean(positions, axis=0)]: the rows are added one after the other
    and the sum is divided by their number.  Without rows numpy gives a
    [nan] (and a warning). *)
Definition numpy_mean (ps : list Position) : Position :=
  match ps with
  | [] => {| px := PrimFloat.nan; py := PrimFloat.nan; pz := PrimFloat.nan |}
  | p :: ps' =>
      let s := fold_left position_add ps' p in
      let n := float_of_nat (length ps) in
      {| px := (px s / n)%float; py := (py s / n)%float; pz := (pz s / n)%float |}
  end.

(** The distance that [scipy.spatial.distance_matrix(x, y, p=2)] gives for
    a pair of rows: the square root of the sum of the squared coordinate
    differences. *)
Definition euclidean (p q : Position) : float :=
  let dx := PrimFloat.abs (px q - px p)%float in
  let dy := PrimFloat.abs (py q - py p)%float in
  let dz := PrimFloat.abs (pz q - pz p)%float in
  PrimFloat.sqrt (dx * dx + dy * dy + dz * dz)%float.

(** [minkowski_distance(x[:, newaxis, :], y[newaxis, :, :], 2)]: the matrix
    of the distances of every row of [x] to every row of [y]. *)
Definition minkowski_distance (xs ys : list Position) : list (list float) :=
  (λ x, (λ y, euclidean x y) <$> ys) <$> xs.

(** [scipy.spatial.distance_matrix(x, y, p=2)] starts with
    [m, k = x.shape] and [n, kk = y.shape].  A list of positions becomes an
    array of shape [(m, 3)]; an empty list becomes an array of shape [(0,)],
    and the unpacking raises ValueError. *)
Definition distance_matrix (xs ys : list Position)
  : result (list (list float)) :=
  match xs, ys with
  | [], _ | _, [] =>
      Raise (ValueError "not enough values to unpack (expected 2, got 1)")
  | _, _ => Ok (minkowski_distance xs ys)
  end.

(** ** Feature values *)

(** Modelled from the spec: the edge-type constants of [domain/graph.py]
    (absent), the two classes of contact. *)
Inductive EdgeType : Type := EDGETYPE_INTERNAL | EDGETYPE_INTERFACE.

(** A feature value: a scalar, an array of floats or an edge type. *)
Inductive value : Type :=
| VFloat (x : float)
| VArray (xs : list float)
| VEdgeType (t : EdgeType).

Definition array_of_position (p : Position) : value := VArray [px p; py p; pz p].

Abbreviation features := (dict string value).

(** * The graph container: [deeprank_gnn/models/graph.py] *)

(** Modelled from the spec: the entities of [models/structure.py] (absent)
    as the graph container uses them.  An entity (an atom or a residue) is
    hashable, compared with [__eq__], and has a position that belongs to
    its identity: equal entities have the same position. *)
Class Entity (E : Type) := {
  entity_key :: PyKey E;
  position : E → Position;
  position_proper : ∀ a b : E, key_eqb a b = true → position a = position b
}.

(** Modelled from the spec: the grid of [models/grid.py] (absent): a lattice
    with its settings and its center, and an array per mapped feature. *)
Inductive MapMethod : Type := NEAREST_NEIGHBOUR | FAST_GAUSSIAN | GAUSSIAN.

Record GridSettings : Type := { points_count : Z; size : float }.

Record Grid : Type := {
  grid_id : string;
  grid_settings : GridSettings;
  grid_center : Position;
  grid_features : dict string (list float)
}.

Definition Grid_init (id_ : string) (settings : GridSettings) (center : Position)
  : Grid :=
  {| grid_id := id_; grid_settings := settings; grid_center := center;
     grid_features := [] |}.

Module GraphPy.
Section Graph.
Context {E : Type} `{Entity E}.

(** [Graph.__init__] stores its second argument as it comes.  The callers
    that write the graph to a file pass the path of the file; [query.py]
    passes the targets of the query.  [P] is the type of what is passed. *)
Context {P : Type}.

(** Modelled from the spec: the contact of [models/contact.py] (absent): an
    unordered pair of entities. *)
Record Contact : Type := { item1 : E; item2 : E }.

Definition contact_eqb (c d : Contact) : bool :=
  (key_eqb (item1 c) (item1 d) && key_eqb (item2 c) (item2 d))
  || (key_eqb (item1 c) (item2 d) && key_eqb (item2 c) (item1 d)).

Record Edge : Type := { edge_id : Contact; edge_features : features }.

Definition Edge_init (id_ : Contact) : Edge :=
  {| edge_id := id_; edge_features := [] |}.

Definition Edge_add_feature (e : Edge) (feature_name : string)
    (feature_function : Contact → value) : Edge :=
  let feature_value := feature_function (edge_id e) in
  {| edge_id := edge_id e;
     edge_features := PyDict.set feature_name feature_value (edge_features e) |}.

Definition position1 (e : Edge) : Position := position (item1 (edge_id e)).
Definition position2 (e : Edge) : Position := position (item2 (edge_id e)).

Record Node : Type := { node_id : E; node_features : features }.

Definition Node_init (id_ : E) : Node :=
  {| node_id := id_; node_features := [] |}.

Definition Node_add_feature (n : Node) (feature_name : string)
    (feature_function : E → value) : Node :=
  let feature_value := feature_function (node_id n) in
  {| node_id := node_id n;
     node_features := PyDict.set feature_name feature_value (node_features n) |}.

Definition Node_position (n : Node) : Position := position (node_id n).

Lemma contact_eqb_refl (c : Contact) : contact_eqb c c = true.
Proof. unfold contact_eqb. by rewrite !key_eqb_refl. Qed.

Lemma contact_eqb_sym (c d : Contact) : contact_eqb c d = contact_eqb d c.
Proof.
  unfold contact_eqb.
  rewrite (key_eqb_sym (item1 c) (item1 d)), (key_eqb_sym (item2 c) (item2 d)).
  rewrite (key_eqb_sym (item1 c) (item2 d)), (key_eqb_sym (item2 c) (item1 d)).
  f_equal. apply andb_comm.
Qed.

Lemma contact_eqb_trans (a b c : Contact) :
  contact_eqb a b = true → contact_eqb b c = true → contact_eqb a c = true.
Proof.
  unfold contact_eqb. intros Hab Hbc.
  apply orb_true_iff in Hab as [[H1 H2]%andb_true_iff|[H1 H2]%andb_true_iff];
  apply orb_true_iff in Hbc as [[H3 H4]%andb_true_iff|[H3 H4]%andb_true_iff];
  apply orb_true_iff.
  - left. by rewrite (key_eqb_trans _ _ _ H1 H3), (key_eqb_trans _ _ _ H2 H4).
  - right. by rewrite (key_eqb_trans _ _ _ H1 H3), (key_eqb_trans _ _ _ H2 H4).
  - right. by rewrite (key_eqb_trans _ _ _ H1 H4), (key_eqb_trans _ _ _ H2 H3).
  - left. by rewrite (key_eqb_trans _ _ _ H1 H4), (key_eqb_trans _ _ _ H2 H3).
Qed.

#[global] Instance contact_pykey : PyKey Contact :=
  {| key_eqb := contact_eqb;
     key_eqb_refl := contact_eqb_refl;
     key_eqb_sym := contact_eqb_sym;
     key_eqb_trans := contact_eqb_trans |}.

Record Graph : Type := {
  graph_id : string;
  _hdf5_path : P;
  _nodes : dict E Node;
  _edges : dict Contact Edge
}.

Definition Graph_init (id_ : string) (hdf5_path : P) : Graph :=
  {| graph_id := id_; _hdf5_path := hdf5_path; _nodes := []; _edges := [] |}.

(** [self._nodes[node.id] = node] *)
Definition add_node (g : Graph) (node : Node) : Graph :=
  {| graph_id := graph_id g; _hdf5_path := _hdf5_path g;
     _nodes := PyDict.set (node_id node) node (_nodes g);
     _edges := _edges g |}.

(** [self._edges[edge.id] = edge] *)
Definition add_edge (g : Graph) (edge : Edge) : Graph :=
  {| graph_id := graph_id g; _hdf5_path := _hdf5_path g;
     _nodes := _nodes g;
     _edges := PyDict.set (edge_id edge) edge (_edges g) |}.

(** The bodies of [get_node] and [get_edge] are single expressions made of
    names, attributes and subscripts.  They are evaluated as Python does:
    a name is looked up among the parameters of the call, then among the
    names bound at the top of the module (none of the built-in names is
    used by the two bodies, or is called [edge]). *)
Inductive expr : Type :=
| EName (x : string)
| EAttr (e : expr) (attr : string)
| ESubscript (e : expr) (key : expr).

Inductive pyobj : Type :=
| OGraph (g : Graph)
| OEntity (e : E)
| OContact (c : Contact)
| ONodes (d : dict E Node)
| OEdges (d : dict Contact Edge)
| ONode (n : Node)
| OEdge (e : Edge)
| OFeatures (f : features)
| OStr (s : string)
| OPath (p : P)
| OModuleLevel (name : string).

(** The names bound at the top of [graph.py]: its imports and classes. *)
Definition module_names : list string :=
  ["Enum"; "Callable"; "Union"; "List"; "numpy"; "h5py"; "Atom"; "Residue";
   "Contact"; "graph_to_hdf5"; "MapMethod"; "Grid"; "GridSettings";
   "map_features"; "grid_to_hdf5"; "Edge"; "NodeType"; "Node"; "Graph"].

Definition lookup_name (locals : dict string pyobj) (x : string) : result pyobj :=
  match PyDict.get x locals with
  | Some o => Ok o
  | None =>
      if existsb (String.eqb x) module_names then Ok (OModuleLevel x)
      else Raise (NameError x)
  end.

Definition get_attr (o : pyobj) (attr : string) : result pyobj :=
  match o with
  | OGraph g =>
      if String.eqb attr "id" then Ok (OStr (graph_id g))
      else if String.eqb attr "_hdf5_path" then Ok (OPath (_hdf5_path g))
      else if String.eqb attr "_nodes" then Ok (ONodes (_nodes g))
      else if String.eqb attr "_edges" then Ok (OEdges (_edges g))
      else Raise (AttributeError attr)
  | ONode n =>
      if String.eqb attr "id" then Ok (OEntity (node_id n))
      else if String.eqb attr "features" then Ok (OFeatures (node_features n))
      else Raise (AttributeError attr)
  | OEdge e =>
      if String.eqb attr "id" then Ok (OContact (edge_id e))
      else if String.eqb attr "features" then Ok (OFeatures (edge_features e))
      else Raise (AttributeError attr)
  | OContact c =>
      if String.eqb attr "item1" then Ok (OEntity (item1 c))
      else if String.eqb attr "item2" then Ok (OEntity (item2 c))
      else Raise (AttributeError attr)
  | _ => Raise (AttributeError attr)
  end.

Definition get_item (o key : pyobj) : result pyobj :=
  match o, key with
  | ONodes d, OEntity k =>
      match PyDict.get k d with Some n => Ok (ONode n) | None => Raise (KeyError "") end
  | OEdges d, OContact k =>
      match PyDict.get k d with Some e => Ok (OEdge e) | None => Raise (KeyError "") end
  | ONodes _, _ | OEdges _, _ | OFeatures _, _ => Raise (KeyError "")
  | _, _ => Raise (TypeError "object is not subscriptable")
  end.

Fixpoint eval (locals : dict string pyobj) (e : expr) : result pyobj :=
  match e with
  | EName x => lookup_name locals x
  | EAttr e attr => o ← eval locals e ; get_attr o attr
  | ESubscript e key => o ← eval locals e ; k ← eval locals key ; get_item o k
  end.

(** [return self._nodes[id_]] *)
Definition get_node (g : Graph) (id_ : E) : result Node :=
  o ← eval [("self", OGraph g); ("id_", OEntity id_)]
           (ESubscript (EAttr (EName "self") "_nodes") (EName "id_")) ;
  match o with ONode n => Ok n | _ => Raise (TypeError "not a node") end.

(** [return self._edges[edge.id]] *)
Definition get_edge (g : Graph) (id_ : Contact) : result Edge :=
  o ← eval [("self", OGraph g); ("id_", OContact id_)]
           (ESubscript (EAttr (EName "self") "_edges")
                       (EAttr (EName "edge") "id")) ;
  match o with OEdge e => Ok e | _ => Raise (TypeError "not an edge") end.

(** [list(self._nodes.values())] and [list(self._edges.values())] *)
Definition nodes (g : Graph) : list Node := PyDict.values (_nodes g).
Definition edges (g : Graph) : list Edge := PyDict.values (_edges g).

(** *** The graph as [query.py] calls it

    [query.py] imports this class and uses it as a container keyed by the
    names of nodes: [graph.add_edge(key1, key2)],
    [graph.edges[key1, key2][name] = value], [graph.nodes[name]] and
    [graph.nodes.items()].  The calls are evaluated as Python evaluates them
    on this class. *)

(** [graph.add_edge(key, ...)] with strings for arguments.  Python binds
    the arguments to the one parameter of [def add_edge(self, edge)] before
    the body runs, and raises TypeError when their number is not one.  With
    one string the body [self._edges[edge.id] = edge] runs and [edge.id]
    raises AttributeError, a string having no attribute [id].  The graph is
    not changed. *)
Definition add_edge_call (g : Graph) (keys : list string) : result Graph :=
  match keys with
  | [] =>
      Raise (TypeError
               "add_edge() missing 1 required positional argument: 'edge'")
  | [edge] => Raise (AttributeError "'str' object has no attribute 'id'")
  | _ :: _ :: _ =>
      Raise (TypeError ("add_edge() takes 2 positional arguments but "
                        ++ pretty (S (length keys)) ++ " were given"))
  end.

(** What [query.py] writes between the brackets of a subscript: the name of
    a node, or the names of the two ends of an edge (a tuple). *)
Inductive subscript : Type :=
| SName (name : string)
| SPair (name1 name2 : string).

(** [l[key]] for a list [l], as in [graph.nodes[name]] and
    [graph.edges[key1, key2]]: the indices of a list are integers or slices,
    and Python raises TypeError for a string and for a tuple, whatever the
    list holds. *)
Definition list_getitem {A : Type} (l : list A) (key : subscript) : result A :=
  match key with
  | SName _ =>
      Raise (TypeError "list indices must be integers or slices, not str")
  | SPair _ _ =>
      Raise (TypeError "list indices must be integers or slices, not tuple")
  end.

(** [l.items()] for a list [l], as in [graph.nodes.items()]: a list has no
    attribute [items]. *)
Definition list_items {A B : Type} (l : list A) : result (list (string * B)) :=
  Raise (AttributeError "'list' object has no attribute 'items'").

(** [edge[name] = value] and [node[name] = value] for an object of the
    classes [Edge] and [Node]: they define no [__setitem__]. *)
Definition object_setitem {A : Type} (o : A) (name : string) (x : value)
  : result A :=
  Raise (TypeError "object does not support item assignment").

(** [tools.grid.map_features] (absent) adds one feature value at one
    position to the grid with the chosen kernel: any function will do. *)
Context (map_features : Grid → Position → string → value → MapMethod → Grid).

Definition map_edge_feature (method : MapMethod) (edge : Edge) (grid : Grid)
    (item : string * value) : Grid :=
  let grid := map_features grid (position1 edge) item.1 item.2 method in
  map_features grid (position2 edge) item.1 item.2 method.

Definition map_node_feature (method : MapMethod) (node : Node) (grid : Grid)
    (item : string * value) : Grid :=
  map_features grid (Node_position node) item.1 item.2 method.

Definition map_to_grid (g : Graph) (grid : Grid) (method : MapMethod) : Grid :=
  let grid :=
    fold_left
      (λ grid edge,
         fold_left (map_edge_feature method edge)
                   (PyDict.items (edge_features edge)) grid)
      (PyDict.values (_edges g)) grid in
  fold_left
    (λ grid node,
       fold_left (map_node_feature method node)
                 (PyDict.items (node_features node)) grid)
    (PyDict.values (_nodes g)) grid.

(** [to_hdf5_cnn]: iterating over the dictionary [self._nodes] yields its
    keys, the entities, whose positions are averaged.  The value returned
    here is the grid that is handed to [grid_to_hdf5], with the path. *)
Definition to_hdf5_cnn (g : Graph) (settings : GridSettings) (method : MapMethod)
  : Grid * P :=
  let center := numpy_mean (map position (PyDict.keys (_nodes g))) in
  let grid := Grid_init (graph_id g) settings center in
  let grid := map_to_grid g grid method in
  (grid, _hdf5_path g).

(** The feature values placed on a grid, in words: for every edge and each
    of its features one deposit at each of the two ends of the edge, then
    for every node and each of its features one deposit at the node. *)
Record Deposit : Type := {
  dep_position : Position;
  dep_name : string;
  dep_value : value
}.

Definition edge_deposits (edge : Edge) : list Deposit :=
  flat_map (λ item : string * value,
              [ {| dep_position := position1 edge; dep_name := item.1;
                   dep_value := item.2 |};
                {| dep_position := position2 edge; dep_name := item.1;
                   dep_value := item.2 |} ])
           (PyDict.items (edge_features edge)).

Definition node_deposits (node : Node) : list Deposit :=
  map (λ item : string * value,
         {| dep_position := Node_position node; dep_name := item.1;
            dep_value := item.2 |})
      (PyDict.items (node_features node)).

Definition deposits (g : Graph) : list Deposit :=
  flat_map edge_deposits (edges g) ++ flat_map node_deposits (nodes g).

Definition apply_deposit (method : MapMethod) (grid : Grid) (d : Deposit) : Grid :=
  map_features grid (dep_position d) (dep_name d) (dep_value d) method.

End Graph.
End GraphPy.

(** * Structures: chains, residues, atoms *)

(** Modelled from the spec: the amino acids, chains, residues and atoms of
    [models/amino_acid.py] and [models/structure.py] (absent).  An amino
    acid is identified by its name.  A residue is identified by its chain,
    its number and its insertion code; an atom by its residue and its
    name. *)
Record AminoAcid : Type := {
  aa_name : string;
  three_letter_code : string;
  one_letter_code : string;
  aa_charge : float;
  aa_polarity : list float;
  aa_onehot : list float
}.

Definition amino_acid_eqb (a b : AminoAcid) : bool :=
  String.eqb (aa_name a) (aa_name b).

Record Chain : Type := { chain_model : string; chain_id : string }.

Definition chain_eqb (c d : Chain) : bool :=
  String.eqb (chain_model c) (chain_model d)
  && String.eqb (chain_id c) (chain_id d).

(** [Residue(chain, number, amino_acid, insertion_code)]; the atoms are
    added to a residue of a structure afterwards, as names and positions. *)
Record Residue : Type := {
  res_chain : Chain;
  res_number : Z;
  res_amino_acid : option AminoAcid;
  res_insertion_code : option string;
  res_atoms : list (string * Position)
}.

Definition Residue_init (chain : Chain) (number : Z) (amino_acid : option AminoAcid)
    (insertion_code : option string) : Residue :=
  {| res_chain := chain; res_number := number; res_amino_acid := amino_acid;
     res_insertion_code := insertion_code; res_atoms := [] |}.

Definition option_string_eqb (a b : option string) : bool :=
  match a, b with
  | None, None => true
  | Some x, Some y => String.eqb x y
  | _, _ => false
  end.

Definition residue_eqb (r s : Residue) : bool :=
  chain_eqb (res_chain r) (res_chain s)
  && Z.eqb (res_number r) (res_number s)
  && option_string_eqb (res_insertion_code r) (res_insertion_code s).

Record Atom : Type := {
  atom_residue : Residue;
  atom_name : string;
  atom_position : Position
}.

Definition atom_eqb (a b : Atom) : bool :=
  residue_eqb (atom_residue a) (atom_residue b)
  && String.eqb (atom_name a) (atom_name b).

(** [residue.atoms] *)
Definition residue_atoms (r : Residue) : list Atom :=
  map (λ np : string * Position,
         {| atom_residue := r; atom_name := np.1; atom_position := np.2 |})
      (res_atoms r).

Lemma amino_acid_eqb_refl a : amino_acid_eqb a a = true.
Proof. apply String.eqb_refl. Qed.

Lemma amino_acid_eqb_sym a b : amino_acid_eqb a b = amino_acid_eqb b a.
Proof. apply String.eqb_sym. Qed.

Lemma amino_acid_eqb_trans a b c :
  amino_acid_eqb a b = true → amino_acid_eqb b c = true → amino_acid_eqb a c = true.
Proof. apply string_eqb_trans. Qed.

Instance amino_acid_pykey : PyKey AminoAcid :=
  {| key_eqb := amino_acid_eqb;
     key_eqb_refl := amino_acid_eqb_refl;
     key_eqb_sym := amino_acid_eqb_sym;
     key_eqb_trans := amino_acid_eqb_trans |}.

Lemma chain_eqb_refl c : chain_eqb c c = true.
Proof. unfold chain_eqb. by rewrite !String.eqb_refl. Qed.

Lemma chain_eqb_sym c d : chain_eqb c d = chain_eqb d c.
Proof.
  unfold chain_eqb.
  by rewrite (String.eqb_sym (chain_model c)), (String.eqb_sym (chain_id c)).
Qed.

Lemma chain_eqb_trans a b c :
  chain_eqb a b = true → chain_eqb b c = true → chain_eqb a c = true.
Proof.
  unfold chain_eqb. intros [H1 H2]%andb_true_iff [H3 H4]%andb_true_iff.
  by rewrite (string_eqb_trans _ _ _ H1 H3), (string_eqb_trans _ _ _ H2 H4).
Qed.

Instance chain_pykey : PyKey Chain :=
  {| key_eqb := chain_eqb;
     key_eqb_refl := chain_eqb_refl;
     key_eqb_sym := chain_eqb_sym;
     key_eqb_trans := chain_eqb_trans |}.

Lemma option_string_eqb_refl a : option_string_eqb a a = true.
Proof. destruct a; simpl; [apply String.eqb_refl|done]. Qed.

Lemma option_string_eqb_sym a b : option_string_eqb a b = option_string_eqb b a.
Proof. destruct a, b; simpl; [apply String.eqb_sym|done..]. Qed.

Lemma option_string_eqb_trans a b c :
  option_string_eqb a b = true → option_string_eqb b c = true →
  option_string_eqb a c = true.
Proof. destruct a, b, c; simpl; try done. apply string_eqb_trans. Qed.

Lemma residue_eqb_refl r : residue_eqb r r = true.
Proof.
  unfold residue_eqb.
  by rewrite chain_eqb_refl, Z.eqb_refl, option_string_eqb_refl.
Qed.

Lemma residue_eqb_sym r s : residue_eqb r s = residue_eqb s r.
Proof.
  unfold residue_eqb.
  by rewrite (chain_eqb_sym (res_chain r)), (Z.eqb_sym (res_number r)),
    (option_string_eqb_sym (res_insertion_code r)).
Qed.

Lemma residue_eqb_trans a b c :
  residue_eqb a b = true → residue_eqb b c = true → residue_eqb a c = true.
Proof.
  unfold residue_eqb.
  intros [[H1 H2]%andb_true_iff H3]%andb_true_iff
         [[H4 H5]%andb_true_iff H6]%andb_true_iff.
  rewrite (chain_eqb_trans _ _ _ H1 H4), (option_string_eqb_trans _ _ _ H3 H6).
  apply Z.eqb_eq in H2, H5. rewrite H2, H5, Z.eqb_refl. done.
Qed.

Instance residue_pykey : PyKey Residue :=
  {| key_eqb := residue_eqb;
     key_eqb_refl := residue_eqb_refl;
     key_eqb_sym := residue_eqb_sym;
     key_eqb_trans := residue_eqb_trans |}.

Lemma atom_eqb_refl a : atom_eqb a a = true.
Proof. unfold atom_eqb. by rewrite residue_eqb_refl, String.eqb_refl. Qed.

Lemma atom_eqb_sym a b : atom_eqb a b = atom_eqb b a.
Proof.
  unfold atom_eqb.
  by rewrite (residue_eqb_sym (atom_residue a)), (String.eqb_sym (atom_name a)).
Qed.

Lemma atom_eqb_trans a b c :
  atom_eqb a b = true → atom_eqb b c = true → atom_eqb a c = true.
Proof.
  unfold atom_eqb. intros [H1 H2]%andb_true_iff [H3 H4]%andb_true_iff.
  by rewrite (residue_eqb_trans _ _ _ H1 H3), (string_eqb_trans _ _ _ H2 H4).
Qed.

Instance atom_pykey : PyKey Atom :=
  {| key_eqb := atom_eqb;
     key_eqb_refl := atom_eqb_refl;
     key_eqb_sym := atom_eqb_sym;
     key_eqb_trans := atom_eqb_trans |}.

(** The conservation table of a chain: [models/pssm.py] (absent) as
    [parse_pssm] builds it. *)
Record PssmRow : Type := {
  conservations : dict AminoAcid float;
  information_content : float
}.

Definition PssmTable : Type := dict Residue PssmRow.

(** [pssm_row.get_conservation(amino_acid)] *)
Definition get_conservation (row : PssmRow) (amino_acid : AminoAcid) : result float :=
  from_option (KeyError (aa_name amino_acid))
              (PyDict.get amino_acid (conservations row)).

(** * Python strings *)

(** Text is taken with code points below 256, one [ascii] per character. *)

(** [str.isspace] of a character: what [str.split()] and [str.strip()]
    take for white space. *)
Definition is_space (c : ascii) : bool :=
  let n := nat_of_ascii c in
  (((9 <=? n) && (n <=? 13)) || ((28 <=? n) && (n <=? 32))
   || (n =? 133) || (n =? 160))%nat.

(** [str.isalpha] of a character. *)
Definition isalpha (c : ascii) : bool :=
  let n := nat_of_ascii c in
  (((65 <=? n) && (n <=? 90)) || ((97 <=? n) && (n <=? 122))
   || (n =? 170) || (n =? 181) || (n =? 186)
   || ((192 <=? n) && (n <=? 214)) || ((216 <=? n) && (n <=? 246))
   || ((248 <=? n) && (n <=? 255)))%nat.

Definition is_digit (c : ascii) : bool :=
  let n := nat_of_ascii c in ((48 <=? n) && (n <=? 57))%nat.

Fixpoint split_from (s : string) (word : list ascii) : list string :=
  match s with
  | EmptyString =>
      match word with
      | [] => []
      | _ => [string_of_list_ascii (rev word)]
      end
  | String c s' =>
      if is_space c then
        match word with
        | [] => split_from s' []
        | _ => string_of_list_ascii (rev word) :: split_from s' []
        end
      else split_from s' (c :: word)
  end.

(** [s.split()] *)
Definition split (s : string) : list string := split_from s [].

Fixpoint lstrip (s : string) : string :=
  match s with
  | EmptyString => EmptyString
  | String c s' => if is_space c then lstrip s' else s
  end.

Definition string_rev (s : string) : string :=
  string_of_list_ascii (rev (list_ascii_of_string s)).

(** [s.strip()] *)
Definition strip (s : string) : string :=
  string_rev (lstrip (string_rev (lstrip s))).

(** [s[-1]] and [s[:-1]] *)
Definition last_char (s : string) : option ascii :=
  last (list_ascii_of_string s).

Definition but_last (s : string) : string :=
  string_of_list_ascii (removelast (list_ascii_of_string s)).

(** The digits of a decimal literal, where single underscores may stand
    between digits. *)
Fixpoint digits_value (acc : Z) (after_digit : bool) (s : string) : option Z :=
  match s with
  | EmptyString => if after_digit then Some acc else None
  | String c s' =>
      if is_digit c then
        digits_value (acc * 10 + (Z.of_nat (nat_of_ascii c) - 48))%Z true s'
      else if Ascii.eqb c "_"%char && after_digit then digits_value acc false s'
      else None
  end.

(** [int(s)] *)
Definition py_int (s : string) : result Z :=
  let literal := "invalid literal for int() with base 10" in
  match strip s with
  | String "+"%char r => from_option (ValueError literal) (digits_value 0 false r)
  | String "-"%char r =>
      from_option (ValueError literal) (Z.opp <$> digits_value 0 false r)
  | r => from_option (ValueError literal) (digits_value 0 false r)
  end.

(** * The PSSM parser: [deeprankcore/tools/pssm.py] *)

Module PssmTools.
Section Parse.

(** [float(s)], the reading of a decimal literal as a binary64 number, and
    the list [amino_acids] of [models/amino_acid.py] (absent). *)
Context (py_float : string → result float) (amino_acids : list AminoAcid).

(** [{amino_acid.one_letter_code: amino_acid for amino_acid in amino_acids}] *)
Definition amino_acids_by_letter : dict string AminoAcid :=
  fold_left (λ d amino_acid, PyDict.set (one_letter_code amino_acid) amino_acid d)
            amino_acids [].

(** [{column_name.strip(): index for index, column_name in enumerate(header)}] *)
Definition column_indices_of (header : list string) : dict string nat :=
  fold_left (λ d (ic : nat * string), PyDict.set (strip ic.2) ic.1 d)
            (imap (λ index column_name, (index, column_name)) header) [].

(** [row[column_indices[column]]] *)
Definition field (column_indices : dict string nat) (row : list string)
    (column : string) : result string :=
  index ← from_option (KeyError column) (PyDict.get column column_indices) ;
  from_option IndexError (row !! index).

(** The residue number and the insertion code of a [pdbresi] field. *)
Definition residue_number_of (pdb_residue_number_string : string)
  : result (Z * option string) :=
  match last_char pdb_residue_number_string with
  | None => Raise IndexError
  | Some c =>
      if isalpha c then
        pdb_residue_number ← py_int (but_last pdb_residue_number_string) ;
        Ok (pdb_residue_number, Some (String c EmptyString))
      else
        pdb_residue_number ← py_int pdb_residue_number_string ;
        Ok (pdb_residue_number, None)
  end.

(** [{amino_acid: float(row[column_indices[amino_acid.one_letter_code]])
      for amino_acid in amino_acids}] *)
Definition conservations_of (column_indices : dict string nat) (row : list string)
  : result (dict AminoAcid float) :=
  for_each
    (λ d amino_acid,
       x ← field column_indices row (one_letter_code amino_acid) ;
       v ← py_float x ;
       Ok (PyDict.set amino_acid v d))
    amino_acids [].

(** The body of the loop over the lines of the file. *)
Definition parse_line (column_indices : dict string nat) (chain : Chain)
    (line : string) : result (Residue * PssmRow) :=
  let row := split line in
  letter ← field column_indices row "pdbresn" ;
  amino_acid ← from_option (KeyError letter)
                           (PyDict.get letter amino_acids_by_letter) ;
  pdb_residue_number_string ← field column_indices row "pdbresi" ;
  ni ← residue_number_of pdb_residue_number_string ;
  let residue := Residue_init chain ni.1 (Some amino_acid) ni.2 in
  ic ← field column_indices row "IC" ;
  information_content ← py_float ic ;
  conservations ← conservations_of column_indices row ;
  Ok (residue, {| conservations := conservations;
                  information_content := information_content |}).

(** [parse_pssm(file_, chain)]: [file_] is given by its lines. *)
Definition parse_pssm (file_ : list string) (chain : Chain) : result PssmTable :=
  match file_ with
  | [] => Raise StopIteration
  | header :: lines =>
      let column_indices := column_indices_of (split header) in
      for_each
        (λ conservation_rows line,
           rr ← parse_line column_indices chain line ;
           Ok (PyDict.set rr.1 rr.2 conservation_rows))
        lines []
  end.

End Parse.
End PssmTools.

Arguments GraphPy.Contact : clear implicits.
Arguments GraphPy.Edge : clear implicits.
Arguments GraphPy.Node : clear implicits.
Arguments GraphPy.Graph : clear implicits.

(** * The PSSM feature attachment: [deeprankcore/feature/pssm.py] *)

(** [sorted(xs, key=key)] for string keys: a stable sort. *)
Fixpoint insert_sorted {A : Type} (key : A → string) (x : A) (l : list A) : list A :=
  match l with
  | [] => [x]
  | y :: l' =>
      if String.ltb (key x) (key y) then x :: l else y :: insert_sorted key x l'
  end.

Definition sorted {A : Type} (key : A → string) (xs : list A) : list A :=
  fold_left (λ acc x, insert_sorted key x acc) xs [].

Module PssmFeature.

(** What a node wraps: a residue, an atom, or an object of another type. *)
Inductive NodeId : Type :=
| IdResidue (r : Residue)
| IdAtom (a : Atom)
| IdOther (type_name : string).

(** [models/variant.py] (absent) *)
Record SingleResidueVariant : Type := {
  variant_residue : Residue;
  wildtype_amino_acid : AminoAcid;
  variant_amino_acid : AminoAcid
}.

Abbreviation Node := (GraphPy.Node NodeId).
Abbreviation Graph := (GraphPy.Graph NodeId string).

Section AddFeatures.

(** The list [amino_acids], [residue.get_pssm()] and the feature names of
    [domain/features.py] are absent: parameters. *)
Context (amino_acids : list AminoAcid).
Context (get_pssm : Residue → result PssmRow).
Context (PSSM INFOCONTENT CONSERVATION DIFFCONSERVATION : string).

Definition profile_amino_acid_order : list AminoAcid :=
  sorted one_letter_code amino_acids.

Definition residue_of (id_ : NodeId) : result Residue :=
  match id_ with
  | IdResidue residue => Ok residue
  | IdAtom atom => Ok (atom_residue atom)
  | IdOther type_name => Raise (TypeError ("Unexpected node type: " ++ type_name))
  end.

(** The body of the loop over the nodes: the features of the node are
    updated in place. *)
Definition add_features_node (single_amino_acid_variant : option SingleResidueVariant)
    (node : Node) : result Node :=
  residue ← residue_of (GraphPy.node_id node) ;
  pssm_row ← get_pssm residue ;
  profile ← map_result (get_conservation pssm_row) profile_amino_acid_order ;
  let features := PyDict.set PSSM (VArray profile) (GraphPy.node_features node) in
  let features :=
    PyDict.set INFOCONTENT (VFloat (information_content pssm_row)) features in
  match single_amino_acid_variant with
  | None =>
      Ok {| GraphPy.node_id := GraphPy.node_id node;
            GraphPy.node_features := features |}
  | Some variant =>
      if residue_eqb residue (variant_residue variant) then
        conservation_wildtype ←
          get_conservation pssm_row (wildtype_amino_acid variant) ;
        conservation_variant ←
          get_conservation pssm_row (variant_amino_acid variant) ;
        let features :=
          PyDict.set CONSERVATION (VFloat conservation_wildtype) features in
        let features :=
          PyDict.set DIFFCONSERVATION
            (VFloat (conservation_variant - conservation_wildtype)%float) features in
        Ok {| GraphPy.node_id := GraphPy.node_id node;
              GraphPy.node_features := features |}
      else
        let features := PyDict.set CONSERVATION (VFloat 0%float) features in
        let features := PyDict.set DIFFCONSERVATION (VFloat 0%float) features in
        Ok {| GraphPy.node_id := GraphPy.node_id node;
              GraphPy.node_features := features |}
  end.

(** [add_features(pdb_path, graph, single_amino_acid_variant)]: the nodes
    of the graph are visited in the order of [graph.nodes]. *)
Definition add_features (pdb_path : string) (graph : Graph)
    (single_amino_acid_variant : option SingleResidueVariant) : result Graph :=
  nodes ← map_result
             (λ kn : NodeId * Node,
                node ← add_features_node single_amino_acid_variant kn.2 ;
                Ok (kn.1, node))
             (GraphPy._nodes graph) ;
  Ok {| GraphPy.graph_id := GraphPy.graph_id graph;
        GraphPy._hdf5_path := GraphPy._hdf5_path graph;
        GraphPy._nodes := nodes;
        GraphPy._edges := GraphPy._edges graph |}.

(** The names the pass writes on every node. *)
Definition added_names (single_amino_acid_variant : option SingleResidueVariant)
  : gset string :=
  match single_amino_acid_variant with
  | None => {[ PSSM; INFOCONTENT ]}
  | Some _ => {[ PSSM; INFOCONTENT; CONSERVATION; DIFFCONSERVATION ]}
  end.

End AddFeatures.
End PssmFeature.

(** * The query builders: [deeprank_gnn/models/query.py] *)

(** ** Paths and structures *)

(** [os.path.basename(p)] *)
Fixpoint basename_from (p : string) (name : string) : string :=
  match p with
  | EmptyString => name
  | String c p' =>
      if Ascii.eqb c "/"%char then basename_from p' EmptyString
      else basename_from p' (name ++ String c EmptyString)
  end.

Definition basename (p : string) : string := basename_from p EmptyString.

(** [p.rfind(c)], counted from one: zero when [c] does not occur. *)
Definition rfind1 (c : ascii) (p : string) : nat :=
  (fold_left (λ (st : nat * nat) x,
                (S st.1, if Ascii.eqb x c then S st.1 else st.2))
             (list_ascii_of_string p) (0, 0)%nat).2.

(** [os.path.splitext(p)[0]]: the last dot starts the extension when it
    stands after the last separator and after a character of the file name
    that is not a dot. *)
Definition splitext_root (p : string) : string :=
  let sep := rfind1 "/"%char p in
  let dot := rfind1 "."%char p in
  let l := list_ascii_of_string p in
  if (sep <? dot)%nat
     && existsb (λ x, negb (Ascii.eqb x "."%char)) (drop sep (take (dot - 1) l))
  then string_of_list_ascii (take (dot - 1) l)
  else p.

(** [str(n)] for an integer *)
Definition str_int (n : Z) : string := pretty n.

Record ChainData : Type := { cd_chain : Chain; cd_residues : list Residue }.

Record Structure : Type := {
  structure_id : string;
  structure_chains : list ChainData
}.

(** [structure.get_chain(chain_id)] *)
Definition get_chain (structure : Structure) (chain_id_ : string) : result ChainData :=
  from_option (ValueError ("chain not found: " ++ chain_id_))
    (find (λ cd, String.eqb (chain_id (cd_chain cd)) chain_id_)
          (structure_chains structure)).

(** [numpy.transpose(numpy.nonzero(m))]: the index pairs of the true
    entries of a matrix, row after row. *)
Definition nonzero (m : list (list bool)) : list (nat * nat) :=
  mjoin (imap (λ i row,
                 mjoin (imap (λ j (b : bool), if b then [(i, j)] else []) row))
              m).

(** ** The atomic query of a single residue variant *)

Module AtomicQuery.

Record Query : Type := {
  _pdb_path : string;
  _pssm_paths : option (dict string string);
  _targets : dict string float;
  _chain_id : string;
  _residue_number : Z;
  _insertion_code : option string;
  _wildtype_amino_acid : AminoAcid;
  _variant_amino_acid : AminoAcid;
  _radius : float;
  _nonbonded_distance_cutoff : float;
  _bonded_distance_cutoff : float;
  _disulfid_distance : float
}.

Definition model_id (q : Query) : string :=
  splitext_root (basename (_pdb_path q)).

Definition residue_id (q : Query) : string :=
  match _insertion_code q with
  | Some code => str_int (_residue_number q) ++ code
  | None => str_int (_residue_number q)
  end.

Definition get_query_id (q : Query) : string :=
  model_id q ++ ":" ++ _chain_id q ++ ":" ++ residue_id q ++ ":"
  ++ aa_name (_wildtype_amino_acid q) ++ "->" ++ aa_name (_variant_amino_acid q).

(** [__eq__] between two queries of this class. *)
Definition eq (q other : Query) : bool :=
  String.eqb (model_id q) (model_id other)
  && String.eqb (_chain_id q) (_chain_id other)
  && String.eqb (residue_id q) (residue_id other)
  && amino_acid_eqb (_wildtype_amino_acid q) (_wildtype_amino_acid other)
  && amino_acid_eqb (_variant_amino_acid q) (_variant_amino_acid other).

Section Hash.
(** [hash] of the tuple of the model id, the chain id, the residue id and
    the two amino acids: a function of that value. *)
Context (py_hash : string * string * string * AminoAcid * AminoAcid → Z).

Definition hash (q : Query) : Z :=
  py_hash (model_id q, _chain_id q, residue_id q, _wildtype_amino_acid q,
           _variant_amino_acid q).
End Hash.

(** The query made without paths to PSSM files. *)
Definition without_pssm (q : Query) : Query :=
  {| _pdb_path := _pdb_path q;
     _pssm_paths := None;
     _targets := _targets q;
     _chain_id := _chain_id q;
     _residue_number := _residue_number q;
     _insertion_code := _insertion_code q;
     _wildtype_amino_acid := _wildtype_amino_acid q;
     _variant_amino_acid := _variant_amino_acid q;
     _radius := _radius q;
     _nonbonded_distance_cutoff := _nonbonded_distance_cutoff q;
     _bonded_distance_cutoff := _bonded_distance_cutoff q;
     _disulfid_distance := _disulfid_distance q |}.

(** The graph is the [Graph] of [graph.py], which [query.py] imports.  It
    is made by [Graph(self.get_query_id(), self.targets)], with the targets
    of the query for second argument, and it would hold atoms. *)
Abbreviation Graph := (GraphPy.Graph Atom (dict string float)).

Section BuildGraph.

(** What [build_graph] calls and [src/] does not hold: the reading of the
    structure ([pdb2sql], [tools.pdb.get_structure]), the opening of a text
    file, [float] and the list [amino_acids] for the PSSM parser,
    [tools.pdb.get_surrounding_residues], [str(atom)] and the feature names
    of [domain/feature.py]. *)
Context (get_structure : string → string → result Structure).
Context (open_text : string → result (list string)).
Context (py_float : string → result float) (amino_acids : list AminoAcid).
Context (get_surrounding_residues : Structure → Residue → float → list Residue).
Context (str_atom : Atom → string).
Context (FEATURENAME_EDGETYPE FEATURENAME_EDGEDISTANCE FEATURENAME_POSITION : string).

Definition _get_atom_node_key (atom : Atom) : string := str_atom atom.

(** The PSSM of every chain is parsed when paths are given; the tables are
    attached to the chains and not used by this query. *)
Definition read_pssm (q : Query) (structure : Structure) : result unit :=
  match _pssm_paths q with
  | None => Ok ()
  | Some paths =>
      for_each
        (λ _ cd,
           let name := chain_id (cd_chain cd) in
           pssm_path ← from_option (KeyError name) (PyDict.get name paths) ;
           f ← open_text pssm_path ;
           _ ← PssmTools.parse_pssm py_float amino_acids f (cd_chain cd) ;
           Ok ())
        (structure_chains structure) ()
  end.

(** The atoms of the residues around the variant residue. *)
Definition query_atoms (q : Query) : result (list Atom) :=
  structure ← get_structure (_pdb_path q) (model_id q) ;
  _ ← read_pssm q structure ;
  chain ← get_chain structure (_chain_id q) ;
  let variant_residues :=
    filter (λ r, Z.eqb (res_number r) (_residue_number q)
                 && option_string_eqb (res_insertion_code r) (_insertion_code q) = true)
           (cd_residues chain) in
  match variant_residues with
  | [] =>
      Raise (ValueError ("Residue " ++ _chain_id q ++ ":" ++ residue_id q
                         ++ " not found in " ++ _pdb_path q))
  | variant_residue :: _ =>
      let residues := get_surrounding_residues structure variant_residue (_radius q) in
      Ok (flat_map residue_atoms residues)
  end.

(** The class of the edge between two atoms at a distance. *)
Definition edge_type_of (q : Query) (atom1 atom2 : Atom) (distance : float)
  : EdgeType :=
  if PrimFloat.ltb distance (_bonded_distance_cutoff q) then EDGETYPE_INTERNAL
  else if String.eqb (atom_name atom1) "SG" && String.eqb (atom_name atom2) "SG"
          && PrimFloat.ltb distance (_disulfid_distance q)
       then EDGETYPE_INTERNAL
       else EDGETYPE_INTERFACE.

(** The state of the loop over the pairs of neighbours: the graph and the
    dictionary [atom_node_names]. *)
Definition loop_state : Type := Graph * dict Atom string.

Definition neighbour_step (q : Query) (atoms : list Atom)
    (distances : list (list float)) (st : loop_state) (ij : nat * nat)
  : result loop_state :=
  let atom1_index := ij.1 in
  let atom2_index := ij.2 in
  if negb (atom1_index =? atom2_index)%nat then
    distance_row ← from_option IndexError (distances !! atom1_index) ;
    distance ← from_option IndexError (distance_row !! atom2_index) ;
    atom1 ← from_option IndexError (atoms !! atom1_index) ;
    atom2 ← from_option IndexError (atoms !! atom2_index) ;
    let atom1_key := _get_atom_node_key atom1 in
    let atom2_key := _get_atom_node_key atom2 in
    let edge_type := edge_type_of q atom1 atom2 distance in
    graph ← GraphPy.add_edge_call st.1 [atom1_key; atom2_key] ;
    edge ← GraphPy.list_getitem (GraphPy.edges graph)
              (GraphPy.SPair atom1_key atom2_key) ;
    _ ← GraphPy.object_setitem edge FEATURENAME_EDGETYPE (VEdgeType edge_type) ;
    edge ← GraphPy.list_getitem (GraphPy.edges graph)
              (GraphPy.SPair atom1_key atom2_key) ;
    _ ← GraphPy.object_setitem edge FEATURENAME_EDGEDISTANCE (VFloat distance) ;
    let atom_node_names := PyDict.set atom1 atom1_key st.2 in
    let atom_node_names := PyDict.set atom2 atom2_key atom_node_names in
    Ok (graph, atom_node_names)
  else Ok st.

Definition neighbour_pairs (q : Query) (distances : list (list float))
  : list (nat * nat) :=
  nonzero (fmap (M:=list)
             (fmap (M:=list) (λ d, PrimFloat.ltb d (_nonbonded_distance_cutoff q)))
             distances).

(** [build_graph] from the list of atoms on. *)
Definition graph_of_atoms (q : Query) (atoms : list Atom) : result Graph :=
  let graph := GraphPy.Graph_init (get_query_id q) (_targets q) in
  let atom_positions := atom_position <$> atoms in
  distances ← distance_matrix atom_positions atom_positions ;
  st ← for_each (neighbour_step q atoms distances)
                (neighbour_pairs q distances) (graph, []) ;
  for_each
    (λ graph (an : Atom * string),
       node ← GraphPy.list_getitem (GraphPy.nodes graph) (GraphPy.SName an.2) ;
       _ ← GraphPy.object_setitem node FEATURENAME_POSITION
             (array_of_position (atom_position an.1)) ;
       Ok graph)
    (PyDict.items st.2) st.1.

Definition build_graph (q : Query) : result Graph :=
  atoms ← query_atoms q ;
  graph_of_atoms q atoms.

End BuildGraph.
End AtomicQuery.

(** ** The residue query of a protein-protein interface *)

Module InterfaceQuery.

Record Query : Type := {
  _pdb_path : string;
  _chain_id1 : string;
  _chain_id2 : string;
  _pssm_paths : option (dict string string);
  _interface_distance_cutoff : float;
  _internal_distance_cutoff : float;
  _use_biopython : bool;
  _targets : dict string float
}.

Definition model_id (q : Query) : string :=
  splitext_root (basename (_pdb_path q)).

(** ["{}:{}-{}".format(self.model_id, self._chain_id1, self._chain_id2)] *)
Definition get_query_id (q : Query) : string :=
  model_id q ++ ":" ++ _chain_id1 q ++ "-" ++ _chain_id2 q.

(** [__eq__] between two queries of this class: the model ids are equal
    and the sets of the two chain ids are equal. *)
Definition eq (q other : Query) : bool :=
  String.eqb (model_id q) (model_id other)
  && bool_decide (({[ _chain_id1 q; _chain_id2 q ]} : gset string)
                  = {[ _chain_id1 other; _chain_id2 other ]}).

(** [sorted([a, b])] *)
Definition sorted_pair (a b : string) : list string :=
  if String.ltb b a then [b; a] else [a; b].

Section Hash.
(** [hash] of a pair of a string and a tuple of strings: a function of
    that value. *)
Context (py_hash : string * list string → Z).

Definition hash (q : Query) : Z :=
  py_hash (model_id q, sorted_pair (_chain_id1 q) (_chain_id2 q)).
End Hash.

(** The query with the two chains in the other order. *)
Definition swapped (q : Query) : Query :=
  {| _pdb_path := _pdb_path q;
     _chain_id1 := _chain_id2 q;
     _chain_id2 := _chain_id1 q;
     _pssm_paths := _pssm_paths q;
     _interface_distance_cutoff := _interface_distance_cutoff q;
     _internal_distance_cutoff := _internal_distance_cutoff q;
     _use_biopython := _use_biopython q;
     _targets := _targets q |}.

(** A chain id without the hyphen that [get_query_id] puts between the
    two chain ids. *)
Fixpoint hyphen_free (s : string) : bool :=
  match s with
  | EmptyString => true
  | String c s' => negb (Ascii.eqb c "-"%char) && hyphen_free s'
  end.

(** A set of residues, listed in the order of insertion. *)
Definition set_add (r : Residue) (s : list Residue) : list Residue :=
  if existsb (residue_eqb r) s then s else s ++ [r].

(** The graph is the [Graph] of [graph.py], which [query.py] imports.  It
    is made by [Graph(self.get_query_id(), self.targets)], with the targets
    of the query for second argument, and it would hold residues. *)
Abbreviation Graph := (GraphPy.Graph Residue (dict string float)).

Section BuildGraph.

(** What [build_graph] calls and [src/] does not hold: the contact search
    and the residue distance of [tools/pdb.py], the chains of a model, the
    opening of a text file, [float] and [amino_acids] for the PSSM parser,
    the tables attached to chains before the call, the buried surface area
    of [tools/BSA.py], the depth and half sphere exposure of
    [tools/BioWrappers.py], [str(residue)], the feature names of
    [domain/feature.py] and the amino acids of [domain/amino_acid.py] that
    [amino_acid_order] lists. *)
Context (get_residue_contact_pairs :
           string → string → string → string → float → result (list (Residue * Residue))).
Context (get_residue_distance : Residue → Residue → float).
Context (model_get_chain : string → string → result Chain).
Context (open_text : string → result (list string)).
Context (py_float : string → result float) (amino_acids : list AminoAcid).
Context (attached_pssm : dict Chain PssmTable).
Context (get_bsa_data : string → float → result (string * Z * string → option float)).
Context (get_depth_contact_res :
           string → list (string * Z * string) → result (dict Residue float)).
Context (get_hse : string → result (string * Z → option (list float))).
Context (str_residue : Residue → string).
Context (FEATURENAME_EDGEDISTANCE FEATURENAME_EDGETYPE FEATURENAME_CHAIN
         FEATURENAME_POSITION FEATURENAME_AMINOACID FEATURENAME_CHARGE
         FEATURENAME_POLARITY FEATURENAME_BURIEDSURFACEAREA FEATURENAME_PSSM
         FEATURENAME_CONSERVATION FEATURENAME_INFORMATIONCONTENT
         FEATURENAME_RESIDUEDEPTH FEATURENAME_HALFSPHEREEXPOSURE : string).
Context (amino_acid_order : list AminoAcid).

(** [_residue_is_valid(residue)], with the lines written to the log. *)
Definition _residue_is_valid (pssm : dict Chain PssmTable) (residue : Residue)
    (log : list string) : result (bool * list string) :=
  match res_amino_acid residue with
  | None => Ok (false, log)
  | Some _ =>
      match PyDict.get (res_chain residue) pssm with
      | None => Raise (TypeError "argument of type 'NoneType' is not iterable")
      | Some table =>
          if negb (PyDict.contains residue table)
          then Ok (false, log ++ [(str_residue residue ++ " not in pssm")%string])
          else Ok (true, log)
      end
  end.

Definition _get_residue_node_key (residue : Residue) : string := str_residue residue.

(** [residue.get_pssm()] *)
Definition get_pssm (pssm : dict Chain PssmTable) (residue : Residue) : result PssmRow :=
  table ← from_option (ValueError "pssm not set") (PyDict.get (res_chain residue) pssm) ;
  from_option (KeyError (str_residue residue)) (PyDict.get residue table).

(** The tables of the two chains are parsed and attached when paths are
    given. *)
Definition read_pssm (q : Query) (chain1 chain2 : Chain) : result (dict Chain PssmTable) :=
  match _pssm_paths q with
  | None => Ok attached_pssm
  | Some paths =>
      for_each
        (λ pssm chain,
           pssm_path ← from_option (KeyError (chain_id chain))
                                   (PyDict.get (chain_id chain) paths) ;
           f ← open_text pssm_path ;
           table ← PssmTools.parse_pssm py_float amino_acids f chain ;
           Ok (PyDict.set chain table pssm))
        [chain1; chain2] attached_pssm
  end.

(** The residues of a pair are put with their chain when they are valid. *)
Definition place (q : Query) (residue : Residue)
    (sets : list Residue * list Residue) : list Residue * list Residue :=
  if String.eqb (chain_id (res_chain residue)) (_chain_id1 q)
  then (set_add residue sets.1, sets.2)
  else if String.eqb (chain_id (res_chain residue)) (_chain_id2 q)
       then (sets.1, set_add residue sets.2)
       else sets.

Definition separate_step (q : Query) (pssm : dict Chain PssmTable)
    (st : (list Residue * list Residue) * list string) (pair : Residue * Residue)
  : result ((list Residue * list Residue) * list string) :=
  '(valid1, log1) ← _residue_is_valid pssm pair.1 st.2 ;
  let sets := if valid1 : bool then place q pair.1 st.1 else st.1 in
  '(valid2, log2) ← _residue_is_valid pssm pair.2 log1 ;
  let sets := if valid2 : bool then place q pair.2 sets else sets in
  Ok (sets, log2).

(** The state of the loops that add edges: the graph, the dictionary
    [residues_by_node] and the log. *)
Record build_state : Type := {
  graph : Graph;
  residues_by_node : dict string Residue;
  log : list string
}.

Definition add_contact (edge_type : EdgeType) (residue1 residue2 : Residue)
    (distance : float) (st : build_state) : result build_state :=
  let key1 := _get_residue_node_key residue1 in
  let key2 := _get_residue_node_key residue2 in
  let residues_by_node := PyDict.set key1 residue1 (residues_by_node st) in
  let residues_by_node := PyDict.set key2 residue2 residues_by_node in
  g ← GraphPy.add_edge_call (graph st) [key1; key2] ;
  edge ← GraphPy.list_getitem (GraphPy.edges g) (GraphPy.SPair key1 key2) ;
  _ ← GraphPy.object_setitem edge FEATURENAME_EDGEDISTANCE (VFloat distance) ;
  edge ← GraphPy.list_getitem (GraphPy.edges g) (GraphPy.SPair key1 key2) ;
  _ ← GraphPy.object_setitem edge FEATURENAME_EDGETYPE (VEdgeType edge_type) ;
  Ok {| graph := g; residues_by_node := residues_by_node; log := log st |}.

Definition interface_step (pssm : dict Chain PssmTable) (st : build_state)
    (pair : Residue * Residue) : result build_state :=
  '(valid1, log1) ← _residue_is_valid pssm pair.1 (log st) ;
  if valid1 : bool then
    '(valid2, log2) ← _residue_is_valid pssm pair.2 log1 ;
    let st := {| graph := graph st; residues_by_node := residues_by_node st;
                 log := log2 |} in
    if valid2 : bool then
      let distance := get_residue_distance pair.1 pair.2 in
      add_contact EDGETYPE_INTERFACE pair.1 pair.2 distance st
    else Ok st
  else
    Ok {| graph := graph st; residues_by_node := residues_by_node st;
          log := log1 |}.

(** [for index, residue1 in enumerate(residue_list):
       for residue2 in residue_list[index + 1:]: ...] *)
Definition internal_step (q : Query) (residue1 : Residue) (st : build_state)
    (residue2 : Residue) : result build_state :=
  let distance := get_residue_distance residue1 residue2 in
  if PrimFloat.ltb distance (_internal_distance_cutoff q)
  then add_contact EDGETYPE_INTERNAL residue1 residue2 distance st
  else Ok st.

Fixpoint internal_edges (q : Query) (residue_list : list Residue) (st : build_state)
  : result build_state :=
  match residue_list with
  | [] => Ok st
  | residue1 :: rest =>
      st ← for_each (internal_step q residue1) rest st ;
      internal_edges q rest st
  end.

(** The features of one node. *)
Definition node_features_of (q : Query) (pssm : dict Chain PssmTable)
    (chain_codes : dict Chain float) (bsa_data : string * Z * string → option float)
    (bio : option (dict Residue float * (string * Z → option (list float))))
    (residues : dict string Residue) (node_key : string) (node : features)
  : result features :=
  residue ← from_option (KeyError node_key) (PyDict.get node_key residues) ;
  amino_acid ← from_option (AttributeError "three_letter_code")
                           (res_amino_acid residue) ;
  let bsa_key := (chain_id (res_chain residue), res_number residue,
                  three_letter_code amino_acid) in
  let bio_key := (chain_id (res_chain residue), res_number residue) in
  pssm_row ← get_pssm pssm residue ;
  pssm_value ← map_result
                  (λ a, from_option (KeyError (aa_name a))
                                    (PyDict.get a (conservations pssm_row)))
                  amino_acid_order ;
  chain_code ← from_option (KeyError (chain_id (res_chain residue)))
                           (PyDict.get (res_chain residue) chain_codes) ;
  let node := PyDict.set FEATURENAME_CHAIN (VFloat chain_code) node in
  let node := PyDict.set FEATURENAME_POSITION
                (array_of_position (numpy_mean (map snd (res_atoms residue)))) node in
  let node := PyDict.set FEATURENAME_AMINOACID (VArray (aa_onehot amino_acid)) node in
  let node := PyDict.set FEATURENAME_CHARGE (VFloat (aa_charge amino_acid)) node in
  let node := PyDict.set FEATURENAME_POLARITY (VArray (aa_polarity amino_acid)) node in
  bsa ← from_option (KeyError "bsa") (bsa_data bsa_key) ;
  let node := PyDict.set FEATURENAME_BURIEDSURFACEAREA (VFloat bsa) node in
  node ←
    match _pssm_paths q with
    | None => Ok node
    | Some _ =>
        let node := PyDict.set FEATURENAME_PSSM (VArray pssm_value) node in
        conservation ← from_option (KeyError (aa_name amino_acid))
                          (PyDict.get amino_acid (conservations pssm_row)) ;
        let node := PyDict.set FEATURENAME_CONSERVATION (VFloat conservation) node in
        Ok (PyDict.set FEATURENAME_INFORMATIONCONTENT
              (VFloat (information_content pssm_row)) node)
    end ;
  match bio with
  | None => Ok node
  | Some bio =>
      let depth := default 0%float (PyDict.get residue bio.1) in
      let node := PyDict.set FEATURENAME_RESIDUEDEPTH (VFloat depth) node in
      let exposure := default [0%float; 0%float; 0%float] (bio.2 bio_key) in
      Ok (PyDict.set FEATURENAME_HALFSPHEREEXPOSURE (VArray exposure) node)
  end.

(** [build_graph]: the graph and the lines written to the log. *)
Definition build_graph (q : Query) : result (Graph * list string) :=
  interface_pairs ← get_residue_contact_pairs (_pdb_path q) (model_id q)
                      (_chain_id1 q) (_chain_id2 q) (_interface_distance_cutoff q) ;
  match interface_pairs with
  | [] => Raise (ValueError "no interface residues found")
  | first :: _ =>
      let model := chain_model (res_chain first.1) in
      chain1 ← model_get_chain model (_chain_id1 q) ;
      chain2 ← model_get_chain model (_chain_id2 q) ;
      pssm ← read_pssm q chain1 chain2 ;
      sets ← for_each (separate_step q pssm) interface_pairs (([], []), []) ;
      let residues_from_chain1 := sets.1.1 in
      let residues_from_chain2 := sets.1.2 in
      let st := {| graph := GraphPy.Graph_init (get_query_id q) (_targets q);
                   residues_by_node := []; log := sets.2 |} in
      st ← for_each (interface_step pssm) interface_pairs st ;
      st ← for_each (λ st residue_set, internal_edges q residue_set st)
                    [residues_from_chain1; residues_from_chain2] st ;
      bsa_data ← get_bsa_data (_pdb_path q) (_interface_distance_cutoff q) ;
      bio ←
        (if _use_biopython q then
           contact_residues ←
             map_result
               (λ residue,
                  amino_acid ← from_option (AttributeError "three_letter_code")
                                           (res_amino_acid residue) ;
                  Ok (chain_id (res_chain residue), res_number residue,
                      three_letter_code amino_acid))
               (PyDict.values (residues_by_node st)) ;
           residue_depths ← get_depth_contact_res (_pdb_path q) contact_residues ;
           hse ← get_hse (_pdb_path q) ;
           Ok (Some (residue_depths, hse))
         else Ok None) ;
      let chain_codes := PyDict.set chain2 1%float (PyDict.set chain1 0%float []) in
      items ← GraphPy.list_items (GraphPy.nodes (graph st)) ;
      _ ← map_result
             (λ kn : string * features,
                node ← node_features_of q pssm chain_codes bsa_data bio
                         (residues_by_node st) kn.1 kn.2 ;
                Ok (kn.1, node))
             items ;
      Ok (graph st, log st)
  end.

End BuildGraph.
End InterfaceQuery.

(** ** The collection of queries *)

Module QueryDataset.

(** A query of one of the two classes. *)
Inductive Query : Type :=
| Atomic (q : AtomicQuery.Query)
| Interface (q : InterfaceQuery.Query).

(** [query == other]: the [__eq__] of both classes asks first for
    [type(self) == type(other)]. *)
Definition query_eq (query other : Query) : bool :=
  match query, other with
  | Atomic q, Atomic o => AtomicQuery.eq q o
  | Interface q, Interface o => InterfaceQuery.eq q o
  | _, _ => false
  end.

Record QueryDataset : Type := { _queries : list Query }.

Definition QueryDataset_init : QueryDataset := {| _queries := [] |}.

(** [self._queries.append(query)] *)
Definition add (dataset : QueryDataset) (query : Query) : QueryDataset :=
  {| _queries := _queries dataset ++ [query] |}.

Definition queries (dataset : QueryDataset) : list Query := _queries dataset.

(** [query in self._queries]: some element of the list is the query or
    compares equal to it. *)
Definition contains (dataset : QueryDataset) (query : Query) : bool :=
  existsb (λ element, query_eq element query) (_queries dataset).

(** [iter(self._queries)], by the elements it yields. *)
Definition iter (dataset : QueryDataset) : list Query := _queries dataset.

End QueryDataset.

(** * Examples *)

(** Small inputs on which the definitions above are run. *)
Module Example.

(** ** A graph of two nodes and one edge, as in [tests/models/test_graph.py] *)

(** The entities are the points of a list, named by their place. *)
Definition points : list Position :=
  [ {| px := 0; py := 0; pz := 0 |};
    {| px := 3; py := 0; pz := 0 |};
    {| px := 0; py := 4; pz := 2 |} ]%float.

Definition point_position (i : nat) : Position :=
  default {| px := 0; py := 0; pz := 0 |}%float (points !! i).

Lemma nat_eqb_trans (a b c : nat) :
  Nat.eqb a b = true → Nat.eqb b c = true → Nat.eqb a c = true.
Proof. intros ->%Nat.eqb_eq ->%Nat.eqb_eq. apply Nat.eqb_refl. Qed.

#[global] Instance point_pykey : PyKey nat :=
  {| key_eqb := Nat.eqb;
     key_eqb_refl := Nat.eqb_refl;
     key_eqb_sym := Nat.eqb_sym;
     key_eqb_trans := nat_eqb_trans |}.

Lemma point_position_proper (a b : nat) :
  Nat.eqb a b = true → point_position a = point_position b.
Proof. by intros ->%Nat.eqb_eq. Qed.

#[global] Instance point_entity : Entity nat :=
  {| entity_key := point_pykey;
     position := point_position;
     position_proper := point_position_proper |}.

Definition node0 : GraphPy.Node nat :=
  {| GraphPy.node_id := 0; GraphPy.node_features := [("node_feature", VArray [0.5%float])] |}.

Definition node1 : GraphPy.Node nat :=
  {| GraphPy.node_id := 1; GraphPy.node_features := [("node_feature", VArray [1%float])] |}.

Definition edge01 : GraphPy.Edge nat :=
  {| GraphPy.edge_id := {| GraphPy.item1 := 0; GraphPy.item2 := 1 |};
     GraphPy.edge_features := [("edge_feature", VArray [2%float])] |}.

Definition graph01 : GraphPy.Graph nat string :=
  GraphPy.add_edge
    (GraphPy.add_node (GraphPy.add_node (GraphPy.Graph_init "test" "101m.hdf5") node0)
                      node1)
    edge01.

(** The same pair of points, the other way round. *)
Definition edge10 : GraphPy.Edge nat :=
  {| GraphPy.edge_id := {| GraphPy.item1 := 1; GraphPy.item2 := 0 |};
     GraphPy.edge_features := [("edge_feature", VArray [4%float])] |}.

(** An edge from the point 2 to itself. *)
Definition edge22 : GraphPy.Edge nat :=
  GraphPy.Edge_init {| GraphPy.item1 := 2; GraphPy.item2 := 2 |}.

(** A kernel that keeps, for every feature, the first components of the
    values in the order of their arrival. *)
Definition record_features (grid : Grid) (p : Position) (name : string) (x : value)
    (method : MapMethod) : Grid :=
  let component :=
    match x with
    | VFloat y => [y]
    | VArray ys => take 1 ys
    | VEdgeType _ => []
    end in
  {| grid_id := grid_id grid; grid_settings := grid_settings grid;
     grid_center := grid_center grid;
     grid_features :=
       PyDict.set name
         (default [] (PyDict.get name (grid_features grid)) ++ component)
         (grid_features grid) |}.

Definition settings : GridSettings := {| points_count := 20; size := 20%float |}.

(** ** A structure of two cysteines *)

Definition alanine : AminoAcid :=
  {| aa_name := "Alanine"; three_letter_code := "ALA"; one_letter_code := "A";
     aa_charge := 0%float; aa_polarity := [1; 0]%float;
     aa_onehot := [1; 0; 0]%float |}.

Definition cysteine : AminoAcid :=
  {| aa_name := "Cysteine"; three_letter_code := "CYS"; one_letter_code := "C";
     aa_charge := 0%float; aa_polarity := [0; 1]%float;
     aa_onehot := [0; 1; 0]%float |}.

Definition glycine : AminoAcid :=
  {| aa_name := "Glycine"; three_letter_code := "GLY"; one_letter_code := "G";
     aa_charge := 0%float; aa_polarity := [1; 0]%float;
     aa_onehot := [0; 0; 1]%float |}.

Definition amino_acids : list AminoAcid := [alanine; cysteine; glycine].

Definition chainA : Chain := {| chain_model := "1abc"; chain_id := "A" |}.
Definition chainB : Chain := {| chain_model := "1abc"; chain_id := "B" |}.

Definition cys1 : Residue :=
  {| res_chain := chainA; res_number := 1; res_amino_acid := Some cysteine;
     res_insertion_code := None;
     res_atoms := [ ("N", {| px := 0; py := 0; pz := 0 |});
                    ("CA", {| px := 1.5; py := 0; pz := 0 |});
                    ("SG", {| px := 1.5; py := 0; pz := 3 |}) ]%float |}.

Definition cys2 : Residue :=
  {| res_chain := chainA; res_number := 2; res_amino_acid := Some cysteine;
     res_insertion_code := None;
     res_atoms := [ ("SG", {| px := 1.5; py := 2; pz := 3 |});
                    ("CA", {| px := 1.5; py := 2; pz := 9 |}) ]%float |}.

Definition structure : Structure :=
  {| structure_id := "1abc";
     structure_chains := [ {| cd_chain := chainA; cd_residues := [cys1; cys2] |} ] |}.

Definition get_structure (pdb_path model : string) : result Structure :=
  if String.eqb pdb_path "data/1abc.pdb" then Ok structure
  else Raise (IOError pdb_path).

Definition open_text (path : string) : result (list string) :=
  Raise (IOError path).

(** Every residue of the structure lies within the radius. *)
Definition get_surrounding_residues (s : Structure) (r : Residue) (radius : float)
  : list Residue :=
  flat_map cd_residues (structure_chains s).

Definition str_residue (r : Residue) : string :=
  chain_model (res_chain r) ++ " " ++ chain_id (res_chain r) ++ " "
  ++ str_int (res_number r) ++ default "" (res_insertion_code r).

Definition str_atom (a : Atom) : string :=
  str_residue (atom_residue a) ++ " " ++ atom_name a.

(** A reader of plain decimal literals: a sign, digits and a fraction. *)
Fixpoint plain_digits (acc : Z) (s : string) : option Z :=
  match s with
  | EmptyString => Some acc
  | String c s' =>
      if is_digit c
      then plain_digits (acc * 10 + (Z.of_nat (nat_of_ascii c) - 48))%Z s'
      else None
  end.

Fixpoint split_at_dot (s : string) (whole : string) : string * string :=
  match s with
  | EmptyString => (whole, EmptyString)
  | String c s' =>
      if Ascii.eqb c "."%char then (whole, s')
      else split_at_dot s' (String.append whole (String c EmptyString))
  end.

Definition float_of_Z (z : Z) : float :=
  if (z <? 0)%Z then PrimFloat.opp (PrimFloat.of_uint63 (Uint63.of_Z (- z)))
  else PrimFloat.of_uint63 (Uint63.of_Z z).

Definition decimal_float (s : string) : result float :=
  let literal := "could not convert string to float" in
  let signed :=
    match s with
    | String "-"%char r => (true, r)
    | String "+"%char r => (false, r)
    | _ => (false, s)
    end in
  let parts := split_at_dot signed.2 EmptyString in
  match String.append parts.1 parts.2 with
  | EmptyString => Raise (ValueError literal)
  | all_digits =>
      match plain_digits 0 all_digits with
      | None => Raise (ValueError literal)
      | Some n =>
          let x := (float_of_Z n
                    / float_of_Z (10 ^ Z.of_nat (String.length parts.2)))%float in
          Ok (if signed.1 then PrimFloat.opp x else x)
      end
  end.

Definition atomic_query : AtomicQuery.Query :=
  {| AtomicQuery._pdb_path := "data/1abc.pdb";
     AtomicQuery._pssm_paths := None;
     AtomicQuery._targets := [];
     AtomicQuery._chain_id := "A";
     AtomicQuery._residue_number := 1;
     AtomicQuery._insertion_code := None;
     AtomicQuery._wildtype_amino_acid := cysteine;
     AtomicQuery._variant_amino_acid := alanine;
     AtomicQuery._radius := 10%float;
     AtomicQuery._nonbonded_distance_cutoff := 4.5%float;
     AtomicQuery._bonded_distance_cutoff := 1.5625%float;
     AtomicQuery._disulfid_distance := 2.25%float |}.

Definition atomic_query_atoms (q : AtomicQuery.Query) : result (list Atom) :=
  AtomicQuery.query_atoms get_structure open_text decimal_float amino_acids
    get_surrounding_residues q.

Definition atomic_build_graph (q : AtomicQuery.Query) : result AtomicQuery.Graph :=
  AtomicQuery.build_graph get_structure open_text decimal_float amino_acids
    get_surrounding_residues str_atom "type" "dist" "pos" q.

(** ** An interface between two chains *)

Definition gly1 : Residue :=
  {| res_chain := chainB; res_number := 1; res_amino_acid := Some glycine;
     res_insertion_code := None;
     res_atoms := [ ("CA", {| px := 1.5; py := 4; pz := 3 |}) ]%float |}.

Definition gly2 : Residue :=
  {| res_chain := chainB; res_number := 2; res_amino_acid := Some glycine;
     res_insertion_code := None;
     res_atoms := [ ("CA", {| px := 1.5; py := 6; pz := 3 |}) ]%float |}.

(** A residue of chain A whose amino acid is unknown. *)
Definition unknown3 : Residue :=
  {| res_chain := chainA; res_number := 3; res_amino_acid := None;
     res_insertion_code := None;
     res_atoms := [ ("CA", {| px := 1.5; py := 4; pz := 5 |}) ]%float |}.

(** A residue of chain A that the table of chain A does not hold. *)
Definition ala4 : Residue :=
  {| res_chain := chainA; res_number := 4; res_amino_acid := Some alanine;
     res_insertion_code := Some "A";
     res_atoms := [ ("CA", {| px := 1.5; py := 6; pz := 5 |}) ]%float |}.

Definition pssm_lines_A : list string :=
  [ "pdbresi pdbresn seqresi seqresn A C G IC";
    "1 C 1 C -1 9 -3 0.5";
    "2 C 2 C -2 8 -3 0.25" ].

Definition pssm_lines_B : list string :=
  [ "pdbresi pdbresn seqresi seqresn A C G IC";
    "1 G 1 G 0 -3 6 0.75";
    "2 G 2 G 1 -2 5 1.5";
    "2A A 3 A 4 -1 0 0.125" ].

Definition pssm_file (path : string) : result (list string) :=
  if String.eqb path "A.pssm" then Ok pssm_lines_A
  else if String.eqb path "B.pssm" then Ok pssm_lines_B
  else Raise (IOError path).

Definition pssm_table_B : PssmTable :=
  Eval vm_compute in
    match PssmTools.parse_pssm decimal_float amino_acids pssm_lines_B chainB with
    | Ok table => table
    | Raise _ => []
    end.

Definition contact_pairs : list (Residue * Residue) :=
  [ (cys1, gly1); (unknown3, gly1); (ala4, gly2); (cys2, gly1) ].

Definition get_residue_contact_pairs (pdb_path model chain1 chain2 : string)
    (cutoff : float) : result (list (Residue * Residue)) :=
  if String.eqb chain1 "A" && String.eqb chain2 "B" then
    if String.eqb model "1abc" then Ok contact_pairs else Ok [(unknown3, gly1)]
  else Ok [].

(** The smallest distance between an atom of one residue and an atom of
    the other. *)
Definition get_residue_distance (r1 r2 : Residue) : float :=
  fold_left
    (λ least d, if PrimFloat.ltb d least then d else least)
    (flat_map (λ a, map (λ b, euclidean a.2 b.2) (res_atoms r2)) (res_atoms r1))
    PrimFloat.infinity.

Definition model_get_chain (model chain_id_ : string) : result Chain :=
  if String.eqb model "1abc"
     && (String.eqb chain_id_ "A" || String.eqb chain_id_ "B")
  then Ok {| chain_model := model; chain_id := chain_id_ |}
  else Raise (ValueError chain_id_).

Definition bsa_data (key : string * Z * string) : option float := Some 1.5%float.

Definition get_bsa_data (pdb_path : string) (cutoff : float)
  : result (string * Z * string → option float) := Ok bsa_data.

Definition get_depth_contact_res (pdb_path : string)
    (residues : list (string * Z * string)) : result (dict Residue float) := Ok [].

Definition get_hse (pdb_path : string)
  : result (string * Z → option (list float)) := Ok (λ _, None).

Definition interface_query : InterfaceQuery.Query :=
  {| InterfaceQuery._pdb_path := "data/1abc.pdb";
     InterfaceQuery._chain_id1 := "A";
     InterfaceQuery._chain_id2 := "B";
     InterfaceQuery._pssm_paths := Some [("A", "A.pssm"); ("B", "B.pssm")];
     InterfaceQuery._interface_distance_cutoff := 8.5%float;
     InterfaceQuery._internal_distance_cutoff := 3%float;
     InterfaceQuery._use_biopython := false;
     InterfaceQuery._targets := [] |}.

(** The query of a file in which the contact search finds one pair, with
    the residue whose amino acid is unknown. *)
Definition unknown_query : InterfaceQuery.Query :=
  {| InterfaceQuery._pdb_path := "data/1abc_unknown.pdb";
     InterfaceQuery._chain_id1 := "A";
     InterfaceQuery._chain_id2 := "B";
     InterfaceQuery._pssm_paths := Some [("A", "A.pssm"); ("B", "B.pssm")];
     InterfaceQuery._interface_distance_cutoff := 8.5%float;
     InterfaceQuery._internal_distance_cutoff := 3%float;
     InterfaceQuery._use_biopython := false;
     InterfaceQuery._targets := [] |}.

(** The same query for a chain that touches no other. *)
Definition lonely_query : InterfaceQuery.Query :=
  {| InterfaceQuery._pdb_path := "data/1abc.pdb";
     InterfaceQuery._chain_id1 := "A";
     InterfaceQuery._chain_id2 := "C";
     InterfaceQuery._pssm_paths := None;
     InterfaceQuery._interface_distance_cutoff := 8.5%float;
     InterfaceQuery._internal_distance_cutoff := 3%float;
     InterfaceQuery._use_biopython := false;
     InterfaceQuery._targets := [] |}.

(** Two chain ids with a hyphen in one of them. *)
Definition hyphen_query : InterfaceQuery.Query :=
  {| InterfaceQuery._pdb_path := "data/1abc.pdb";
     InterfaceQuery._chain_id1 := "A-A";
     InterfaceQuery._chain_id2 := "A";
     InterfaceQuery._pssm_paths := None;
     InterfaceQuery._interface_distance_cutoff := 8.5%float;
     InterfaceQuery._internal_distance_cutoff := 3%float;
     InterfaceQuery._use_biopython := false;
     InterfaceQuery._targets := [] |}.

Definition string_hash (x : string * list string) : Z :=
  Z.of_nat (String.length x.1 + sum_list (map String.length x.2)).

Definition interface_build_graph (q : InterfaceQuery.Query)
  : result (InterfaceQuery.Graph * list string) :=
  InterfaceQuery.build_graph get_residue_contact_pairs get_residue_distance
    model_get_chain pssm_file decimal_float amino_acids [] get_bsa_data
    get_depth_contact_res get_hse str_residue
    "dist" "type" "chain" "pos" "res_type" "charge" "polarity" "bsa" "pssm"
    "cons" "ic" "depth" "hse" [alanine; cysteine; glycine] q.

Definition interface_pssm : dict Chain PssmTable :=
  Eval vm_compute in
    match InterfaceQuery.read_pssm pssm_file decimal_float amino_acids []
            interface_query chainA chainB with
    | Ok pssm => pssm
    | Raise _ => []
    end.

Definition amino_acid_order : list AminoAcid := amino_acids.

(** ** A graph for the PSSM features *)

(** A residue node and an atom node, without features yet. *)
Definition pssm_graph : PssmFeature.Graph :=
  {| GraphPy.graph_id := "1abc";
     GraphPy._hdf5_path := "1abc.hdf5";
     GraphPy._nodes :=
       [ (PssmFeature.IdResidue cys1,
          GraphPy.Node_init (PssmFeature.IdResidue cys1));
         (PssmFeature.IdAtom {| atom_residue := cys2; atom_name := "SG";
                                atom_position := {| px := 1.5; py := 2; pz := 3 |} |},
          GraphPy.Node_init
            (PssmFeature.IdAtom {| atom_residue := cys2; atom_name := "SG";
                                   atom_position := {| px := 1.5; py := 2; pz := 3 |} |})) ];
     GraphPy._edges := [] |}%float.

Definition variant : PssmFeature.SingleResidueVariant :=
  {| PssmFeature.variant_residue := cys1;
     PssmFeature.wildtype_amino_acid := cysteine;
     PssmFeature.variant_amino_acid := alanine |}.

Definition get_pssm (r : Residue) : result PssmRow :=
  InterfaceQuery.get_pssm str_residue interface_pssm r.

Definition pssm_add_features (g : PssmFeature.Graph)
    (v : option PssmFeature.SingleResidueVariant) : result PssmFeature.Graph :=
  PssmFeature.add_features amino_acids get_pssm "pssm" "info_content"
    "conservation" "diff_conservation" "data/1abc.pdb" g v.

Definition pssm_graph_after : PssmFeature.Graph :=
  Eval vm_compute in
    match pssm_add_features pssm_graph (Some variant) with
    | Ok g => g
    | Raise _ => pssm_graph
    end.

(** The atoms of the example query. *)
Definition atomic_atoms : list Atom :=
  Eval vm_compute in
    match atomic_query_atoms atomic_query with Ok atoms => atoms | Raise _ => [] end.

End Example.

(** * Properties *)

(** ** Dictionaries *)

Section DictFacts.
Context {K V : Type} `{PyKey K}.
Implicit Types (k : K) (v : V) (d : dict K V).

Lemma get_set_eq k k' v d :
  key_eqb k k' = true → PyDict.get k' (PyDict.set k v d) = Some v.
Proof.
  intros Hk. induction d as [|[k0 v0] d IH]; simpl.
  - by rewrite Hk.
  - destruct (key_eqb k0 k) eqn:E; simpl.
    + by rewrite (key_eqb_trans _ _ _ E Hk).
    + destruct (key_eqb k0 k') eqn:E'; [|done].
      rewrite key_eqb_sym in Hk.
      by rewrite (key_eqb_trans _ _ _ E' Hk) in E.
Qed.

Lemma get_set_same k v d : PyDict.get k (PyDict.set k v d) = Some v.
Proof. apply get_set_eq, key_eqb_refl. Qed.

Lemma get_set_ne k k' v d :
  key_eqb k k' = false → PyDict.get k' (PyDict.set k v d) = PyDict.get k' d.
Proof.
  intros Hk. induction d as [|[k0 v0] d IH]; simpl.
  - by rewrite Hk.
  - destruct (key_eqb k0 k) eqn:E; simpl.
    + destruct (key_eqb k0 k') eqn:E'; [|done].
      rewrite key_eqb_sym in E.
      by rewrite (key_eqb_trans _ _ _ E E') in Hk.
    + by rewrite IH.
Qed.

Lemma get_proper k k' d :
  key_eqb k k' = true → PyDict.get k d = PyDict.get k' d.
Proof.
  intros Hk. induction d as [|[k0 v0] d IH]; simpl; [done|].
  destruct (key_eqb k0 k) eqn:E.
  - by rewrite (key_eqb_trans _ _ _ E Hk).
  - destruct (key_eqb k0 k') eqn:E'; [|done].
    rewrite key_eqb_sym in Hk.
    by rewrite (key_eqb_trans _ _ _ E' Hk) in E.
Qed.

Lemma set_length_present k v d :
  is_Some (PyDict.get k d) → length (PyDict.set k v d) = length d.
Proof.
  induction d as [|[k0 v0] d IH]; simpl.
  - by intros [? ?].
  - destruct (key_eqb k0 k); simpl; [done|]. intros Hs. by rewrite IH.
Qed.

Lemma set_length_absent k v d :
  PyDict.get k d = None → length (PyDict.set k v d) = S (length d).
Proof.
  induction d as [|[k0 v0] d IH]; simpl; [done|].
  destruct (key_eqb k0 k); simpl; [done|]. intros Hs. by rewrite IH.
Qed.

Lemma set_wf k v d : PyDict.wf d → PyDict.wf (PyDict.set k v d).
Proof.
  induction d as [|[k0 v0] d IH]; simpl.
  - done.
  - intros [Hn Hw]. destruct (key_eqb k0 k) eqn:E; simpl.
    + done.
    + split; [|by apply IH].
      rewrite get_set_ne; [done|]. by rewrite key_eqb_sym.
Qed.

Lemma get_Some_elem k v d :
  PyDict.get k d = Some v → ∃ k0, (k0, v) ∈ d ∧ key_eqb k0 k = true.
Proof.
  induction d as [|[k0 v0] d IH]; simpl; [done|].
  destruct (key_eqb k0 k) eqn:E.
  - intros [= ->]. exists k0. split; [left|done].
  - intros Hg. destruct (IH Hg) as (k1 & Hin & Hk).
    exists k1. split; [by right|done].
Qed.

Lemma elem_get k v d : PyDict.wf d → (k, v) ∈ d → PyDict.get k d = Some v.
Proof.
  induction d as [|[k0 v0] d IH]; simpl.
  - intros _ Hin. by apply elem_of_nil in Hin.
  - intros [Hn Hw] Hin. apply elem_of_cons in Hin as [[= -> ->]|Hin].
    + by rewrite key_eqb_refl.
    + destruct (key_eqb k0 k) eqn:E.
      * rewrite (get_proper _ _ _ E) in Hn. rewrite (IH Hw Hin) in Hn. done.
      * by apply IH.
Qed.

(** In a well-formed dictionary two entries with equal keys are one entry. *)
Lemma wf_lookup_unique d i j k1 v1 k2 v2 :
  PyDict.wf d → d !! i = Some (k1, v1) → d !! j = Some (k2, v2) →
  key_eqb k1 k2 = true → i = j.
Proof.
  revert i j. induction d as [|[k0 v0] d IH]; intros i j Hw Hi Hj Hk.
  - done.
  - destruct Hw as [Hn Hw]. destruct i as [|i], j as [|j]; simpl in *.
    + done.
    + injection Hi as -> ->. apply list_elem_of_lookup_2 in Hj.
      apply (elem_get _ _ _ Hw) in Hj.
      rewrite (get_proper _ _ _ Hk) in Hn. congruence.
    + injection Hj as -> ->. apply list_elem_of_lookup_2 in Hi.
      apply (elem_get _ _ _ Hw) in Hi.
      rewrite key_eqb_sym in Hk.
      rewrite (get_proper _ _ _ Hk) in Hn. congruence.
    + f_equal. by eapply IH.
Qed.

Lemma keys_set_present k v d :
  is_Some (PyDict.get k d) → PyDict.keys (PyDict.set k v d) = PyDict.keys d.
Proof.
  unfold PyDict.keys. induction d as [|[k0 v0] d IH]; simpl.
  - by intros [? ?].
  - destruct (key_eqb k0 k); simpl; [done|]. intros Hs. f_equal. by apply IH.
Qed.

Lemma keys_set_absent k v d :
  PyDict.get k d = None → PyDict.keys (PyDict.set k v d) = PyDict.keys d ++ [k].
Proof.
  unfold PyDict.keys. induction d as [|[k0 v0] d IH]; simpl; [done|].
  destruct (key_eqb k0 k); simpl; [done|]. intros Hs. f_equal. by apply IH.
Qed.

End DictFacts.

(** ** The graph container *)

Section GraphFacts.
Context {E : Type} `{Entity E} {P : Type}.
Import GraphPy.
Implicit Types (g : Graph E P) (e : Edge E) (n : Node E) (c : Contact E).

(** The graphs that [Graph(...)], [add_node] and [add_edge] build. *)
Inductive reachable : Graph E P → Prop :=
| reachable_init id_ hdf5_path : reachable (Graph_init id_ hdf5_path)
| reachable_add_node g n : reachable g → reachable (add_node g n)
| reachable_add_edge g e : reachable g → reachable (add_edge g e).

(** Every entry of the two dictionaries stands under the id of its value,
    and no key stands twice. *)
Definition keyed (g : Graph E P) : Prop :=
  Forall (λ kn : E * Node E, key_eqb kn.1 (node_id kn.2) = true) (_nodes g)
  ∧ Forall (λ ke : Contact E * Edge E, key_eqb ke.1 (edge_id ke.2) = true) (_edges g)
  ∧ PyDict.wf (_nodes g) ∧ PyDict.wf (_edges g).

Lemma set_keyed {K V : Type} `{PyKey K} (ident : V → K) (v : V) (d : dict K V) :
  Forall (λ kv : K * V, key_eqb kv.1 (ident kv.2) = true) d →
  Forall (λ kv : K * V, key_eqb kv.1 (ident kv.2) = true) (PyDict.set (ident v) v d).
Proof.
  induction d as [|[k0 v0] d IH]; simpl; intros Hd.
  - constructor; [apply key_eqb_refl|constructor].
  - apply Forall_cons in Hd as [Hk0 Hd].
    destruct (key_eqb k0 (ident v)) eqn:Ek.
    + by constructor.
    + constructor; [done|by apply IH].
Qed.

Lemma reachable_keyed g : reachable g → keyed g.
Proof.
  induction 1 as [| g n _ (Hn & He & Hwn & Hwe) | g e _ (Hn & He & Hwn & Hwe)].
  - by repeat split; simpl; try constructor.
  - split; [by apply (set_keyed node_id)|].
    split; [done|]. split; [by apply set_wf|done].
  - split; [done|].
    split; [by apply (set_keyed edge_id)|]. split; [done|by apply set_wf].
Qed.

Lemma keyed_positions g :
  keyed g → map position (PyDict.keys (_nodes g)) = map Node_position (nodes g).
Proof.
  intros (Hn & _). unfold nodes, PyDict.keys, PyDict.values.
  induction Hn as [|[k n] d Hk _ IH]; simpl; [done|].
  f_equal; [|done]. by apply position_proper.
Qed.

Lemma fold_left_flat_map {A B C : Type} (f : A → C → A) (h : B → list C)
    (l : list B) (a : A) :
  fold_left f (flat_map h l) a = fold_left (λ a x, fold_left f (h x) a) l a.
Proof.
  revert a. induction l as [|x l IH]; intros a; simpl; [done|].
  by rewrite fold_left_app, IH.
Qed.

Section MapToGrid.
Context (map_features : Grid → Position → string → value → MapMethod → Grid).

Lemma edge_deposits_fold method e grid :
  fold_left (apply_deposit map_features method) (edge_deposits e) grid
  = fold_left (map_edge_feature map_features method e)
              (PyDict.items (edge_features e)) grid.
Proof.
  unfold edge_deposits. rewrite fold_left_flat_map. done.
Qed.

Lemma node_deposits_fold method n grid :
  fold_left (apply_deposit map_features method) (node_deposits n) grid
  = fold_left (map_node_feature map_features method n)
              (PyDict.items (node_features n)) grid.
Proof.
  unfold node_deposits. generalize (PyDict.items (node_features n)).
  intros l. revert grid. induction l as [|x l IH]; intros grid; simpl; [done|].
  by rewrite IH.
Qed.

Lemma map_to_grid_fold g grid method :
  map_to_grid map_features g grid method
  = fold_left (apply_deposit map_features method) (deposits g) grid.
Proof.
  unfold map_to_grid, deposits, edges, nodes.
  rewrite fold_left_app, !fold_left_flat_map.
  assert (Hn : ∀ l a,
    fold_left (λ grid node, fold_left (map_node_feature map_features method node)
                              (PyDict.items (node_features node)) grid) l a
    = fold_left (λ a x, fold_left (apply_deposit map_features method)
                          (node_deposits x) a) l a).
  { induction l as [|x l IH]; intros a; simpl; [done|].
    by rewrite node_deposits_fold, IH. }
  assert (He : ∀ l a,
    fold_left (λ grid edge, fold_left (map_edge_feature map_features method edge)
                              (PyDict.items (edge_features edge)) grid) l a
    = fold_left (λ a x, fold_left (apply_deposit map_features method)
                          (edge_deposits x) a) l a).
  { induction l as [|x l IH]; intros a; simpl; [done|].
    by rewrite edge_deposits_fold, IH. }
  by rewrite He, Hn.
Qed.

Lemma fold_deposits_center method l grid :
  (∀ grid p name x m,
     grid_center (map_features grid p name x m) = grid_center grid) →
  grid_center (fold_left (apply_deposit map_features method) l grid)
  = grid_center grid.
Proof.
  intros Hc. revert grid. induction l as [|d l IH]; intros grid; simpl; [done|].
  rewrite IH. apply Hc.
Qed.

End MapToGrid.

Lemma length_edge_deposits e :
  length (edge_deposits e) = 2 * length (PyDict.items (edge_features e)).
Proof.
  unfold edge_deposits. induction (PyDict.items (edge_features e)); simpl; lia.
Qed.

Lemma length_node_deposits n :
  length (node_deposits n) = length (PyDict.items (node_features n)).
Proof. unfold node_deposits. by rewrite length_map. Qed.

Lemma length_flat_map_sum {A B : Type} (h : A → list B) (l : list A) :
  length (flat_map h l) = sum_list (map (λ x, length (h x)) l).
Proof. induction l; simpl; [done|]. rewrite length_app. lia. Qed.

Lemma elem_of_flat_map {A B : Type} (h : A → list B) (l : list A) (y : B) :
  y ∈ flat_map h l ↔ ∃ x, x ∈ l ∧ y ∈ h x.
Proof.
  rewrite list_elem_of_In, in_flat_map.
  split; intros (x & Hx & Hy); exists x.
  - by rewrite !list_elem_of_In.
  - by rewrite <- !list_elem_of_In.
Qed.

Lemma elem_of_edge_deposits e (d : Deposit) :
  d ∈ edge_deposits e ↔
  (dep_name d, dep_value d) ∈ PyDict.items (edge_features e)
  ∧ (dep_position d = position1 e ∨ dep_position d = position2 e).
Proof.
  unfold edge_deposits. rewrite elem_of_flat_map. split.
  - intros ([name x] & Hin & Hd). simpl in Hd.
    apply elem_of_cons in Hd as [->|Hd]; [simpl; by auto|].
    apply list_elem_of_singleton in Hd as ->. simpl. by auto.
  - intros [Hin Hp]. exists (dep_name d, dep_value d). split; [done|]. simpl.
    destruct d as [p name x]. simpl in *. destruct Hp as [->| ->].
    + left.
    + right. left.
Qed.

Lemma elem_of_node_deposits n (d : Deposit) :
  d ∈ node_deposits n ↔
  (dep_name d, dep_value d) ∈ PyDict.items (node_features n)
  ∧ dep_position d = Node_position n.
Proof.
  unfold node_deposits. rewrite list_elem_of_fmap. split.
  - intros ([name x] & -> & Hin). by simpl.
  - intros [Hin Hp]. exists (dep_name d, dep_value d). split; [|done].
    destruct d as [p name x]. simpl in *. by rewrite Hp.
Qed.

(** C3 — mapping a graph onto a grid places every feature value of every
    edge at both ends of the edge ([position1] and [position2], never
    another point) and every feature value of every node once, at the
    position of the node: [map_to_grid] is the application of
    [map_features] to the list [deposits], which holds two deposits for
    each feature of each edge and one for each feature of each node. *)
Theorem map_to_grid_edges_at_both_ends
    (map_features : Grid → Position → string → value → MapMethod → Grid)
    g (grid : Grid) (method : MapMethod) :
  map_to_grid map_features g grid method
  = fold_left (apply_deposit map_features method) (deposits g) grid
  ∧ (∀ e name x,
       e ∈ edges g → (name, x) ∈ PyDict.items (edge_features e) →
       {| dep_position := position1 e; dep_name := name; dep_value := x |}
         ∈ deposits g
       ∧ {| dep_position := position2 e; dep_name := name; dep_value := x |}
         ∈ deposits g)
  ∧ (∀ n name x,
       n ∈ nodes g → (name, x) ∈ PyDict.items (node_features n) →
       {| dep_position := Node_position n; dep_name := name; dep_value := x |}
         ∈ deposits g)
  ∧ (∀ d, d ∈ deposits g →
       (∃ e, e ∈ edges g
             ∧ (dep_name d, dep_value d) ∈ PyDict.items (edge_features e)
             ∧ (dep_position d = position1 e ∨ dep_position d = position2 e))
       ∨ (∃ n, n ∈ nodes g
               ∧ (dep_name d, dep_value d) ∈ PyDict.items (node_features n)
               ∧ dep_position d = Node_position n))
  ∧ length (deposits g)
    = 2 * sum_list (map (λ e, length (PyDict.items (edge_features e))) (edges g))
      + sum_list (map (λ n, length (PyDict.items (node_features n))) (nodes g)).
Proof.
  split; [apply map_to_grid_fold|].
  split; [|split; [|split]].
  - intros e name x He Hx. unfold deposits.
    split; apply elem_of_app; left; apply elem_of_flat_map; exists e;
      (split; [done|]); apply elem_of_edge_deposits; simpl; auto.
  - intros n name x Hn Hx. unfold deposits.
    apply elem_of_app; right; apply elem_of_flat_map; exists n.
    split; [done|]. by apply elem_of_node_deposits.
  - intros d Hd. unfold deposits in Hd.
    apply elem_of_app in Hd as [Hd|Hd];
      apply elem_of_flat_map in Hd as (x & Hx & Hd).
    + left. exists x. apply elem_of_edge_deposits in Hd as [? ?]. done.
    + right. exists x. apply elem_of_node_deposits in Hd as [? ?]. done.
  - unfold deposits. rewrite length_app, !length_flat_map_sum.
    f_equal.
    + induction (edges g) as [|e l IH]; simpl; [done|].
      rewrite length_edge_deposits. lia.
    + induction (nodes g) as [|n l IH]; simpl; [done|].
      by rewrite length_node_deposits, IH.
Qed.

(** C6 — for a graph with at least one node, the grid that [to_hdf5_cnn]
    fills and exports is centered at the arithmetic mean of the positions
    of all the nodes of the graph (whatever kernel [map_features] applies,
    as long as it leaves the center of the grid alone). *)
Theorem to_hdf5_cnn_centered_at_centroid
    (map_features : Grid → Position → string → value → MapMethod → Grid)
    g (settings : GridSettings) (method : MapMethod) :
  (∀ grid p name x m,
     grid_center (map_features grid p name x m) = grid_center grid) →
  reachable g →
  nodes g ≠ [] →
  grid_center (to_hdf5_cnn map_features g settings method).1
  = numpy_mean (map Node_position (nodes g)).
Proof.
  intros Hc Hg _. unfold to_hdf5_cnn. simpl.
  rewrite map_to_grid_fold, fold_deposits_center by done. simpl.
  by rewrite (keyed_positions g (reachable_keyed g Hg)).
Qed.

(** C9 — [get_edge] raises for every graph and every contact: its body
    mentions the name [edge], which is neither a parameter of the method
    nor a name of the module, so that the call ends in a [NameError] and
    never returns an edge, also for a contact whose edge [add_edge] has
    just stored under that key. *)
Theorem get_edge_always_raises g c :
  get_edge g c = Raise (NameError "edge")
  ∧ (∀ e, get_edge g c ≠ Ok e)
  ∧ (∀ e, PyDict.get (edge_id e) (_edges (add_edge g e)) = Some e
          ∧ get_edge (add_edge g e) (edge_id e) = Raise (NameError "edge")).
Proof.
  split; [reflexivity|]. split; [by intros e|].
  intros e. split; [|reflexivity]. simpl. apply get_set_same.
Qed.

(** [get_node], whose body names its parameter, returns the node stored
    under an entity. *)
Lemma get_node_add_node g n : get_node (add_node g n) (node_id n) = Ok n.
Proof.
  assert (Hget : PyDict.get (node_id n) (_nodes (add_node g n)) = Some n)
    by apply get_set_same.
  unfold get_node, eval, lookup_name.
  change (PyDict.get "self" _) with (Some (OGraph (add_node g n))).
  change (PyDict.get "id_" _) with (Some (OEntity (P:=P) (node_id n))).
  unfold mbind, result_bind, get_attr, get_item.
  change (String.eqb "_nodes" "id") with false.
  change (String.eqb "_nodes" "_hdf5_path") with false.
  change (String.eqb "_nodes" "_nodes") with true.
  cbv iota. by rewrite Hget.
Qed.

End GraphFacts.

(** ** Loops *)

Lemma for_each_ok {A S : Type} (P : S → Prop) (Q : A → Prop)
    (body : S → A → result S) (xs : list A) (s : S) :
  (∀ s x, Q x → P s → ∃ s', body s x = Ok s' ∧ P s') →
  Forall Q xs → P s → ∃ s', for_each body xs s = Ok s' ∧ P s'.
Proof.
  intros Hstep HQ. revert s. induction HQ as [|x xs Hx _ IH]; intros s Hs; simpl.
  - by exists s.
  - destruct (Hstep s x Hx Hs) as (s1 & -> & Hs1). simpl. by apply IH.
Qed.

Lemma map_result_Forall2 {A B : Type} (f : A → result B) (xs : list A) (ys : list B) :
  map_result f xs = Ok ys → Forall2 (λ x y, f x = Ok y) xs ys.
Proof.
  revert ys. induction xs as [|x xs IH]; intros ys; simpl.
  - intros [= <-]. constructor.
  - destruct (f x) as [y|e] eqn:Hf; simpl; [|done].
    destruct (map_result f xs) as [ys'|e] eqn:Hm; simpl; [|done].
    intros [= <-]. constructor; [done|by apply IH].
Qed.

Lemma elem_of_nonzero (m : list (list bool)) (i j : nat) :
  (i, j) ∈ nonzero m → ∃ row, m !! i = Some row ∧ row !! j = Some true.
Proof.
  unfold nonzero. intros Hin.
  apply list_elem_of_join in Hin as (l & Hin & Hl).
  apply elem_of_lookup_imap in Hl as (i' & row & -> & Hrow).
  apply list_elem_of_join in Hin as (l & Hin & Hl).
  apply elem_of_lookup_imap in Hl as (j' & b & -> & Hb).
  destruct b; [|by apply elem_of_nil in Hin].
  apply list_elem_of_singleton in Hin as [= -> ->]. by exists row.
Qed.

Lemma minkowski_distance_lookup (xs ys : list Position) (i j : nat) row d :
  minkowski_distance xs ys !! i = Some row → row !! j = Some d →
  ∃ x y, xs !! i = Some x ∧ ys !! j = Some y ∧ d = euclidean x y.
Proof.
  unfold minkowski_distance. intros Hrow Hd.
  rewrite list_lookup_fmap in Hrow.
  destruct (xs !! i) as [x|] eqn:Hx; [|done]. injection Hrow as <-.
  rewrite list_lookup_fmap in Hd.
  destruct (ys !! j) as [y|] eqn:Hy; [|done]. injection Hd as <-.
  by exists x, y.
Qed.

Lemma distance_matrix_some (xs : list Position) :
  xs ≠ [] → distance_matrix xs xs = Ok (minkowski_distance xs xs).
Proof. by destruct xs. Qed.

Lemma nonzero_elem_of (m : list (list bool)) (i j : nat) (row : list bool) :
  m !! i = Some row → row !! j = Some true → (i, j) ∈ nonzero m.
Proof.
  intros Hrow Hj. unfold nonzero.
  apply list_elem_of_join.
  exists (mjoin (imap (λ j (b : bool), if b then [(i, j)] else []) row)).
  split.
  - apply list_elem_of_join. exists [(i, j)]. split; [left|].
    apply elem_of_lookup_imap. by exists j, true.
  - apply elem_of_lookup_imap. by exists i, row.
Qed.

(** A loop whose turns leave the state as it is or raise one exception
    ends with that state, or with the exception when some turn raises. *)
Lemma for_each_skip_or_raise {A S : Type} (body : S → A → result S)
    (e : exception) (xs : list A) (s : S) :
  Forall (λ x, body s x = Ok s ∨ body s x = Raise e) xs →
  (Forall (λ x, body s x = Ok s) xs ∧ for_each body xs s = Ok s)
  ∨ (Exists (λ x, body s x = Raise e) xs ∧ for_each body xs s = Raise e).
Proof.
  induction 1 as [|x xs [Hx|Hx] _ IH]; cbn [for_each].
  - left. by split.
  - rewrite Hx. cbn [mbind result_bind]. destruct IH as [[Hall ->]|[Hex ->]].
    + left. split; [by constructor|done].
    + right. split; [by apply Exists_cons_tl|done].
  - rewrite Hx. cbn [mbind result_bind]. right.
    split; [by apply Exists_cons_hd|done].
Qed.

Lemma set_keeps {K V : Type} `{PyKey K} (k k' : K) (v : V) (d : dict K V) :
  is_Some (PyDict.get k' d) → is_Some (PyDict.get k' (PyDict.set k v d)).
Proof.
  intros Hs. destruct (key_eqb k k') eqn:Hk.
  - rewrite (get_set_eq _ _ _ _ Hk). by eexists.
  - by rewrite get_set_ne.
Qed.

(** ** The graph as the queries call it *)

(** The exception of [graph.add_edge(key1, key2)]. *)
Definition add_edge_error : exception :=
  TypeError "add_edge() takes 2 positional arguments but 3 were given".

Lemma add_edge_call_two {E P : Type} (g : GraphPy.Graph E P) (key1 key2 : string) :
  GraphPy.add_edge_call g [key1; key2] = Raise add_edge_error.
Proof. reflexivity. Qed.

(** ** The atomic query *)

Section AtomicFacts.
Import AtomicQuery.

Context (get_structure : string → string → result Structure).
Context (open_text : string → result (list string)).
Context (py_float : string → result float) (amino_acids : list AminoAcid).
Context (get_surrounding_residues : Structure → Residue → float → list Residue).
Context (str_atom : Atom → string).
Context (FEATURENAME_EDGETYPE FEATURENAME_EDGEDISTANCE FEATURENAME_POSITION : string).

Local Abbreviation query_atoms' :=
  (query_atoms get_structure open_text py_float amino_acids get_surrounding_residues).
Local Abbreviation graph_of_atoms' :=
  (graph_of_atoms str_atom FEATURENAME_EDGETYPE FEATURENAME_EDGEDISTANCE
                  FEATURENAME_POSITION).
Local Abbreviation neighbour_step' :=
  (neighbour_step str_atom FEATURENAME_EDGETYPE FEATURENAME_EDGEDISTANCE).
Local Abbreviation build_graph' :=
  (build_graph get_structure open_text py_float amino_acids
               get_surrounding_residues str_atom FEATURENAME_EDGETYPE
               FEATURENAME_EDGEDISTANCE FEATURENAME_POSITION).
Local Abbreviation distances_of atoms :=
  (minkowski_distance (atom_position <$> atoms) (atom_position <$> atoms)).

(** Two atoms closer than the nonbonded cutoff. *)
Definition close (q : Query) (a b : Atom) : Prop :=
  PrimFloat.ltb (euclidean (atom_position a) (atom_position b))
                (_nonbonded_distance_cutoff q) = true.

(** Two different places of the list of atoms hold atoms closer than the
    nonbonded cutoff. *)
Definition close_pair (q : Query) (atoms : list Atom) (i j : nat) : Prop :=
  i ≠ j ∧ ∃ a b, atoms !! i = Some a ∧ atoms !! j = Some b ∧ close q a b.

Lemma neighbour_pairs_spec q (atoms : list Atom) i j :
  (i, j) ∈ neighbour_pairs q (distances_of atoms) →
  ∃ a b row,
    atoms !! i = Some a ∧ atoms !! j = Some b
    ∧ distances_of atoms !! i = Some row
    ∧ row !! j = Some (euclidean (atom_position a) (atom_position b))
    ∧ close q a b.
Proof.
  unfold neighbour_pairs. intros Hin.
  apply elem_of_nonzero in Hin as (brow & Hbrow & Hb).
  rewrite list_lookup_fmap in Hbrow.
  destruct (minkowski_distance _ _ !! i) as [row|] eqn:Hrow; [|done].
  injection Hbrow as <-. rewrite list_lookup_fmap in Hb.
  destruct (row !! j) as [d|] eqn:Hd; [|done]. injection Hb as Hlt.
  destruct (minkowski_distance_lookup _ _ _ _ _ _ Hrow Hd) as (x & y & Hx & Hy & ->).
  rewrite list_lookup_fmap in Hx, Hy.
  destruct (atoms !! i) as [a|] eqn:Ha; [|done].
  destruct (atoms !! j) as [b|] eqn:Hb; [|done].
  injection Hx as <-. injection Hy as <-.
  by exists a, b, row.
Qed.

Lemma neighbour_pairs_complete q (atoms : list Atom) i j a b :
  atoms !! i = Some a → atoms !! j = Some b → close q a b →
  (i, j) ∈ neighbour_pairs q (distances_of atoms).
Proof.
  intros Ha Hb Hclose. unfold neighbour_pairs.
  apply (nonzero_elem_of _ i j
           ((λ d, PrimFloat.ltb d (_nonbonded_distance_cutoff q))
              <$> ((λ y, euclidean (atom_position a) y) <$> (atom_position <$> atoms)))).
  - rewrite list_lookup_fmap. unfold minkowski_distance.
    rewrite list_lookup_fmap, list_lookup_fmap, Ha. done.
  - rewrite !list_lookup_fmap, Hb. unfold close in Hclose.
    rewrite <- Hclose. reflexivity.
Qed.

(** The class that the loop computes for a pair of atoms at a distance. *)
Lemma edge_type_of_internal q a b d :
  edge_type_of q a b d = EDGETYPE_INTERNAL ↔
  PrimFloat.ltb d (_bonded_distance_cutoff q) = true
  ∨ (atom_name a = "SG" ∧ atom_name b = "SG"
     ∧ PrimFloat.ltb d (_disulfid_distance q) = true).
Proof.
  unfold edge_type_of.
  destruct (PrimFloat.ltb d (_bonded_distance_cutoff q)).
  { split; [by left|done]. }
  destruct (String.eqb (atom_name a) "SG") eqn:Ea; simpl.
  - apply String.eqb_eq in Ea.
    destruct (String.eqb (atom_name b) "SG") eqn:Eb; simpl.
    + apply String.eqb_eq in Eb.
      destruct (PrimFloat.ltb d (_disulfid_distance q)).
      * split; [by right|done].
      * split; [done|]. by intros [?|(_ & _ & ?)].
    + apply String.eqb_neq in Eb. split; [done|]. by intros [?|(_ & ? & _)].
  - apply String.eqb_neq in Ea. split; [done|]. by intros [?|(? & _ & _)].
Qed.

(** A pair of equal indices is passed over: the turn of the loop ends
    before any call of the graph. *)
Lemma neighbour_step_self q (atoms : list Atom) distances st i :
  neighbour_step' q atoms distances st (i, i) = Ok st.
Proof. unfold neighbour_step. cbn [fst snd]. by rewrite Nat.eqb_refl. Qed.

(** For a pair of different indices the turn reaches
    [graph.add_edge(atom1_key, atom2_key)], which raises. *)
Lemma neighbour_step_pair q (atoms : list Atom) st i j :
  (i, j) ∈ neighbour_pairs q (distances_of atoms) → i ≠ j →
  neighbour_step' q atoms (distances_of atoms) st (i, j) = Raise add_edge_error.
Proof.
  intros Hin Hij.
  destruct (neighbour_pairs_spec q atoms i j Hin)
    as (a & b & row & Ha & Hb & Hrow & Hd & _).
  unfold neighbour_step. cbn [fst snd].
  apply Nat.eqb_neq in Hij. rewrite Hij. cbn [negb].
  rewrite Hrow. cbn [from_option mbind result_bind].
  rewrite Hd. cbn [from_option mbind result_bind].
  rewrite Ha. cbn [from_option mbind result_bind].
  rewrite Hb. cbn [from_option mbind result_bind].
  by rewrite add_edge_call_two.
Qed.

(** The loop over the pairs of neighbours leaves the graph and the
    dictionary of names as they are, or raises at the call of [add_edge]
    for the first pair of different indices. *)
Lemma pairs_loop_cases q (atoms : list Atom) st :
  ((∀ i j, ¬ close_pair q atoms i j)
   ∧ for_each (neighbour_step' q atoms (distances_of atoms))
              (neighbour_pairs q (distances_of atoms)) st = Ok st)
  ∨ ((∃ i j, close_pair q atoms i j)
     ∧ for_each (neighbour_step' q atoms (distances_of atoms))
                (neighbour_pairs q (distances_of atoms)) st
       = Raise add_edge_error).
Proof.
  destruct (for_each_skip_or_raise
              (neighbour_step' q atoms (distances_of atoms)) add_edge_error
              (neighbour_pairs q (distances_of atoms)) st) as [[Hall Hr]|[Hex Hr]].
  - apply Forall_forall. intros [i j] Hin.
    destruct (decide (i = j)) as [->|Hij].
    + left. apply neighbour_step_self.
    + right. by apply neighbour_step_pair.
  - left. split; [|done]. intros i j (Hij & a & b & Ha & Hb & Hclose).
    rewrite Forall_forall in Hall.
    specialize (Hall (i, j) (neighbour_pairs_complete q atoms i j a b Ha Hb Hclose)).
    rewrite neighbour_step_pair in Hall; [done| |done].
    by apply (neighbour_pairs_complete q atoms i j a b).
  - right. split; [|done]. apply Exists_exists in Hex as ([i j] & Hin & Hraise).
    exists i, j. destruct (decide (i = j)) as [->|Hij].
    + by rewrite neighbour_step_self in Hraise.
    + split; [done|].
      destruct (neighbour_pairs_spec q atoms i j Hin)
        as (a & b & row & Ha & Hb & _ & _ & Hclose).
      by exists a, b.
Qed.

(** What [build_graph] does from the list of atoms on. *)
Lemma graph_of_atoms_cases q (atoms : list Atom) :
  (atoms = []
   ∧ ∃ msg, graph_of_atoms' q atoms = Raise (ValueError msg))
  ∨ (atoms ≠ [] ∧ (∃ i j, close_pair q atoms i j)
     ∧ graph_of_atoms' q atoms = Raise add_edge_error)
  ∨ (atoms ≠ [] ∧ (∀ i j, ¬ close_pair q atoms i j)
     ∧ graph_of_atoms' q atoms
       = Ok (GraphPy.Graph_init (get_query_id q) (_targets q))).
Proof.
  destruct atoms as [|a0 atoms']; [left; split; [done|by eexists]|].
  right. set (atoms := a0 :: atoms').
  assert (Hne : atoms ≠ []) by done.
  unfold graph_of_atoms.
  rewrite distance_matrix_some by done. cbn [mbind result_bind].
  destruct (pairs_loop_cases q atoms
              (GraphPy.Graph_init (get_query_id q) (_targets q), []))
    as [[Hnone ->]|[Hsome ->]].
  - right. by repeat split.
  - left. by repeat split.
Qed.

End AtomicFacts.

(** ** One edge for a pair *)

Section EdgeFacts.
Context {E : Type} `{Entity E} {P : Type}.
Import GraphPy.
Implicit Types (g : Graph E P) (e : Edge E) (c : Contact E).

Lemma reachable_unique_edges g i j e1 e2 :
  reachable g →
  edges g !! i = Some e1 → edges g !! j = Some e2 →
  contact_eqb (edge_id e1) (edge_id e2) = true → i = j.
Proof.
  intros Hg Hi Hj Heq. apply reachable_keyed in Hg as (_ & He & _ & Hwf).
  unfold edges, PyDict.values in Hi, Hj.
  apply list_lookup_fmap_Some in Hi as ([k1 e1'] & -> & Hi').
  apply list_lookup_fmap_Some in Hj as ([k2 e2'] & -> & Hj').
  simpl in Heq.
  apply (wf_lookup_unique (_edges g) i j k1 e1' k2 e2' Hwf Hi' Hj').
  rewrite Forall_forall in He.
  assert (H1 := He _ (list_elem_of_lookup_2 _ _ _ Hi')).
  assert (H2 := He _ (list_elem_of_lookup_2 _ _ _ Hj')).
  simpl in H1, H2.
  apply (contact_eqb_trans _ _ _ H1).
  apply (contact_eqb_trans _ (edge_id e2')); [exact Heq|].
  by rewrite contact_eqb_sym.
Qed.

Lemma add_edge_present g e :
  is_Some (PyDict.get (edge_id e) (_edges g)) →
  length (edges (add_edge g e)) = length (edges g).
Proof.
  intros Hs. unfold edges, PyDict.values. rewrite !length_fmap. simpl.
  by apply set_length_present.
Qed.

Lemma add_edge_absent g e :
  PyDict.get (edge_id e) (_edges g) = None →
  length (edges (add_edge g e)) = S (length (edges g)).
Proof.
  intros Hs. unfold edges, PyDict.values. rewrite !length_fmap. simpl.
  by apply set_length_absent.
Qed.

Lemma add_edge_get g e c :
  PyDict.get c (_edges (add_edge g e))
  = if contact_eqb (edge_id e) c then Some e else PyDict.get c (_edges g).
Proof.
  simpl. destruct (contact_eqb (edge_id e) c) eqn:Hc.
  - by apply get_set_eq.
  - by apply get_set_ne.
Qed.

End EdgeFacts.

Section SelfEdges.
Import AtomicQuery.

Context (str_atom : Atom → string).
Context (FEATURENAME_EDGETYPE FEATURENAME_EDGEDISTANCE : string).
Context {E : Type} `{Entity E} {P : Type}.

(** C5 (amended) — a graph holds at most one edge for an unordered pair
    of entities: [add_edge] for a pair that is present replaces the edge
    stored for that pair (in either order of its ends) and adds none.
    [add_edge] itself does not look at the two ends of the edge; the guard
    against an atom paired with itself is in the atomic query, whose loop
    passes over every pair of equal indices before it calls the graph:
    such a turn leaves the graph and the names of the nodes as they are,
    and a loop over such pairs only ends with the graph it started with. *)
Theorem one_edge_for_a_pair_and_no_self_edge_built
    (g : GraphPy.Graph E P) (e : GraphPy.Edge E) :
  reachable g →
  (∀ i j e1 e2,
     GraphPy.edges g !! i = Some e1 → GraphPy.edges g !! j = Some e2 →
     GraphPy.contact_eqb (GraphPy.edge_id e1) (GraphPy.edge_id e2) = true →
     i = j)
  ∧ (∀ c, PyDict.get c (GraphPy._edges (GraphPy.add_edge g e))
          = if GraphPy.contact_eqb (GraphPy.edge_id e) c then Some e
            else PyDict.get c (GraphPy._edges g))
  ∧ (is_Some (PyDict.get (GraphPy.edge_id e) (GraphPy._edges g)) →
     length (GraphPy.edges (GraphPy.add_edge g e)) = length (GraphPy.edges g))
  ∧ (∀ q atoms distances st i,
       neighbour_step str_atom FEATURENAME_EDGETYPE FEATURENAME_EDGEDISTANCE
         q atoms distances st (i, i) = Ok st)
  ∧ (∀ q atoms distances st pairs,
       Forall (λ ij : nat * nat, ij.1 = ij.2) pairs →
       for_each (neighbour_step str_atom FEATURENAME_EDGETYPE
                   FEATURENAME_EDGEDISTANCE q atoms distances) pairs st
       = Ok st).
Proof.
  intros Hg.
  split; [intros i j e1 e2; by apply reachable_unique_edges|].
  split; [intros c; apply add_edge_get|].
  split; [apply add_edge_present|].
  split; [intros; apply neighbour_step_self|].
  intros q atoms distances st pairs Hself.
  induction Hself as [|[i j] pairs Hij _ IH]; [done|].
  cbn [fst snd] in Hij. subst j. cbn [for_each].
  rewrite neighbour_step_self. cbn [mbind result_bind]. exact IH.
Qed.

End SelfEdges.

(** ** Equality, hash and id of the interface query *)

Section InterfaceIdentity.
Import InterfaceQuery.

Lemma sorted_pair_comm (a b : string) : sorted_pair a b = sorted_pair b a.
Proof.
  unfold sorted_pair, String.ltb.
  rewrite (String.compare_antisym a b).
  destruct (String.compare b a) eqn:Hc; simpl; try done.
  apply String.compare_eq_iff in Hc. by subst.
Qed.

Lemma string_app_same_length (a b x y : string) :
  String.length a = String.length b → (a ++ x)%string = (b ++ y)%string → a = b.
Proof.
  revert b. induction a as [|c a IH]; intros [|d b]; simpl; try done.
  intros [= Hl] [= -> Happ]. f_equal. by apply IH.
Qed.

Lemma string_app_hyphen_free (a b x y : string) :
  hyphen_free a = true → hyphen_free b = true →
  (a ++ String "-"%char x)%string = (b ++ String "-"%char y)%string → a = b.
Proof.
  revert b. induction a as [|c a IH]; intros [|d b]; simpl; try done.
  - intros _ [Hd _]%andb_true_iff [= <- _].
    by rewrite Ascii.eqb_refl in Hd.
  - intros [Hc _]%andb_true_iff _ [= -> _].
    by rewrite Ascii.eqb_refl in Hc.
  - intros [_ Ha]%andb_true_iff [_ Hb]%andb_true_iff [= -> Happ].
    f_equal. by apply IH.
Qed.

Lemma string_app_inv_head (a x y : string) :
  (a ++ x)%string = (a ++ y)%string → x = y.
Proof. induction a as [|c a IH]; simpl; [done|]. intros [= Happ]. by apply IH. Qed.

Section HashFacts.
Context (py_hash : string * list string → Z).

(** C10 (amended) — equality and hash of the interface query do not
    depend on the order of the two chains: two queries of one model with
    the chains [c1, c2] and [c2, c1] are equal and have the same hash.
    Their query ids differ when [c1 ≠ c2] and the chain ids have the same
    length (as the one-letter chain ids of a PDB file do) or hold no
    hyphen. *)
Theorem interface_query_eq_hash_symmetric (q q' : Query) :
  model_id q = model_id q' →
  _chain_id1 q' = _chain_id2 q →
  _chain_id2 q' = _chain_id1 q →
  eq q q' = true
  ∧ hash py_hash q = hash py_hash q'
  ∧ (_chain_id1 q ≠ _chain_id2 q →
     String.length (_chain_id1 q) = String.length (_chain_id2 q)
     ∨ (hyphen_free (_chain_id1 q) = true ∧ hyphen_free (_chain_id2 q) = true) →
     get_query_id q ≠ get_query_id q').
Proof.
  intros Hm H1 H2. split; [|split].
  - unfold eq. rewrite Hm, String.eqb_refl, H1, H2. simpl.
    apply bool_decide_eq_true_2. apply (comm_L (∪)).
  - unfold hash. by rewrite Hm, H1, H2, sorted_pair_comm.
  - intros Hne Hshape Hid. apply Hne. unfold get_query_id in Hid.
    rewrite Hm, H1, H2 in Hid.
    apply string_app_inv_head, string_app_inv_head in Hid.
    destruct Hshape as [Hlen|[Hf1 Hf2]].
    + by apply (string_app_same_length _ _ _ _ Hlen Hid).
    + by apply (string_app_hyphen_free _ _ _ _ Hf1 Hf2 Hid).
Qed.

End HashFacts.
End InterfaceIdentity.

(** ** The interface query *)

Section InterfaceFacts.
Import InterfaceQuery.

Context (get_residue_contact_pairs :
           string → string → string → string → float → result (list (Residue * Residue))).
Context (get_residue_distance : Residue → Residue → float).
Context (model_get_chain : string → string → result Chain).
Context (open_text : string → result (list string)).
Context (py_float : string → result float) (amino_acids : list AminoAcid).
Context (attached_pssm : dict Chain PssmTable).
Context (get_bsa_data : string → float → result (string * Z * string → option float)).
Context (get_depth_contact_res :
           string → list (string * Z * string) → result (dict Residue float)).
Context (get_hse : string → result (string * Z → option (list float))).
Context (str_residue : Residue → string).
Context (FEATURENAME_EDGEDISTANCE FEATURENAME_EDGETYPE FEATURENAME_CHAIN
         FEATURENAME_POSITION FEATURENAME_AMINOACID FEATURENAME_CHARGE
         FEATURENAME_POLARITY FEATURENAME_BURIEDSURFACEAREA FEATURENAME_PSSM
         FEATURENAME_CONSERVATION FEATURENAME_INFORMATIONCONTENT
         FEATURENAME_RESIDUEDEPTH FEATURENAME_HALFSPHEREEXPOSURE : string).
Context (amino_acid_order : list AminoAcid).

Local Abbreviation is_valid := (_residue_is_valid str_residue).
Local Abbreviation add_contact' :=
  (add_contact str_residue FEATURENAME_EDGEDISTANCE FEATURENAME_EDGETYPE).
Local Abbreviation interface_step' :=
  (interface_step get_residue_distance str_residue FEATURENAME_EDGEDISTANCE
                  FEATURENAME_EDGETYPE).
Local Abbreviation internal_step' :=
  (internal_step get_residue_distance str_residue FEATURENAME_EDGEDISTANCE
                 FEATURENAME_EDGETYPE).
Local Abbreviation internal_edges' :=
  (internal_edges get_residue_distance str_residue FEATURENAME_EDGEDISTANCE
                  FEATURENAME_EDGETYPE).
Local Abbreviation node_features_of' :=
  (node_features_of str_residue FEATURENAME_CHAIN FEATURENAME_POSITION
     FEATURENAME_AMINOACID FEATURENAME_CHARGE FEATURENAME_POLARITY
     FEATURENAME_BURIEDSURFACEAREA FEATURENAME_PSSM FEATURENAME_CONSERVATION
     FEATURENAME_INFORMATIONCONTENT FEATURENAME_RESIDUEDEPTH
     FEATURENAME_HALFSPHEREEXPOSURE amino_acid_order).
Local Abbreviation read_pssm' :=
  (read_pssm open_text py_float amino_acids attached_pssm).
Local Abbreviation build_graph' :=
  (build_graph get_residue_contact_pairs get_residue_distance model_get_chain
     open_text py_float amino_acids attached_pssm get_bsa_data
     get_depth_contact_res get_hse str_residue
     FEATURENAME_EDGEDISTANCE FEATURENAME_EDGETYPE FEATURENAME_CHAIN
     FEATURENAME_POSITION FEATURENAME_AMINOACID FEATURENAME_CHARGE
     FEATURENAME_POLARITY FEATURENAME_BURIEDSURFACEAREA FEATURENAME_PSSM
     FEATURENAME_CONSERVATION FEATURENAME_INFORMATIONCONTENT
     FEATURENAME_RESIDUEDEPTH FEATURENAME_HALFSPHEREEXPOSURE amino_acid_order).

(** The residues that the contact search returned. *)
Definition residues_of (pairs : list (Residue * Residue)) : list Residue :=
  flat_map (λ pair, [pair.1; pair.2]) pairs.

(** A residue with an amino acid and a row in the table of its chain. *)
Definition valid (pssm : dict Chain PssmTable) (r : Residue) : Prop :=
  is_Some (res_amino_acid r)
  ∧ ∃ table, PyDict.get (res_chain r) pssm = Some table
             ∧ PyDict.contains r table = true.

Definition validb (pssm : dict Chain PssmTable) (r : Residue) : bool :=
  match res_amino_acid r, PyDict.get (res_chain r) pssm with
  | Some _, Some table => PyDict.contains r table
  | _, _ => false
  end.

Lemma valid_validb pssm r : valid pssm r ↔ validb pssm r = true.
Proof.
  unfold valid, validb. split.
  - intros [[aa ->] (table & -> & Hc)]. done.
  - destruct (res_amino_acid r) as [aa|]; [|done].
    destruct (PyDict.get (res_chain r) pssm) as [table|]; [|done].
    intros Hc. split; [by eexists|]. by exists table.
Qed.

(** A residue with an amino acid and no row in the table of its chain. *)
Definition missing (pssm : dict Chain PssmTable) (r : Residue) : Prop :=
  is_Some (res_amino_acid r)
  ∧ ∃ table, PyDict.get (res_chain r) pssm = Some table
             ∧ PyDict.contains r table = false.

(** The test of a residue can be made: it has no amino acid, or its chain
    has a table. *)
Definition checkable (pssm : dict Chain PssmTable) (r : Residue) : Prop :=
  res_amino_acid r = None ∨ is_Some (PyDict.get (res_chain r) pssm).

Definition not_in_pssm (r : Residue) : string :=
  (str_residue r ++ " not in pssm")%string.

Lemma is_valid_cases pssm r log :
  checkable pssm r →
  (valid pssm r ∧ is_valid pssm r log = Ok (true, log))
  ∨ (res_amino_acid r = None ∧ is_valid pssm r log = Ok (false, log))
  ∨ (missing pssm r ∧ is_valid pssm r log = Ok (false, log ++ [not_in_pssm r])).
Proof.
  intros Hc. unfold _residue_is_valid, valid, missing.
  destruct (res_amino_acid r) as [aa|] eqn:Haa; [|by right; left].
  destruct Hc as [?|[table Ht]]; [congruence|]. rewrite Ht.
  destruct (PyDict.contains r table) eqn:Hin; simpl.
  - left. split; [|done]. split; [by eexists|]. by exists table.
  - right. right. split; [|done]. split; [by eexists|]. by exists table.
Qed.

Section Loops.
Context (q : Query) (pssm : dict Chain PssmTable) (pairs : list (Residue * Residue)).

(** A valid residue of the contact search. *)
Definition good (r : Residue) : Prop := valid pssm r ∧ r ∈ residues_of pairs.

(** Every line of the log names a residue of the contact search that has
    no row in the table of its chain. *)
Definition log_ok (log : list string) : Prop :=
  ∀ line, line ∈ log →
    ∃ r, r ∈ residues_of pairs ∧ missing pssm r ∧ line = not_in_pssm r.

Definition pair_ok (pair : Residue * Residue) : Prop :=
  pair.1 ∈ residues_of pairs ∧ pair.2 ∈ residues_of pairs
  ∧ checkable pssm pair.1 ∧ checkable pssm pair.2.

Lemma log_ok_snoc log r :
  log_ok log → r ∈ residues_of pairs → missing pssm r →
  log_ok (log ++ [not_in_pssm r]).
Proof.
  intros Hl Hr Hm line Hin. apply elem_of_app in Hin as [Hin|Hin]; [by apply Hl|].
  apply list_elem_of_singleton in Hin as ->. by exists r.
Qed.

Lemma set_add_good r s : good r → Forall good s → Forall good (set_add r s).
Proof.
  intros Hr Hs. unfold set_add. destruct (existsb (residue_eqb r) s); [done|].
  apply Forall_app. split; [done|]. by constructor.
Qed.

Lemma place_good r sets :
  good r → Forall good sets.1 → Forall good sets.2 →
  Forall good (place q r sets).1 ∧ Forall good (place q r sets).2.
Proof.
  intros Hr H1 H2. unfold place.
  destruct (String.eqb _ (_chain_id1 q)); simpl.
  - split; [by apply set_add_good|done].
  - destruct (String.eqb _ (_chain_id2 q)); simpl; [|done].
    split; [done|by apply set_add_good].
Qed.

(** One round of the loop that puts the residues with their chain. *)
Lemma separate_step_ok st pair :
  pair_ok pair →
  Forall good st.1.1 → Forall good st.1.2 → log_ok st.2 →
  ∃ st', separate_step str_residue q pssm st pair = Ok st'
         ∧ Forall good st'.1.1 ∧ Forall good st'.1.2 ∧ log_ok st'.2
         ∧ st.2 ⊆ st'.2
         ∧ (missing pssm pair.1 → not_in_pssm pair.1 ∈ st'.2)
         ∧ (missing pssm pair.2 → not_in_pssm pair.2 ∈ st'.2).
Proof.
  intros (Hr1 & Hr2 & Hc1 & Hc2) H1 H2 Hl. unfold separate_step.
  destruct (is_valid_cases pssm pair.1 st.2 Hc1)
    as [[Hv1 ->]|[[Hn1 ->]|[Hm1 ->]]]; cbn [mbind result_bind].
  - destruct (place_good pair.1 st.1 (conj Hv1 Hr1) H1 H2) as [H1' H2'].
    destruct (is_valid_cases pssm pair.2 st.2 Hc2)
      as [[Hv2 ->]|[[Hn2 ->]|[Hm2 ->]]]; cbn [mbind result_bind];
      eexists; (split; [done|]); cbn [fst snd].
    + destruct (place_good pair.2 _ (conj Hv2 Hr2) H1' H2') as [? ?].
      repeat split; try done.
      * intros [_ (t & Ht & Hf)]. destruct Hv1 as [_ (t' & Ht' & Hf')]. congruence.
      * intros [_ (t & Ht & Hf)]. destruct Hv2 as [_ (t' & Ht' & Hf')]. congruence.
    + repeat split; try done.
      * intros [_ (t & Ht & Hf)]. destruct Hv1 as [_ (t' & Ht' & Hf')]. congruence.
      * intros [[aa Haa] _]. congruence.
    + repeat split; try done.
      * by apply log_ok_snoc.
      * intros x Hx. apply elem_of_app. by left.
      * intros [_ (t & Ht & Hf)]. destruct Hv1 as [_ (t' & Ht' & Hf')]. congruence.
      * intros _. apply elem_of_app. right. by left.
  - destruct (is_valid_cases pssm pair.2 st.2 Hc2)
      as [[Hv2 ->]|[[Hn2 ->]|[Hm2 ->]]]; cbn [mbind result_bind];
      eexists; (split; [done|]); cbn [fst snd].
    + destruct (place_good pair.2 _ (conj Hv2 Hr2) H1 H2) as [? ?].
      repeat split; try done.
      * intros [[aa Haa] _]. congruence.
      * intros [_ (t & Ht & Hf)]. destruct Hv2 as [_ (t' & Ht' & Hf')]. congruence.
    + repeat split; try done.
      * intros [[aa Haa] _]. congruence.
      * intros [[aa Haa] _]. congruence.
    + repeat split; try done.
      * by apply log_ok_snoc.
      * intros x Hx. apply elem_of_app. by left.
      * intros [[aa Haa] _]. congruence.
      * intros _. apply elem_of_app. right. by left.
  - assert (Hl1 : log_ok (st.2 ++ [not_in_pssm pair.1])) by by apply log_ok_snoc.
    destruct (is_valid_cases pssm pair.2 (st.2 ++ [not_in_pssm pair.1]) Hc2)
      as [[Hv2 ->]|[[Hn2 ->]|[Hm2 ->]]]; cbn [mbind result_bind];
      eexists; (split; [done|]); cbn [fst snd].
    + destruct (place_good pair.2 _ (conj Hv2 Hr2) H1 H2) as [? ?].
      repeat split; try done.
      * intros x Hx. apply elem_of_app. by left.
      * intros _. apply elem_of_app. right. by left.
      * intros [_ (t & Ht & Hf)]. destruct Hv2 as [_ (t' & Ht' & Hf')]. congruence.
    + repeat split; try done.
      * intros x Hx. apply elem_of_app. by left.
      * intros _. apply elem_of_app. right. by left.
      * intros [[aa Haa] _]. congruence.
    + repeat split; try done.
      * by apply log_ok_snoc.
      * intros x Hx. apply elem_of_app. left. apply elem_of_app. by left.
      * intros _. apply elem_of_app. left. apply elem_of_app. right. by left.
      * intros _. apply elem_of_app. right. by left.
Qed.

Lemma separate_loop_ok xs st :
  Forall pair_ok xs →
  Forall good st.1.1 → Forall good st.1.2 → log_ok st.2 →
  ∃ st', for_each (separate_step str_residue q pssm) xs st = Ok st'
         ∧ Forall good st'.1.1 ∧ Forall good st'.1.2 ∧ log_ok st'.2
         ∧ st.2 ⊆ st'.2
         ∧ ∀ pair, pair ∈ xs →
             (missing pssm pair.1 → not_in_pssm pair.1 ∈ st'.2)
             ∧ (missing pssm pair.2 → not_in_pssm pair.2 ∈ st'.2).
Proof.
  intros Hxs. revert st.
  induction Hxs as [|pair xs Hp _ IH]; intros st H1 H2 Hl; simpl.
  - exists st. do 5 (split; [done|]). intros p Hin. by apply elem_of_nil in Hin.
  - destruct (separate_step_ok st pair Hp H1 H2 Hl)
      as (st1 & -> & H1' & H2' & Hl' & Hsub & Hm1 & Hm2).
    cbn [mbind result_bind].
    destruct (IH st1 H1' H2' Hl') as (st' & -> & Hg1 & Hg2 & Hl2 & Hsub' & Hall).
    exists st'. split; [done|]. split; [done|]. split; [done|]. split; [done|].
    split. { intros x Hx. by apply Hsub', Hsub. }
    intros p Hin. apply elem_of_cons in Hin as [->|Hin]; [|by apply Hall].
    split; intros Hm; apply Hsub'; [by apply Hm1|by apply Hm2].
Qed.

(** [add_contact] reaches [graph.add_edge(key1, key2)], which raises. *)
Lemma add_contact_raises t r1 r2 d st :
  add_contact' t r1 r2 d st = Raise add_edge_error.
Proof. unfold add_contact. by rewrite add_edge_call_two. Qed.

(** The turn of the loop over the contact pairs with the log replaced. *)
Definition with_log (st : build_state) (l : list string) : build_state :=
  {| graph := graph st; residues_by_node := residues_by_node st; log := l |}.

(** One turn of the loop that adds the edges between the chains: a pair
    with a residue that is not valid is passed over, the graph being left
    as it is; a pair of valid residues reaches [add_edge]. *)
Lemma interface_step_cases st pair :
  pair_ok pair → log_ok (log st) →
  (¬ (valid pssm pair.1 ∧ valid pssm pair.2)
   ∧ ∃ l, interface_step' pssm st pair = Ok (with_log st l)
          ∧ log_ok l ∧ log st ⊆ l)
  ∨ (valid pssm pair.1 ∧ valid pssm pair.2
     ∧ interface_step' pssm st pair = Raise add_edge_error).
Proof.
  intros (Hr1 & Hr2 & Hc1 & Hc2) Hlog. unfold interface_step.
  destruct (is_valid_cases pssm pair.1 (log st) Hc1)
    as [[Hv1 ->]|[[Hn1 ->]|[Hm1 ->]]]; cbn [mbind result_bind].
  - destruct (is_valid_cases pssm pair.2 (log st) Hc2)
      as [[Hv2 ->]|[[Hn2 ->]|[Hm2 ->]]]; cbn [mbind result_bind].
    + right. split; [done|]. split; [done|]. apply add_contact_raises.
    + left. split.
      { intros [_ [[aa Haa] _]]. congruence. }
      exists (log st). by repeat split.
    + left. split.
      { intros [_ [_ (t & Ht & Hf)]]. destruct Hm2 as [_ (t' & Ht' & Hf')].
        congruence. }
      eexists. split; [done|]. split; [by apply log_ok_snoc|].
      intros x Hx. apply elem_of_app. by left.
  - left. split.
    { intros [[[aa Haa] _] _]. congruence. }
    exists (log st). by repeat split.
  - left. split.
    { intros [[_ (t & Ht & Hf)] _]. destruct Hm1 as [_ (t' & Ht' & Hf')].
      congruence. }
    eexists. split; [done|]. split; [by apply log_ok_snoc|].
    intros x Hx. apply elem_of_app. by left.
Qed.

Lemma interface_loop_cases xs st :
  Forall pair_ok xs → log_ok (log st) →
  (Forall (λ pair, ¬ (valid pssm pair.1 ∧ valid pssm pair.2)) xs
   ∧ ∃ l, for_each (interface_step' pssm) xs st = Ok (with_log st l)
          ∧ log_ok l ∧ log st ⊆ l)
  ∨ (Exists (λ pair, valid pssm pair.1 ∧ valid pssm pair.2) xs
     ∧ for_each (interface_step' pssm) xs st = Raise add_edge_error).
Proof.
  intros Hxs. revert st.
  induction Hxs as [|pair xs Hp _ IH]; intros st Hlog; cbn [for_each].
  - left. split; [done|]. exists (log st). split; [by destruct st|done].
  - destruct (interface_step_cases st pair Hp Hlog)
      as [(Hinv & l & -> & Hl & Hsub)|(Hv1 & Hv2 & ->)]; cbn [mbind result_bind].
    + destruct (IH (with_log st l) Hl)
        as [(Hall & l' & -> & Hl' & Hsub')|(Hex & ->)].
      * left. split; [by constructor|]. exists l'. split; [done|].
        split; [done|]. intros x Hx. by apply Hsub', Hsub.
      * right. split; [by apply Exists_cons_tl|done].
    + right. split; [by apply Exists_cons_hd|done].
Qed.

(** The loops that add the edges within a chain leave the state as it is
    or raise at [add_edge]. *)
Lemma internal_step_cases r1 st r2 :
  internal_step' q r1 st r2 = Ok st
  ∨ internal_step' q r1 st r2 = Raise add_edge_error.
Proof.
  unfold internal_step. destruct (PrimFloat.ltb _ _); [right|by left].
  apply add_contact_raises.
Qed.

Lemma internal_edges_cases residue_list st :
  internal_edges' q residue_list st = Ok st
  ∨ internal_edges' q residue_list st = Raise add_edge_error.
Proof.
  induction residue_list as [|r1 rest IH]; cbn [internal_edges]; [by left|].
  destruct (for_each_skip_or_raise (internal_step' q r1) add_edge_error rest st)
    as [[_ ->]|[_ ->]]; cbn [mbind result_bind]; [|exact IH|by right].
  apply Forall_forall. intros r2 _. apply internal_step_cases.
Qed.

End Loops.

Lemma Forall2_elem_of_r {A B : Type} (R : A → B → Prop) (l : list A) (l' : list B) y :
  Forall2 R l l' → y ∈ l' → ∃ x, x ∈ l ∧ R x y.
Proof.
  induction 1 as [|x y' l l' Hxy _ IH]; intros Hin.
  - by apply elem_of_nil in Hin.
  - apply elem_of_cons in Hin as [->|Hin].
    + exists x. split; [left|done].
    + destruct (IH Hin) as (x' & Hx' & HR). exists x'. split; [by right|done].
Qed.

Lemma elem_of_residues_of pairs r :
  r ∈ residues_of pairs ↔ ∃ pair, pair ∈ pairs ∧ (r = pair.1 ∨ r = pair.2).
Proof.
  unfold residues_of. rewrite elem_of_flat_map. split.
  - intros (pair & Hin & Hr). exists pair. split; [done|].
    apply elem_of_cons in Hr as [->|Hr]; [by left|].
    apply list_elem_of_singleton in Hr as ->. by right.
  - intros (pair & Hin & [->| ->]); exists pair; (split; [done|]).
    + left.
    + right. left.
Qed.

(** C4 — when the contact search of an interface query finds no pair of
    residues, [build_graph] raises at once ("no interface residues
    found"), whatever the other collaborators would do, and returns no
    graph, empty or not. *)
Theorem interface_query_without_pairs_raises (q : Query) :
  get_residue_contact_pairs (_pdb_path q) (model_id q) (_chain_id1 q)
    (_chain_id2 q) (_interface_distance_cutoff q) = Ok [] →
  build_graph' q = Raise (ValueError "no interface residues found")
  ∧ ∀ g log, build_graph' q ≠ Ok (g, log).
Proof.
  intros Hpairs. unfold build_graph. rewrite Hpairs.
  cbn [mbind result_bind]. by split.
Qed.

(** C7 (amended) — in the residue query of an interface whose chains
    carry their tables, a residue of the contact search that has no row in
    the table of its chain, or no amino acid, is not valid and raises
    nothing: the loop that separates the residues by chain ends, and the
    two sets it makes, from which the nodes within a chain come, hold valid
    residues of the contact search only.  The log holds a line for each
    residue without a row, and for no other residue (a residue without
    amino acid is dropped without a line).  In the loop that makes the
    edges between the chains, a pair with a residue that is not valid is
    passed over before any call of the graph: the graph and the record of
    the nodes stay as they are. *)
Theorem interface_query_drops_invalid_residues
    (q : Query) (pairs : list (Residue * Residue)) (pssm : dict Chain PssmTable) :
  Forall (checkable pssm) (residues_of pairs) →
  ∃ sets logged,
    for_each (separate_step str_residue q pssm) pairs (([], []), [])
    = Ok (sets, logged)
    ∧ (∀ r, r ∈ sets.1 ∨ r ∈ sets.2 → r ∈ residues_of pairs ∧ valid pssm r)
    ∧ (∀ line, line ∈ logged ↔
         ∃ r, r ∈ residues_of pairs ∧ missing pssm r ∧ line = not_in_pssm r)
    ∧ (∀ st pair,
         pair ∈ pairs → ¬ (valid pssm pair.1 ∧ valid pssm pair.2) →
         ∃ logged', interface_step' pssm st pair
                 = Ok {| graph := graph st;
                         residues_by_node := residues_by_node st;
                         log := logged' |}).
Proof.
  intros Hcheck.
  assert (Hpairs_ok : Forall (pair_ok pssm pairs) pairs).
  { apply Forall_forall. intros pair Hin. rewrite Forall_forall in Hcheck.
    assert (H1 : pair.1 ∈ residues_of pairs)
      by (apply elem_of_residues_of; exists pair; auto).
    assert (H2 : pair.2 ∈ residues_of pairs)
      by (apply elem_of_residues_of; exists pair; auto).
    repeat split; auto. }
  destruct (separate_loop_ok q pssm pairs pairs (([], []), []))
    as ([sets logged] & Hloop & Hs1 & Hs2 & Hlog & _ & Hcomplete); try done.
  { intros line Hin. by apply elem_of_nil in Hin. }
  exists sets, logged. split; [exact Hloop|]. cbn [fst snd] in *.
  split; [|split].
  - rewrite Forall_forall in Hs1, Hs2.
    intros r [Hr|Hr]; [destruct (Hs1 r Hr)|destruct (Hs2 r Hr)]; done.
  - intros line. split; [by apply Hlog|].
    intros (r & Hr & Hm & ->).
    apply elem_of_residues_of in Hr as (pair & Hin & [->| ->]);
      by apply (Hcomplete pair Hin).
  - intros st pair Hin Hinv. rewrite Forall_forall in Hpairs_ok.
    destruct (Hpairs_ok pair Hin) as (_ & _ & Hc1 & Hc2).
    unfold interface_step.
    destruct (is_valid_cases pssm pair.1 (log st) Hc1)
      as [[Hv1 ->]|[[Hn1 ->]|[Hm1 ->]]]; cbn [mbind result_bind];
      [|by eexists..].
    destruct (is_valid_cases pssm pair.2 (log st) Hc2)
      as [[Hv2 ->]|[[Hn2 ->]|[Hm2 ->]]]; cbn [mbind result_bind];
      [|by eexists..].
    by destruct Hinv.
Qed.

End InterfaceFacts.

(** ** The PSSM feature attachment *)

Lemma key_set_set {V : Type} (k : string) (v : V) (d : dict string V) :
  key_set (PyDict.set k v d) = {[ k ]} ∪ key_set d.
Proof.
  unfold key_set, PyDict.keys. induction d as [|[k0 v0] d IH].
  - cbn [PyDict.set]. rewrite !fmap_cons, !list_to_set_cons. done.
  - cbn [PyDict.set]. change (key_eqb k0 k) with (String.eqb k0 k).
    destruct (String.eqb k0 k) eqn:Hk.
    + apply String.eqb_eq in Hk as ->.
      rewrite !fmap_cons, !list_to_set_cons. cbn [fst].
      by rewrite (assoc_L (∪)), (idemp_L (∪) {[k]}).
    + rewrite !fmap_cons, !list_to_set_cons, IH. cbn [fst].
      by rewrite !(assoc_L (∪)), (comm_L (∪) {[k0]}).
Qed.

(** Equalities between unions of singletons. *)
Ltac union_equal :=
  apply set_eq; intros ?; rewrite ?elem_of_union, ?elem_of_singleton; tauto.

Section PssmFeatureFacts.
Import PssmFeature.

Context (amino_acids : list AminoAcid).
Context (get_pssm : Residue → result PssmRow).
Context (PSSM INFOCONTENT CONSERVATION DIFFCONSERVATION : string).

Local Abbreviation add_features_node' :=
  (add_features_node amino_acids get_pssm PSSM INFOCONTENT CONSERVATION
                     DIFFCONSERVATION).
Local Abbreviation add_features' :=
  (add_features amino_acids get_pssm PSSM INFOCONTENT CONSERVATION
                DIFFCONSERVATION).
Local Abbreviation added_names' :=
  (added_names PSSM INFOCONTENT CONSERVATION DIFFCONSERVATION).

(** The node is not the variant residue: its conservation features are
    written as zeros. *)
Definition zero_filled (variant : option SingleResidueVariant) (node : Node) : Prop :=
  ∀ v residue,
    variant = Some v →
    residue_of (GraphPy.node_id node) = Ok residue →
    residue_eqb residue (variant_residue v) = false →
    PyDict.get CONSERVATION (GraphPy.node_features node) = Some (VFloat 0%float)
    ∧ PyDict.get DIFFCONSERVATION (GraphPy.node_features node)
      = Some (VFloat 0%float).

Lemma add_features_node_names variant node node' :
  add_features_node' variant node = Ok node' →
  GraphPy.node_id node' = GraphPy.node_id node
  ∧ key_set (GraphPy.node_features node')
    = key_set (GraphPy.node_features node) ∪ added_names' variant
  ∧ zero_filled variant node'.
Proof.
  unfold add_features_node, zero_filled.
  destruct (residue_of (GraphPy.node_id node)) as [residue|e] eqn:Hres;
    cbn [mbind result_bind]; [|done].
  destruct (get_pssm residue) as [pssm_row|e]; cbn [mbind result_bind]; [|done].
  destruct (map_result _ _) as [profile|e]; cbn [mbind result_bind]; [|done].
  destruct variant as [v|].
  - destruct (residue_eqb residue (variant_residue v)) eqn:Heq.
    + destruct (get_conservation pssm_row (wildtype_amino_acid v)) as [cw|e];
        cbn [mbind result_bind]; [|done].
      destruct (get_conservation pssm_row (variant_amino_acid v)) as [cv|e];
        cbn [mbind result_bind]; [|done].
      intros [= <-]. simpl. split; [done|]. split.
      * rewrite !key_set_set. union_equal.
      * intros v' residue' [= <-] Hres' Hne. congruence.
    + intros [= <-]. simpl. split; [done|]. split.
      * rewrite !key_set_set. union_equal.
      * intros v' residue' _ _ _. split; [|apply get_set_same].
        destruct (String.eqb DIFFCONSERVATION CONSERVATION) eqn:Hk.
        -- by apply (get_set_eq (K:=string)).
        -- rewrite (get_set_ne (K:=string)) by done. apply get_set_same.
  - intros [= <-]. simpl. split; [done|]. split.
    + rewrite !key_set_set. union_equal.
    + by intros v' residue'.
Qed.

(** C2 — after the PSSM feature attachment every node of the graph has
    the feature names it had before and the names of the pass, the same
    for every node: the profile and the information content, and with a
    variant the conservation and its difference, which are set to zero on
    the nodes that are not the variant residue.  So the nodes of a graph
    that carried one set of feature names (none, when the graph has just
    been built) still carry one set: no node has a feature key that
    another node lacks. *)
Theorem add_features_same_feature_names
    (pdb_path : string) (graph graph' : Graph)
    (variant : option SingleResidueVariant) :
  add_features' pdb_path graph variant = Ok graph' →
  (∀ n m, n ∈ GraphPy.nodes graph → m ∈ GraphPy.nodes graph →
          key_set (GraphPy.node_features n) = key_set (GraphPy.node_features m)) →
  Forall2 (λ n n',
             GraphPy.node_id n' = GraphPy.node_id n
             ∧ key_set (GraphPy.node_features n')
               = key_set (GraphPy.node_features n) ∪ added_names' variant)
          (GraphPy.nodes graph) (GraphPy.nodes graph')
  ∧ (∀ n m, n ∈ GraphPy.nodes graph' → m ∈ GraphPy.nodes graph' →
            key_set (GraphPy.node_features n) = key_set (GraphPy.node_features m))
  ∧ (∀ n, n ∈ GraphPy.nodes graph' → zero_filled variant n).
Proof.
  unfold add_features. intros Hadd Hsame.
  destruct (map_result _ (GraphPy._nodes graph)) as [nodes'|e] eqn:Hmap;
    cbn [mbind result_bind] in Hadd; [|done].
  injection Hadd as <-. unfold GraphPy.nodes. simpl.
  apply map_result_Forall2 in Hmap.
  assert (Hall : Forall2 (λ n n',
             GraphPy.node_id n' = GraphPy.node_id n
             ∧ key_set (GraphPy.node_features n')
               = key_set (GraphPy.node_features n) ∪ added_names' variant
             ∧ zero_filled variant n')
          (PyDict.values (GraphPy._nodes graph)) (PyDict.values nodes')).
  { unfold PyDict.values.
    induction Hmap as [|[k n] [k' n'] l l' Hn _ IH]; simpl; [constructor|].
    constructor; [|done]. simpl in Hn.
    destruct (add_features_node' variant n) as [n1|e] eqn:Hn1;
      cbn [mbind result_bind] in Hn; [|done].
    injection Hn as <- <-. by apply add_features_node_names. }
  split; [|split].
  - eapply Forall2_impl; [exact Hall|]. by intros n n' (? & ? & _).
  - intros n m Hn Hm.
    destruct (Forall2_elem_of_r _ _ _ _ Hall Hn) as (n0 & Hn0 & _ & Hkn & _).
    destruct (Forall2_elem_of_r _ _ _ _ Hall Hm) as (m0 & Hm0 & _ & Hkm & _).
    rewrite Hkn, Hkm. by rewrite (Hsame n0 m0).
  - intros n Hn.
    by destruct (Forall2_elem_of_r _ _ _ _ Hall Hn) as (n0 & _ & _ & _ & Hz).
Qed.

End PssmFeatureFacts.

(** ** Dictionaries filled in a loop *)

Section FillFacts.
Context {K V : Type} `{PyKey K}.
Implicit Types (d : dict K V) (kvs : list (K * V)).

(** [for k, v in kvs: d[k] = v] *)
Definition fill (kvs : list (K * V)) (d : dict K V) : dict K V :=
  fold_left (λ d kv, PyDict.set kv.1 kv.2 d) kvs d.

Lemma for_each_fill {A : Type} (f : A → result (K * V))
    (body : dict K V → A → result (dict K V)) (xs : list A) d0 d :
  (∀ d x, body d x = kv ← f x ; Ok (PyDict.set kv.1 kv.2 d)) →
  for_each body xs d0 = Ok d →
  ∃ kvs, map_result f xs = Ok kvs ∧ d = fill kvs d0.
Proof.
  intros Hbody. revert d0. induction xs as [|x xs IH]; intros d0; simpl.
  - intros [= <-]. by exists [].
  - rewrite Hbody. destruct (f x) as [kv|e]; cbn [mbind result_bind]; [|done].
    intros Hrest. destruct (IH _ Hrest) as (kvs & -> & ->).
    cbn [mbind result_bind]. by exists (kv :: kvs).
Qed.

Lemma fill_wf kvs d : PyDict.wf d → PyDict.wf (fill kvs d).
Proof.
  revert d. induction kvs as [|kv kvs IH]; intros d Hw; simpl; [done|].
  by apply IH, set_wf.
Qed.

Lemma fill_keeps kvs d k :
  is_Some (PyDict.get k d) → is_Some (PyDict.get k (fill kvs d)).
Proof.
  revert d. induction kvs as [|kv kvs IH]; intros d Hs; simpl; [done|].
  by apply IH, set_keeps.
Qed.

Lemma fill_keys kvs d kv : kv ∈ kvs → is_Some (PyDict.get kv.1 (fill kvs d)).
Proof.
  revert d. induction kvs as [|kv' kvs IH]; intros d Hin; simpl.
  - by apply elem_of_nil in Hin.
  - apply elem_of_cons in Hin as [->|Hin]; [|by apply IH].
    apply fill_keeps. rewrite get_set_same. by eexists.
Qed.

Lemma elem_set k v k0 v0 d :
  (k0, v0) ∈ PyDict.set k v d →
  (v0 = v ∧ key_eqb k0 k = true) ∨ (k0, v0) ∈ d.
Proof.
  induction d as [|[k1 v1] d IH]; simpl.
  - intros Hin. apply list_elem_of_singleton in Hin as [= -> ->].
    left. by rewrite key_eqb_refl.
  - destruct (key_eqb k1 k) eqn:Hk.
    + intros Hin. apply elem_of_cons in Hin as [[= -> ->]|Hin]; [by left|].
      right. by right.
    + intros Hin. apply elem_of_cons in Hin as [[= -> ->]|Hin].
      * right. left.
      * destruct (IH Hin) as [?|?]; [by left|]. right. by right.
Qed.

Lemma fill_elem kvs d k v :
  (k, v) ∈ fill kvs d →
  (k, v) ∈ d ∨ ∃ kv, kv ∈ kvs ∧ key_eqb k kv.1 = true ∧ v = kv.2.
Proof.
  revert d. induction kvs as [|kv kvs IH]; intros d Hin; simpl in Hin.
  - by left.
  - destruct (IH _ Hin) as [Hd|(kv' & Hkv' & Hk & Hv)].
    + apply elem_set in Hd as [[-> Hk]|Hd]; [|by left].
      right. exists kv. split; [left|done].
    + right. exists kv'. split; [by right|done].
Qed.

Lemma get_app_None k d d' :
  PyDict.get k (d ++ d') = None ↔ PyDict.get k d = None ∧ PyDict.get k d' = None.
Proof.
  induction d as [|[k0 v0] d IH]; simpl.
  - split; [done|]. by intros [_ ?].
  - destruct (key_eqb k0 k); [|done]. split; [done|]. by intros [? _].
Qed.

Lemma set_absent k v d :
  PyDict.get k d = None → PyDict.set k v d = d ++ [(k, v)].
Proof.
  induction d as [|[k0 v0] d IH]; simpl; [done|].
  destruct (key_eqb k0 k); [done|]. intros Hn. by rewrite IH.
Qed.

Lemma wf_app_absent k v d d' :
  PyDict.wf (d ++ (k, v) :: d') → PyDict.get k d = None.
Proof.
  induction d as [|[k0 v0] d IH]; simpl; [done|].
  intros [Hn Hw]. apply get_app_None in Hn as [_ Hn]. simpl in Hn.
  rewrite key_eqb_sym. destruct (key_eqb k k0); [done|]. by apply IH.
Qed.

(** Entries with pairwise different keys are stored as they come. *)
Lemma fill_distinct kvs d : PyDict.wf (d ++ kvs) → fill kvs d = d ++ kvs.
Proof.
  revert d. induction kvs as [|[k v] kvs IH]; intros d Hw; simpl.
  - by rewrite app_nil_r.
  - rewrite (set_absent k v d) by by eapply wf_app_absent.
    rewrite IH; rewrite <- app_assoc; done.
Qed.

End FillFacts.

(** ** The PSSM parser *)

Section ParseFacts.
Import PssmTools.

Context (py_float : string → result float) (amino_acids : list AminoAcid).

Local Abbreviation parse_pssm' := (parse_pssm py_float amino_acids).
Local Abbreviation parse_line' := (parse_line py_float amino_acids).
Local Abbreviation conservations_of' := (conservations_of py_float amino_acids).

(** What a data line gives: the residue of the chain whose number and
    insertion code stand in the column [pdbresi] and whose amino acid
    stands in the column [pdbresn], and a row with the information
    content of the column [IC] and one score for each amino acid, read
    from the column of its letter. *)
Definition line_parsed (column_indices : dict string nat) (chain : Chain)
    (line : string) (rr : Residue * PssmRow) : Prop :=
  res_chain rr.1 = chain
  ∧ (∃ s c,
       field column_indices (split line) "pdbresi" = Ok s
       ∧ last_char s = Some c
       ∧ if isalpha c
         then py_int (but_last s) = Ok (res_number rr.1)
              ∧ res_insertion_code rr.1 = Some (String c EmptyString)
         else py_int s = Ok (res_number rr.1)
              ∧ res_insertion_code rr.1 = None)
  ∧ (∃ letter amino_acid,
       field column_indices (split line) "pdbresn" = Ok letter
       ∧ PyDict.get letter (amino_acids_by_letter amino_acids) = Some amino_acid
       ∧ res_amino_acid rr.1 = Some amino_acid)
  ∧ (∃ ic,
       field column_indices (split line) "IC" = Ok ic
       ∧ py_float ic = Ok (information_content rr.2))
  ∧ (∀ amino_acid, amino_acid ∈ amino_acids →
       is_Some (PyDict.get amino_acid (conservations rr.2)))
  ∧ (∀ amino_acid v, (amino_acid, v) ∈ conservations rr.2 →
       ∃ amino_acid' x,
         amino_acid' ∈ amino_acids
         ∧ key_eqb amino_acid amino_acid' = true
         ∧ field column_indices (split line) (one_letter_code amino_acid') = Ok x
         ∧ py_float x = Ok v).

Lemma conservations_of_spec column_indices row scores :
  conservations_of' column_indices row = Ok scores →
  (∀ amino_acid, amino_acid ∈ amino_acids →
     is_Some (PyDict.get amino_acid scores))
  ∧ (∀ amino_acid v, (amino_acid, v) ∈ scores →
       ∃ amino_acid' x,
         amino_acid' ∈ amino_acids
         ∧ key_eqb amino_acid amino_acid' = true
         ∧ field column_indices row (one_letter_code amino_acid') = Ok x
         ∧ py_float x = Ok v).
Proof.
  unfold conservations_of. intros Hloop.
  apply (for_each_fill
           (λ amino_acid,
              x ← field column_indices row (one_letter_code amino_acid) ;
              v ← py_float x ; Ok (amino_acid, v)))
    in Hloop as (kvs & Hkvs & ->).
  2: { intros d a. destruct (field column_indices row (one_letter_code a)); [|done].
       cbn [mbind result_bind]. by destruct (py_float _). }
  apply map_result_Forall2 in Hkvs.
  assert (Hone : ∀ a kv,
    (x ← field column_indices row (one_letter_code a) ;
     v ← py_float x ; Ok (a, v)) = Ok kv →
    kv.1 = a ∧ ∃ x, field column_indices row (one_letter_code a) = Ok x
                    ∧ py_float x = Ok kv.2).
  { intros a kv. destruct (field column_indices row (one_letter_code a)) as [x|];
      cbn [mbind result_bind]; [|done].
    destruct (py_float x) as [v|] eqn:Hv; cbn [mbind result_bind]; [|done].
    intros [= <-]. split; [done|]. by exists x. }
  split.
  - intros a Ha.
    assert (∃ kv, kv ∈ kvs ∧ kv.1 = a) as (kv & Hkv & <-).
    { clear -Hkvs Ha Hone. induction Hkvs as [|a' kv l l' Hf _ IH].
      - by apply elem_of_nil in Ha.
      - apply elem_of_cons in Ha as [->|Ha].
        + exists kv. split; [left|]. by apply Hone.
        + destruct (IH Ha) as (kv' & ? & ?). exists kv'. split; [by right|done]. }
    by apply fill_keys.
  - intros a v Hin. apply fill_elem in Hin as [Hin|(kv & Hkv & Hk & ->)].
    { by apply elem_of_nil in Hin. }
    destruct (Forall2_elem_of_r _ _ _ _ Hkvs Hkv) as (a' & Ha' & Hf).
    destruct (Hone a' kv Hf) as [Heq (x & Hx & Hv)].
    exists a', x. rewrite Heq in Hk. done.
Qed.

Lemma parse_line_spec column_indices chain line rr :
  parse_line' column_indices chain line = Ok rr →
  line_parsed column_indices chain line rr.
Proof.
  unfold parse_line, line_parsed.
  destruct (field column_indices (split line) "pdbresn") as [letter|];
    cbn [mbind result_bind]; [|done].
  destruct (PyDict.get letter (amino_acids_by_letter amino_acids)) as [aa|] eqn:Haa;
    cbn [from_option mbind result_bind]; [|done].
  destruct (field column_indices (split line) "pdbresi") as [s|];
    cbn [mbind result_bind]; [|done].
  destruct (residue_number_of s) as [ni|] eqn:Hni; cbn [mbind result_bind]; [|done].
  destruct (field column_indices (split line) "IC") as [ic|];
    cbn [mbind result_bind]; [|done].
  destruct (py_float ic) as [info|] eqn:Hic; cbn [mbind result_bind]; [|done].
  destruct (conservations_of' column_indices (split line)) as [scores|] eqn:Hsc;
    cbn [mbind result_bind]; [|done].
  intros [= <-]. cbn [fst snd Residue_init res_chain res_number res_amino_acid
                      res_insertion_code conservations information_content].
  split; [done|]. split.
  { unfold residue_number_of in Hni.
    destruct (last_char s) as [c|] eqn:Hlast; [|done]. exists s, c.
    split; [done|]. split; [done|].
    destruct (isalpha c).
    - destruct (py_int (but_last s)) as [n|]; cbn [mbind result_bind] in Hni; [|done].
      by injection Hni as <-.
    - destruct (py_int s) as [n|]; cbn [mbind result_bind] in Hni; [|done].
      by injection Hni as <-. }
  split; [by exists letter, aa|]. split; [by exists ic|].
  by apply conservations_of_spec.
Qed.

(** [parse_pssm] returns a table for a file with a header whose data
    lines can all be read. *)
Lemma parse_pssm_returns (header : string) (lines : list string) (chain : Chain) :
  Forall (λ line,
            is_ok (parse_line' (column_indices_of (split header)) chain line) = true)
         lines →
  ∃ table, parse_pssm' (header :: lines) chain = Ok table.
Proof.
  intros Hlines. unfold parse_pssm.
  destruct (for_each_ok (λ _, True)
              (λ line, is_ok (parse_line' (column_indices_of (split header))
                                chain line) = true)
              (λ conservation_rows line,
                 rr ← parse_line' (column_indices_of (split header)) chain line ;
                 Ok (PyDict.set rr.1 rr.2 conservation_rows))
              lines []) as (table & Htable & _); [|exact Hlines|exact I|].
  - intros d line Hline _.
    destruct (parse_line' (column_indices_of (split header)) chain line) as [rr|];
      [|discriminate Hline].
    cbn [mbind result_bind]. eexists. split; [reflexivity|exact I].
  - exists table. exact Htable.
Qed.

(** C8 (amended) — [parse_pssm] returns, for a chain, a table that holds
    for every data line of the file (the lines after the header) the
    residue of that line, and under every residue the row of a data line
    of that residue: one conservation score for each amino acid and the
    information content of the line.  The number of a residue is the
    integer before a last alphabetic character of the [pdbresi] field,
    which is then the insertion code; without such a character the whole
    field is the number and the insertion code is None.  When no two
    lines name the same residue the table is the list of the residues and
    rows of the data lines, one entry for each line, in the order of the
    file. *)
Theorem parse_pssm_one_row_for_each_line
    (file_ : list string) (chain : Chain) (table : PssmTable) :
  parse_pssm' file_ chain = Ok table →
  ∃ header lines rows,
    file_ = header :: lines
    ∧ Forall2 (λ line rr,
                 parse_line' (column_indices_of (split header)) chain line = Ok rr
                 ∧ line_parsed (column_indices_of (split header)) chain line rr)
              lines rows
    ∧ table = fill rows []
    ∧ PyDict.wf table
    ∧ (∀ rr, rr ∈ rows → is_Some (PyDict.get rr.1 table))
    ∧ (∀ residue row, (residue, row) ∈ PyDict.items table →
         ∃ rr, rr ∈ rows ∧ key_eqb residue rr.1 = true ∧ row = rr.2)
    ∧ (PyDict.wf rows → table = rows).
Proof.
  unfold parse_pssm. destruct file_ as [|header lines]; [done|].
  intros Hloop. exists header, lines.
  apply (for_each_fill (parse_line' (column_indices_of (split header)) chain))
    in Hloop as (rows & Hrows & ->).
  2: { intros d line. by destruct (parse_line' _ chain line). }
  exists rows. split; [done|]. apply map_result_Forall2 in Hrows.
  split. { eapply Forall2_impl; [exact Hrows|]. intros line rr Hrr.
           split; [done|]. by apply parse_line_spec. }
  split; [done|]. split; [by apply fill_wf|].
  split; [intros rr Hrr; by apply fill_keys|]. split.
  - intros residue row Hin. apply fill_elem in Hin as [Hin|?]; [|done].
    by apply elem_of_nil in Hin.
  - intros Hw. by apply (fill_distinct rows []).
Qed.

End ParseFacts.

(** ** The container on the example graph *)

(** The grid of the example graph is centered between its two nodes. *)
Lemma to_hdf5_cnn_centered_at_centroid_witness :
  (∀ grid p name x m,
     grid_center (Example.record_features grid p name x m) = grid_center grid)
  ∧ reachable Example.graph01
  ∧ GraphPy.nodes Example.graph01 ≠ []
  ∧ grid_center (GraphPy.to_hdf5_cnn Example.record_features Example.graph01
                   Example.settings FAST_GAUSSIAN).1
    = numpy_mean (map GraphPy.Node_position (GraphPy.nodes Example.graph01)).
Proof.
  assert (Hc : ∀ grid p name x m,
    grid_center (Example.record_features grid p name x m) = grid_center grid)
    by reflexivity.
  assert (Hr : reachable Example.graph01)
    by (repeat constructor).
  assert (Hn : GraphPy.nodes Example.graph01 ≠ []) by discriminate.
  split; [exact Hc|]. split; [exact Hr|]. split; [exact Hn|].
  exact (to_hdf5_cnn_centered_at_centroid Example.record_features
           Example.graph01 Example.settings FAST_GAUSSIAN Hc Hr Hn).
Defined.

Example to_hdf5_cnn_example_center :
  grid_center (GraphPy.to_hdf5_cnn Example.record_features Example.graph01
                 Example.settings FAST_GAUSSIAN).1
  = {| px := 1.5; py := 0; pz := 0 |}%float.
Proof. vm_compute. reflexivity. Qed.

(** [Graph.add_edge] takes an edge that pairs an entity with itself: the
    graph then holds a self-edge. *)
Lemma add_edge_accepts_self_edge :
  ¬ (∀ g : GraphPy.Graph nat string,
       reachable g →
       ∀ e, e ∈ GraphPy.edges g →
            key_eqb (GraphPy.item1 (GraphPy.edge_id e))
                    (GraphPy.item2 (GraphPy.edge_id e)) = false).
Proof.
  intros Hall.
  assert (Hr : reachable (GraphPy.add_edge (GraphPy.Graph_init "test" "101m.hdf5")
                                           Example.edge22))
    by (repeat constructor).
  specialize (Hall _ Hr Example.edge22).
  assert (Hin : Example.edge22
                ∈ GraphPy.edges (GraphPy.add_edge
                                   (GraphPy.Graph_init "test" "101m.hdf5")
                                   Example.edge22)) by (vm_compute; left).
  specialize (Hall Hin). vm_compute in Hall. discriminate.
Qed.

(** ** The atomic query on the two cysteines *)

(** C1 — the loop of the atomic query computes the class of a pair of
    atoms as the specification has it: internal when the distance is below
    the bonded cutoff, or when both atoms are named SG and the distance is
    below the disulfid cutoff, interface otherwise.  The class is never
    stored.  On the two cysteines, the atoms N and CA of the first cysteine
    stand at different places of the list of atoms and are closer than the
    nonbonded cutoff: [build_graph] reaches
    [graph.add_edge(atom1_key, atom2_key)] for them and ends there with
    the TypeError of that call.  The pair is not made an edge, and no graph
    is returned. *)
Theorem atomic_query_raises_at_first_close_pair :
  Example.atomic_query_atoms Example.atomic_query = Ok Example.atomic_atoms
  ∧ (∃ a b,
       Example.atomic_atoms !! 0%nat = Some a
       ∧ Example.atomic_atoms !! 1%nat = Some b
       ∧ atom_name a = "N" ∧ atom_name b = "CA"
       ∧ euclidean (atom_position a) (atom_position b) = 1.5%float
       ∧ PrimFloat.ltb (euclidean (atom_position a) (atom_position b))
           (AtomicQuery._nonbonded_distance_cutoff Example.atomic_query) = true
       ∧ AtomicQuery.edge_type_of Example.atomic_query a b
           (euclidean (atom_position a) (atom_position b)) = EDGETYPE_INTERNAL)
  ∧ Example.atomic_build_graph Example.atomic_query
    = Raise (TypeError "add_edge() takes 2 positional arguments but 3 were given")
  ∧ (∀ g, Example.atomic_build_graph Example.atomic_query ≠ Ok g)
  ∧ (∀ q a b d,
       AtomicQuery.edge_type_of q a b d = EDGETYPE_INTERNAL
       ↔ PrimFloat.ltb d (AtomicQuery._bonded_distance_cutoff q) = true
         ∨ (atom_name a = "SG" ∧ atom_name b = "SG"
            ∧ PrimFloat.ltb d (AtomicQuery._disulfid_distance q) = true)).
Proof.
  assert (Hb : Example.atomic_build_graph Example.atomic_query
               = Raise (TypeError
                   "add_edge() takes 2 positional arguments but 3 were given"))
    by (vm_compute; reflexivity).
  split; [vm_compute; reflexivity|].
  split.
  { eexists _, _. split; [reflexivity|]. split; [reflexivity|].
    repeat split; vm_compute; reflexivity. }
  split; [exact Hb|]. split; [|exact edge_type_of_internal].
  intros g Hg. rewrite Hb in Hg. discriminate Hg.
Qed.

Lemma one_edge_for_a_pair_and_no_self_edge_built_witness :
  reachable Example.graph01
  ∧ PyDict.get (GraphPy.edge_id Example.edge01)
          (GraphPy._edges (GraphPy.add_edge Example.graph01 Example.edge10))
        = Some Example.edge10
  ∧ length (GraphPy.edges (GraphPy.add_edge Example.graph01 Example.edge10))
    = length (GraphPy.edges Example.graph01)
  ∧ for_each
      (AtomicQuery.neighbour_step Example.str_atom "type" "dist"
         Example.atomic_query Example.atomic_atoms
         (minkowski_distance (atom_position <$> Example.atomic_atoms)
                             (atom_position <$> Example.atomic_atoms)))
      [(0, 0); (1, 1); (2, 2); (3, 3); (4, 4)]%nat
      (GraphPy.Graph_init "1abc:A:1:Cysteine->Alanine" [], [])
    = Ok (GraphPy.Graph_init "1abc:A:1:Cysteine->Alanine" [], []).
Proof.
  assert (Hr : reachable Example.graph01) by (repeat constructor).
  split; [exact Hr|].
  destruct (one_edge_for_a_pair_and_no_self_edge_built
              Example.str_atom "type" "dist" Example.graph01 Example.edge10 Hr)
    as (_ & Hget & Hlen & _ & Hself).
  split; [rewrite Hget; reflexivity|].
  split; [apply Hlen; vm_compute; by eexists|].
  apply Hself. repeat (constructor; [reflexivity|]). constructor.
Defined.

(** ** The interface query on the example *)

Lemma interface_query_without_pairs_raises_witness :
  Example.get_residue_contact_pairs
    (InterfaceQuery._pdb_path Example.lonely_query)
    (InterfaceQuery.model_id Example.lonely_query)
    (InterfaceQuery._chain_id1 Example.lonely_query)
    (InterfaceQuery._chain_id2 Example.lonely_query)
    (InterfaceQuery._interface_distance_cutoff Example.lonely_query) = Ok []
  ∧ Example.interface_build_graph Example.lonely_query
    = Raise (ValueError "no interface residues found").
Proof.
  assert (Hp : Example.get_residue_contact_pairs
    (InterfaceQuery._pdb_path Example.lonely_query)
    (InterfaceQuery.model_id Example.lonely_query)
    (InterfaceQuery._chain_id1 Example.lonely_query)
    (InterfaceQuery._chain_id2 Example.lonely_query)
    (InterfaceQuery._interface_distance_cutoff Example.lonely_query) = Ok [])
    by reflexivity.
  split; [exact Hp|].
  exact (proj1 (interface_query_without_pairs_raises
           Example.get_residue_contact_pairs Example.get_residue_distance
           Example.model_get_chain Example.pssm_file Example.decimal_float
           Example.amino_acids [] Example.get_bsa_data
           Example.get_depth_contact_res Example.get_hse Example.str_residue
           "dist" "type" "chain" "pos" "res_type" "charge" "polarity" "bsa"
           "pssm" "cons" "ic" "depth" "hse" [Example.alanine; Example.cysteine; Example.glycine]
           Example.lonely_query Hp)).
Defined.

Lemma interface_query_drops_invalid_residues_witness :
  Forall (checkable Example.interface_pssm) (residues_of Example.contact_pairs)
  ∧ ¬ valid Example.interface_pssm Example.unknown3
  ∧ ¬ valid Example.interface_pssm Example.ala4
  ∧ ∃ sets logged,
      for_each (InterfaceQuery.separate_step Example.str_residue
                  Example.interface_query Example.interface_pssm)
               Example.contact_pairs (([], []), [])
      = Ok (sets, logged)
      ∧ (∀ r, r ∈ sets.1 ∨ r ∈ sets.2 →
              r ∈ residues_of Example.contact_pairs
              ∧ valid Example.interface_pssm r)
      ∧ (∀ line, line ∈ logged ↔
           ∃ r, r ∈ residues_of Example.contact_pairs
                ∧ missing Example.interface_pssm r
                ∧ line = not_in_pssm Example.str_residue r).
Proof.
  assert (H5 : Forall (checkable Example.interface_pssm)
                      (residues_of Example.contact_pairs)).
  { repeat (constructor;
              [first [ left; reflexivity
                     | right; vm_compute; eexists; reflexivity ]|]).
    constructor. }
  destruct (interface_query_drops_invalid_residues
              Example.get_residue_distance Example.str_residue "dist" "type"
              Example.interface_query Example.contact_pairs
              Example.interface_pssm H5)
    as (sets & logged & Hloop & Hsets & Hlog & _).
  split; [exact H5|].
  split. { intros Hv%valid_validb. vm_compute in Hv. discriminate Hv. }
  split. { intros Hv%valid_validb. vm_compute in Hv. discriminate Hv. }
  exists sets, logged. split; [exact Hloop|]. split; [exact Hsets|exact Hlog].
Defined.

(** The two sets and the log of the example: the residue without amino
    acid and the residue without a row are in neither set, and the log
    has a line for the second only (one for each look at it). *)
Example interface_query_example :
  for_each (InterfaceQuery.separate_step Example.str_residue
              Example.interface_query Example.interface_pssm)
           Example.contact_pairs (([], []), [])
  = Ok (([Example.cys1; Example.cys2], [Example.gly1; Example.gly2]),
        ["1abc A 4A not in pssm"]).
Proof. vm_compute. reflexivity. Qed.

(** The residue without amino acid is dropped and the log stays empty. *)
Lemma unknown_amino_acid_dropped_without_log_line :
  res_amino_acid Example.unknown3 = None
  ∧ Example.get_residue_contact_pairs
      (InterfaceQuery._pdb_path Example.unknown_query)
      (InterfaceQuery.model_id Example.unknown_query)
      (InterfaceQuery._chain_id1 Example.unknown_query)
      (InterfaceQuery._chain_id2 Example.unknown_query)
      (InterfaceQuery._interface_distance_cutoff Example.unknown_query)
    = Ok [(Example.unknown3, Example.gly1)]
  ∧ InterfaceQuery.read_pssm Example.pssm_file Example.decimal_float
      Example.amino_acids [] Example.unknown_query Example.chainA Example.chainB
    = Ok Example.interface_pssm
  ∧ InterfaceQuery._residue_is_valid Example.str_residue Example.interface_pssm
      Example.unknown3 []
    = Ok (false, [])
  ∧ for_each (InterfaceQuery.separate_step Example.str_residue
                Example.unknown_query Example.interface_pssm)
             [(Example.unknown3, Example.gly1)] (([], []), [])
    = Ok (([], [Example.gly1]), []).
Proof. repeat split; vm_compute; reflexivity. Qed.

(** ** Equality, hash and id on the examples *)

Lemma interface_query_eq_hash_symmetric_witness :
  InterfaceQuery.model_id Example.interface_query
  = InterfaceQuery.model_id (InterfaceQuery.swapped Example.interface_query)
  ∧ InterfaceQuery.eq Example.interface_query
      (InterfaceQuery.swapped Example.interface_query) = true
  ∧ InterfaceQuery.hash Example.string_hash Example.interface_query
    = InterfaceQuery.hash Example.string_hash
        (InterfaceQuery.swapped Example.interface_query)
  ∧ InterfaceQuery.get_query_id Example.interface_query
    ≠ InterfaceQuery.get_query_id (InterfaceQuery.swapped Example.interface_query).
Proof.
  destruct (interface_query_eq_hash_symmetric Example.string_hash
              Example.interface_query
              (InterfaceQuery.swapped Example.interface_query)
              eq_refl eq_refl eq_refl) as (Heq & Hhash & Hid).
  split; [reflexivity|]. split; [exact Heq|]. split; [exact Hhash|].
  apply Hid; [discriminate|]. left. reflexivity.
Defined.

(** With a hyphen in a chain id, the two orders of two different chains
    give one query id. *)
Lemma query_ids_coincide_with_hyphen :
  ¬ (∀ q q' : InterfaceQuery.Query,
       InterfaceQuery.model_id q = InterfaceQuery.model_id q' →
       InterfaceQuery._chain_id1 q' = InterfaceQuery._chain_id2 q →
       InterfaceQuery._chain_id2 q' = InterfaceQuery._chain_id1 q →
       InterfaceQuery._chain_id1 q ≠ InterfaceQuery._chain_id2 q →
       InterfaceQuery.get_query_id q ≠ InterfaceQuery.get_query_id q').
Proof.
  intros Hall.
  apply (Hall Example.hyphen_query (InterfaceQuery.swapped Example.hyphen_query));
    try reflexivity.
  discriminate.
Qed.

Example query_ids_coincide_example :
  InterfaceQuery.get_query_id Example.hyphen_query = "1abc:A-A-A"
  ∧ InterfaceQuery.get_query_id (InterfaceQuery.swapped Example.hyphen_query)
    = "1abc:A-A-A".
Proof. split; reflexivity. Qed.


(** ** The PSSM parser and the PSSM features on the examples *)

Lemma parse_pssm_one_row_for_each_line_witness :
  PssmTools.parse_pssm Example.decimal_float Example.amino_acids
    Example.pssm_lines_B Example.chainB = Ok Example.pssm_table_B
  ∧ ∃ header lines rows,
      Example.pssm_lines_B = header :: lines
      ∧ Forall2 (λ line rr,
                   PssmTools.parse_line Example.decimal_float Example.amino_acids
                     (PssmTools.column_indices_of (split header))
                     Example.chainB line = Ok rr
                   ∧ line_parsed Example.decimal_float Example.amino_acids
                       (PssmTools.column_indices_of (split header))
                       Example.chainB line rr)
                lines rows
      ∧ Example.pssm_table_B = fill rows []
      ∧ PyDict.wf Example.pssm_table_B
      ∧ (∀ rr, rr ∈ rows → is_Some (PyDict.get rr.1 Example.pssm_table_B))
      ∧ (∀ residue row, (residue, row) ∈ PyDict.items Example.pssm_table_B →
           ∃ rr, rr ∈ rows ∧ key_eqb residue rr.1 = true ∧ row = rr.2)
      ∧ (PyDict.wf rows → Example.pssm_table_B = rows).
Proof.
  assert (Hp : PssmTools.parse_pssm Example.decimal_float Example.amino_acids
                 Example.pssm_lines_B Example.chainB = Ok Example.pssm_table_B)
    by (vm_compute; reflexivity).
  split; [exact Hp|].
  exact (parse_pssm_one_row_for_each_line Example.decimal_float
           Example.amino_acids Example.pssm_lines_B Example.chainB
           Example.pssm_table_B Hp).
Defined.

Example parse_pssm_example :
  map (λ kv : Residue * PssmRow,
         (res_number kv.1, res_insertion_code kv.1, information_content kv.2))
      Example.pssm_table_B
  = [ (1%Z, None, 0.75%float); (2%Z, None, 1.5%float);
      (2%Z, Some "A", 0.125%float) ].
Proof. vm_compute. reflexivity. Qed.

Lemma add_features_same_feature_names_witness :
  Example.pssm_add_features Example.pssm_graph (Some Example.variant)
  = Ok Example.pssm_graph_after
  ∧ (∀ n m, n ∈ GraphPy.nodes Example.pssm_graph →
            m ∈ GraphPy.nodes Example.pssm_graph →
            key_set (GraphPy.node_features n) = key_set (GraphPy.node_features m))
  ∧ (∀ n m, n ∈ GraphPy.nodes Example.pssm_graph_after →
            m ∈ GraphPy.nodes Example.pssm_graph_after →
            key_set (GraphPy.node_features n) = key_set (GraphPy.node_features m))
  ∧ (∀ n, n ∈ GraphPy.nodes Example.pssm_graph_after →
          zero_filled "conservation" "diff_conservation" (Some Example.variant) n).
Proof.
  assert (Ha : Example.pssm_add_features Example.pssm_graph (Some Example.variant)
               = Ok Example.pssm_graph_after) by (vm_compute; reflexivity).
  assert (Hs : ∀ n m, n ∈ GraphPy.nodes Example.pssm_graph →
                      m ∈ GraphPy.nodes Example.pssm_graph →
                      key_set (GraphPy.node_features n)
                      = key_set (GraphPy.node_features m)).
  { intros n m Hn Hm.
    apply elem_of_cons in Hn as [->|Hn];
      [|apply elem_of_cons in Hn as [->|Hn];
        [|apply elem_of_nil in Hn; destruct Hn]];
      (apply elem_of_cons in Hm as [->|Hm];
        [|apply elem_of_cons in Hm as [->|Hm];
          [|apply elem_of_nil in Hm; destruct Hm]]);
      reflexivity. }
  split; [exact Ha|]. split; [exact Hs|].
  destruct (add_features_same_feature_names Example.amino_acids Example.get_pssm
              "pssm" "info_content" "conservation" "diff_conservation"
              "data/1abc.pdb" Example.pssm_graph Example.pssm_graph_after
              (Some Example.variant) Ha Hs) as (_ & Hsame & Hzero).
  split; [exact Hsame|exact Hzero].
Defined.

Example add_features_example :
  map (λ n, PyDict.keys (GraphPy.node_features n))
      (GraphPy.nodes Example.pssm_graph_after)
  = [ ["pssm"; "info_content"; "conservation"; "diff_conservation"];
      ["pssm"; "info_content"; "conservation"; "diff_conservation"] ]
  ∧ map (λ n, PyDict.get "conservation" (GraphPy.node_features n))
        (GraphPy.nodes Example.pssm_graph_after)
    = [ Some (VFloat 9%float); Some (VFloat 0%float) ].
Proof. split; vm_compute; reflexivity. Qed.
(** * Further properties of the code *)

(** ** Loops and dictionaries *)

Lemma for_each_app {A S : Type} (body : S → A → result S) (xs ys : list A) (s : S) :
  for_each body (xs ++ ys) s = s' ← for_each body xs s ; for_each body ys s'.
Proof.
  revert s. induction xs as [|x xs IH]; intros s; simpl; [done|].
  destruct (body s x) as [s1|e]; cbn [mbind result_bind]; [apply IH|done].
Qed.

(** A loop whose body raises at an element, after elements at which it
    returns, raises that exception. *)
Lemma for_each_raises {A S : Type} (body : S → A → result S)
    (xs : list A) (x : A) (ys : list A) (s : S) (e : exception) :
  Forall (λ x, ∀ s, is_ok (body s x) = true) xs →
  (∀ s, body s x = Raise e) →
  for_each body (xs ++ x :: ys) s = Raise e.
Proof.
  intros Hxs Hx. revert s. induction Hxs as [|x' xs Hx' _ IH]; intros s; simpl.
  - by rewrite Hx.
  - specialize (Hx' s). destruct (body s x') as [s1|]; [|done].
    cbn [mbind result_bind]. apply IH.
Qed.

Section FillLookup.
Context {K V : Type} `{PyKey K}.
Implicit Types (kvs : list (K * V)) (d : dict K V).

(** The last of the assignments to a key. *)
Fixpoint last_write (k : K) kvs : option (K * V) :=
  match kvs with
  | [] => None
  | kv :: kvs' =>
      match last_write k kvs' with
      | Some kv' => Some kv'
      | None => if key_eqb kv.1 k then Some kv else None
      end
  end.

Lemma fill_cons kv kvs d : fill (kv :: kvs) d = fill kvs (PyDict.set kv.1 kv.2 d).
Proof. done. Qed.

Lemma fill_app kvs kvs' d : fill (kvs ++ kvs') d = fill kvs' (fill kvs d).
Proof. unfold fill. by rewrite fold_left_app. Qed.

Lemma get_fill k kvs d :
  PyDict.get k (fill kvs d)
  = match last_write k kvs with
    | Some kv => Some kv.2
    | None => PyDict.get k d
    end.
Proof.
  revert d. induction kvs as [|kv kvs IH]; intros d; [done|].
  rewrite fill_cons, IH. cbn [last_write].
  destruct (last_write k kvs) as [kv'|]; [done|].
  destruct (key_eqb kv.1 k) eqn:Hk.
  - by apply get_set_eq.
  - by apply get_set_ne.
Qed.

Lemma last_write_None k kvs :
  last_write k kvs = None ↔ ∀ kv, kv ∈ kvs → key_eqb kv.1 k = false.
Proof.
  induction kvs as [|kv kvs IH]; cbn [last_write].
  - split; [|done]. intros _ kv Hkv. by apply elem_of_nil in Hkv.
  - destruct (last_write k kvs) as [kv'|].
    + split; [done|]. intros Hn.
      assert (Some kv' = None) as Hno; [|done].
      apply IH. intros kv0 Hkv0. apply Hn. by right.
    + destruct (key_eqb kv.1 k) eqn:Hk.
      * split; [done|]. intros Hn. rewrite Hn in Hk; [done|left].
      * split; [|done]. intros _ kv0 [->|Hkv0]%elem_of_cons; [done|].
        by apply IH.
Qed.

Lemma last_write_app_r k kvs kv kvs' :
  key_eqb kv.1 k = true →
  (∀ kv', kv' ∈ kvs' → key_eqb kv'.1 k = false) →
  last_write k (kvs ++ kv :: kvs') = Some kv.
Proof.
  intros Hk Hn. induction kvs as [|kv0 kvs IH]; cbn [app last_write].
  - rewrite (proj2 (last_write_None k kvs') Hn). by rewrite Hk.
  - by rewrite IH.
Qed.

Lemma last_write_Some k kvs kv :
  last_write k kvs = Some kv → kv ∈ kvs ∧ key_eqb kv.1 k = true.
Proof.
  induction kvs as [|kv0 kvs IH]; cbn [last_write]; [done|].
  destruct (last_write k kvs) as [kv'|].
  - intros [= <-]. destruct IH as [? ?]; [done|]. split; [by right|done].
  - destruct (key_eqb kv0.1 k) eqn:Hk; [|done]. intros [= <-]. split; [left|done].
Qed.

Lemma fold_left_fill {A : Type} (key : A → K) (val : A → V) (xs : list A) d :
  fold_left (λ d x, PyDict.set (key x) (val x) d) xs d
  = fill ((λ x, (key x, val x)) <$> xs) d.
Proof. revert d. induction xs as [|x xs IH]; intros d; [done|]. apply IH. Qed.

End FillLookup.

(** ** The PSSM parser: unreadable files *)

Lemma split_from_blank (s : string) :
  forallb is_space (list_ascii_of_string s) = true → split_from s [] = [].
Proof.
  induction s as [|c s IH]; cbn [list_ascii_of_string forallb split_from]; [done|].
  intros [Hc Hs]%andb_true_iff. rewrite Hc. by apply IH.
Qed.

Section ParseErrors.
Import PssmTools.

Context (py_float : string → result float) (amino_acids : list AminoAcid).

Local Abbreviation parse_pssm' := (parse_pssm py_float amino_acids).
Local Abbreviation parse_line' := (parse_line py_float amino_acids).
Local Abbreviation conservations_of' := (conservations_of py_float amino_acids).

(** The names of the columns of a header. *)
Definition column_names (header : string) : list string := strip <$> split header.

(** The columns a data line is read from. *)
Definition needed_columns : list string :=
  "pdbresn" :: "pdbresi" :: "IC" :: (one_letter_code <$> amino_acids).

(** A data line that can be read under a header. *)
Definition readable (header : string) (chain : Chain) (line : string) : Prop :=
  is_ok (parse_line' (column_indices_of (split header)) chain line) = true.

Lemma column_indices_of_fill (header : list string) :
  column_indices_of header
  = fill ((λ ic : nat * string, (strip ic.2, ic.1))
            <$> imap (λ index column_name, (index, column_name)) header) [].
Proof.
  unfold column_indices_of.
  apply (fold_left_fill (λ ic : nat * string, strip ic.2) (λ ic, ic.1)).
Qed.

Lemma column_indices_of_None (header : list string) (c : string) :
  c ∉ strip <$> header → PyDict.get c (column_indices_of header) = None.
Proof.
  intros Hc. rewrite column_indices_of_fill, get_fill.
  rewrite (proj2 (last_write_None c _)); [done|].
  intros kv ([i name] & -> & Hin)%list_elem_of_fmap. cbn [fst snd].
  apply elem_of_lookup_imap in Hin as (i' & name' & [= -> ->] & Hl).
  apply String.eqb_neq. intros <-. apply Hc.
  apply list_elem_of_fmap. exists name'. split; [done|].
  by eapply list_elem_of_lookup_2.
Qed.

Lemma column_indices_of_Some (header : list string) (c : string) :
  c ∈ strip <$> header → is_Some (PyDict.get c (column_indices_of header)).
Proof.
  intros (name & -> & Hin)%list_elem_of_fmap.
  apply list_elem_of_lookup_1 in Hin as [i Hi].
  rewrite column_indices_of_fill.
  apply (fill_keys _ [] (strip name, i)).
  apply list_elem_of_fmap. exists (i, name). split; [done|].
  apply elem_of_lookup_imap. by exists i, name.
Qed.

Lemma amino_acids_by_letter_None (letter : string) :
  letter ∉ one_letter_code <$> amino_acids →
  PyDict.get letter (amino_acids_by_letter amino_acids) = None.
Proof.
  intros Hl. unfold amino_acids_by_letter.
  rewrite (fold_left_fill one_letter_code (λ a, a)), get_fill.
  rewrite (proj2 (last_write_None letter _)); [done|].
  intros kv (a & -> & Hin)%list_elem_of_fmap. cbn [fst].
  apply String.eqb_neq. intros <-. apply Hl.
  apply list_elem_of_fmap. by exists a.
Qed.

Lemma field_ok_column ci row c :
  is_ok (field ci row c) = true → is_Some (PyDict.get c ci).
Proof. unfold field. by destruct (PyDict.get c ci); [eexists|]. Qed.

(** A line that is read takes a field from each of the needed columns. *)
Lemma parse_line_columns ci chain line c :
  is_ok (parse_line' ci chain line) = true →
  c ∈ needed_columns → is_Some (PyDict.get c ci).
Proof.
  unfold parse_line. intros Hok Hc.
  destruct (field ci (split line) "pdbresn") as [letter|] eqn:Hn;
    cbn [mbind result_bind] in Hok; [|done].
  destruct (PyDict.get letter (amino_acids_by_letter amino_acids)) as [aa|];
    cbn [from_option mbind result_bind] in Hok; [|done].
  destruct (field ci (split line) "pdbresi") as [s|] eqn:Hi;
    cbn [mbind result_bind] in Hok; [|done].
  destruct (residue_number_of s) as [ni|]; cbn [mbind result_bind] in Hok; [|done].
  destruct (field ci (split line) "IC") as [ic|] eqn:Hic;
    cbn [mbind result_bind] in Hok; [|done].
  destruct (py_float ic) as [info|]; cbn [mbind result_bind] in Hok; [|done].
  destruct (conservations_of' ci (split line)) as [scores|] eqn:Hsc;
    cbn [mbind result_bind] in Hok; [|done].
  apply elem_of_cons in Hc as [->|Hc].
  { apply (field_ok_column ci (split line)). by rewrite Hn. }
  apply elem_of_cons in Hc as [->|Hc].
  { apply (field_ok_column ci (split line)). by rewrite Hi. }
  apply elem_of_cons in Hc as [->|Hc].
  { apply (field_ok_column ci (split line)). by rewrite Hic. }
  apply list_elem_of_fmap in Hc as (a & -> & Ha).
  unfold conservations_of in Hsc.
  apply (for_each_fill
           (λ amino_acid,
              x ← field ci (split line) (one_letter_code amino_acid) ;
              v ← py_float x ; Ok (amino_acid, v)))
    in Hsc as (kvs & Hkvs & _).
  2: { intros d a'. destruct (field ci (split line) (one_letter_code a')); [|done].
       cbn [mbind result_bind]. by destruct (py_float _). }
  apply map_result_Forall2 in Hkvs.
  apply list_elem_of_lookup_1 in Ha as [i Hi'].
  destruct (Forall2_lookup_l _ _ _ _ _ Hkvs Hi') as (kv & _ & Hkv).
  apply (field_ok_column ci (split line)).
  by destruct (field ci (split line) (one_letter_code a)).
Qed.

(** X1 — [parse_pssm] raises the exception of the first data line that
    cannot be read: the lines before it are read, the lines after it are
    not looked at, and no table is returned. *)
Theorem parse_pssm_raises_at_first_unreadable_line
    (header : string) (good : list string) (line : string) (rest : list string)
    (chain : Chain) (e : exception) :
  Forall (readable header chain) good →
  parse_line' (column_indices_of (split header)) chain line = Raise e →
  parse_pssm' (header :: good ++ line :: rest) chain = Raise e.
Proof.
  intros Hgood Hline. unfold parse_pssm. apply for_each_raises.
  - eapply Forall_impl; [exact Hgood|]. intros l Hl d. unfold readable in Hl.
    by destruct (parse_line' _ chain l).
  - intros d. by rewrite Hline.
Qed.

(** X2 — a data line of white space only (a blank line) makes
    [parse_pssm] raise IndexError when the header names the column
    [pdbresn], wherever the line stands after lines that can be read. *)
Theorem parse_pssm_blank_line_raises
    (header : string) (good : list string) (line : string) (rest : list string)
    (chain : Chain) :
  "pdbresn" ∈ column_names header →
  Forall (readable header chain) good →
  forallb is_space (list_ascii_of_string line) = true →
  parse_pssm' (header :: good ++ line :: rest) chain = Raise IndexError.
Proof.
  intros Hcol Hgood Hblank. unfold parse_pssm. apply for_each_raises.
  - eapply Forall_impl; [exact Hgood|]. intros l Hl d. unfold readable in Hl.
    by destruct (parse_line' _ chain l).
  - intros d. unfold parse_line, field.
    assert (split line = []) as -> by by apply split_from_blank.
    destruct (column_indices_of_Some _ _ Hcol) as [i ->]. done.
Qed.

(** X3 — the header is not checked when it is read.  With a header that
    lacks one of the columns [pdbresn], [pdbresi], [IC] or the letter of an
    amino acid, a file without data lines gives the empty table and every
    file with a data line raises; the exception is [KeyError: 'pdbresn']
    when that column is the one that lacks. *)
Theorem parse_pssm_needs_every_column
    (header : string) (c : string) (chain : Chain) :
  c ∈ needed_columns →
  c ∉ column_names header →
  parse_pssm' [header] chain = Ok []
  ∧ (∀ line rest, is_ok (parse_pssm' (header :: line :: rest) chain) = false)
  ∧ (c = "pdbresn" →
     ∀ line rest,
       parse_pssm' (header :: line :: rest) chain = Raise (KeyError "pdbresn")).
Proof.
  intros Hneeded Hc. split; [done|]. split.
  - intros line rest. unfold parse_pssm. cbn [for_each].
    destruct (parse_line' (column_indices_of (split header)) chain line) as [rr|]
      eqn:Hline; [|done].
    assert (is_Some (PyDict.get c (column_indices_of (split header)))) as [i Hi].
    { apply (parse_line_columns _ chain line); [by rewrite Hline|done]. }
    by rewrite (column_indices_of_None _ _ Hc) in Hi.
  - intros -> line rest. unfold parse_pssm. cbn [for_each].
    unfold parse_line, field. by rewrite (column_indices_of_None _ _ Hc).
Qed.

(** X4 — a data line whose [pdbresn] field is not the one letter code of
    an amino acid makes [parse_pssm] raise KeyError with that field. *)
Theorem parse_pssm_unknown_amino_acid_letter
    (header : string) (good : list string) (line : string) (rest : list string)
    (chain : Chain) (letter : string) :
  Forall (readable header chain) good →
  field (column_indices_of (split header)) (split line) "pdbresn" = Ok letter →
  letter ∉ one_letter_code <$> amino_acids →
  parse_pssm' (header :: good ++ line :: rest) chain = Raise (KeyError letter).
Proof.
  intros Hgood Hfield Hletter.
  unfold parse_pssm. apply for_each_raises.
  - eapply Forall_impl; [exact Hgood|]. intros l Hl d. unfold readable in Hl.
    by destruct (parse_line' _ chain l).
  - intros d. unfold parse_line. rewrite Hfield. cbn [mbind result_bind].
    by rewrite (amino_acids_by_letter_None _ Hletter).
Qed.

End ParseErrors.

(** ** The PSSM parser: lookups in the table *)

Section ParseLookup.
Import PssmTools.

Context (py_float : string → result float) (amino_acids : list AminoAcid).

Local Abbreviation parse_pssm' := (parse_pssm py_float amino_acids).
Local Abbreviation parse_line' := (parse_line py_float amino_acids).

(** X5 — a lookup in the table that [parse_pssm] returns gives, for a
    residue, the row of the last data line that names this residue: a
    later line replaces the row of an earlier line of the same residue.
    A residue that no data line names is not in the table (the lookup
    raises KeyError). *)
Theorem parse_pssm_last_line_wins
    (header : string) (lines : list string) (chain : Chain) (table : PssmTable) :
  parse_pssm' (header :: lines) chain = Ok table →
  ∃ rows,
    Forall2 (λ line rr,
               parse_line' (column_indices_of (split header)) chain line = Ok rr)
            lines rows
    ∧ (∀ i rr,
         rows !! i = Some rr →
         (∀ j rr', i < j → rows !! j = Some rr' → key_eqb rr'.1 rr.1 = false) →
         PyDict.get rr.1 table = Some rr.2)
    ∧ (∀ residue,
         (∀ rr, rr ∈ rows → key_eqb rr.1 residue = false) →
         PyDict.get residue table = None
         ∧ PyDict.contains residue table = false)
    ∧ (∀ residue row,
         PyDict.get residue table = Some row →
         ∃ rr, rr ∈ rows ∧ key_eqb rr.1 residue = true ∧ row = rr.2).
Proof.
  unfold parse_pssm. intros Hloop.
  apply (for_each_fill (parse_line' (column_indices_of (split header)) chain))
    in Hloop as (rows & Hrows & ->).
  2: { intros d line. by destruct (parse_line' _ chain line). }
  exists rows. split; [by apply map_result_Forall2|]. split; [|split].
  - intros i rr Hi Hlater. rewrite get_fill.
    apply list_elem_of_split_length in Hi as (before & after & -> & ->).
    rewrite (last_write_app_r rr.1 before rr after); [done|apply key_eqb_refl|].
    intros rr' Hin. apply list_elem_of_lookup_1 in Hin as [j Hj].
    apply (Hlater (length before + S j)); [lia|].
    rewrite lookup_app_r by lia.
    replace (length before + S j - length before) with (S j) by lia. done.
  - intros residue Hnone.
    assert (PyDict.get residue (fill rows []) = None) as Hget.
    { rewrite get_fill. by rewrite (proj2 (last_write_None residue rows) Hnone). }
    split; [done|]. unfold PyDict.contains. by rewrite Hget.
  - intros residue row. rewrite get_fill.
    destruct (last_write residue rows) as [rr|] eqn:Hlast; [|done].
    intros [= <-]. apply last_write_Some in Hlast as [? ?]. by exists rr.
Qed.

End ParseLookup.

(** ** Residue numbers and insertion codes *)

Lemma list_ascii_of_string_app (a b : string) :
  list_ascii_of_string (a ++ b)%string
  = list_ascii_of_string a ++ list_ascii_of_string b.
Proof. induction a as [|c a IH]; simpl; [done|]. by rewrite IH. Qed.

Lemma last_char_snoc (s : string) (c : ascii) :
  last_char (s ++ String c EmptyString)%string = Some c.
Proof. unfold last_char. rewrite list_ascii_of_string_app. apply last_snoc. Qed.

Lemma but_last_snoc (s : string) (c : ascii) :
  but_last (s ++ String c EmptyString)%string = s.
Proof.
  unfold but_last. rewrite list_ascii_of_string_app. cbn [list_ascii_of_string].
  rewrite removelast_last. apply string_of_list_ascii_of_string.
Qed.

Lemma lstrip_id (s : string) :
  Forall (λ c, is_space c = false) (list_ascii_of_string s) → lstrip s = s.
Proof.
  destruct s as [|c s]; [done|]. cbn [list_ascii_of_string lstrip].
  intros [Hc _]%Forall_cons. by rewrite Hc.
Qed.

(** [strip] leaves a string without white space as it is. *)
Lemma strip_id (s : string) :
  Forall (λ c, is_space c = false) (list_ascii_of_string s) → strip s = s.
Proof.
  intros Hs. unfold strip. rewrite (lstrip_id s Hs).
  rewrite lstrip_id.
  - unfold string_rev. rewrite list_ascii_of_string_of_list_ascii, rev_involutive.
    apply string_of_list_ascii_of_string.
  - unfold string_rev. rewrite list_ascii_of_string_of_list_ascii.
    by apply Forall_rev.
Qed.

Lemma is_digit_not_space (c : ascii) : is_digit c = true → is_space c = false.
Proof. destruct c as [[] [] [] [] [] [] [] []]; vm_compute; congruence. Qed.

Lemma is_digit_not_alpha (c : ascii) : is_digit c = true → isalpha c = false.
Proof. destruct c as [[] [] [] [] [] [] [] []]; vm_compute; congruence. Qed.

Lemma isalpha_not_space (c : ascii) : isalpha c = true → is_space c = false.
Proof. destruct c as [[] [] [] [] [] [] [] []]; vm_compute; congruence. Qed.

Lemma pretty_N_char_digit (d : N) :
  (d < 10)%N →
  is_digit (pretty_N_char d) = true
  ∧ (Z.of_nat (nat_of_ascii (pretty_N_char d)) - 48)%Z = Z.of_N d.
Proof.
  intros Hd.
  assert (d = 0 ∨ d = 1 ∨ d = 2 ∨ d = 3 ∨ d = 4 ∨ d = 5 ∨ d = 6 ∨ d = 7
          ∨ d = 8 ∨ d = 9)%N as Hcases by lia.
  repeat (destruct Hcases as [->|Hcases]; [by vm_compute|]). by subst.
Qed.

(** The digits that [str] writes for a positive number. *)
Lemma pretty_N_go_digits (x : N) (s : string) :
  (0 < x)%N →
  ∃ d, d ≠ [] ∧ Forall (λ c, is_digit c = true) d
       ∧ list_ascii_of_string (pretty_N_go x s) = d ++ list_ascii_of_string s.
Proof.
  revert s. induction (N.lt_wf_0 x) as [x _ IH]. intros s Hx.
  rewrite pretty_N_go_step by done.
  destruct (pretty_N_char_digit (x `mod` 10)%N) as [Hdigit _].
  { by apply N.mod_lt. }
  destruct (decide (x `div` 10 = 0)%N) as [Hz|Hz].
  - rewrite Hz, pretty_N_go_0. exists [pretty_N_char (x `mod` 10)%N].
    split; [done|]. split; [by constructor|done].
  - assert (x `div` 10 < x)%N as Hlt by (apply N.div_lt; lia).
    assert (0 < x `div` 10)%N as Hpos by (by apply N.neq_0_lt_0).
    destruct (IH (x `div` 10)%N Hlt (String (pretty_N_char (x `mod` 10)%N) s) Hpos)
      as (d & Hne & Hd & ->).
    exists (d ++ [pretty_N_char (x `mod` 10)%N]). split.
    { by destruct d. }
    split; [apply Forall_app; split; [done|by constructor]|].
    cbn [list_ascii_of_string]. by rewrite <- app_assoc.
Qed.

(** [int] reads the digits that [str] writes. *)
Lemma digits_value_pretty_N_go (x : N) (s : string) (b : bool) :
  (0 < x)%N →
  digits_value 0 b (pretty_N_go x s) = digits_value (Z.of_N x) true s.
Proof.
  revert s b. induction (N.lt_wf_0 x) as [x _ IH]. intros s b Hx.
  rewrite pretty_N_go_step by done.
  destruct (pretty_N_char_digit (x `mod` 10)%N) as [Hdigit Hvalue].
  { by apply N.mod_lt. }
  destruct (decide (x `div` 10 = 0)%N) as [Hz|Hz].
  - rewrite Hz, pretty_N_go_0. cbn [digits_value]. rewrite Hdigit, Hvalue.
    f_equal. rewrite (N.div_mod x 10) at 2 by done. rewrite Hz. lia.
  - assert (x `div` 10 < x)%N as Hlt by (apply N.div_lt; lia).
    assert (0 < x `div` 10)%N as Hpos by (by apply N.neq_0_lt_0).
    rewrite (IH (x `div` 10)%N Hlt _ b Hpos).
    cbn [digits_value]. rewrite Hdigit, Hvalue. f_equal.
    rewrite (N.div_mod x 10) at 3 by done. lia.
Qed.

Lemma py_int_unsigned (c : ascii) (r : string) :
  is_digit c = true →
  strip (String c r) = String c r →
  py_int (String c r)
  = from_option (ValueError "invalid literal for int() with base 10")
                (digits_value 0 false (String c r)).
Proof.
  intros Hc Hs. unfold py_int. rewrite Hs.
  destruct c as [[] [] [] [] [] [] [] []]; try discriminate Hc; reflexivity.
Qed.

Lemma py_int_pretty_N (x : N) : (0 < x)%N → py_int (pretty_N_go x "") = Ok (Z.of_N x).
Proof.
  intros Hx. destruct (pretty_N_go_digits x "" Hx) as (d & Hne & Hd & Hlist).
  rewrite app_nil_r in Hlist.
  assert (strip (pretty_N_go x "") = pretty_N_go x "") as Hstrip.
  { apply strip_id. rewrite Hlist. eapply Forall_impl; [exact Hd|].
    intros c. apply is_digit_not_space. }
  destruct (pretty_N_go x "") as [|c r] eqn:Hp.
  { by destruct d. }
  destruct d as [|c' d]; [done|]. cbn [list_ascii_of_string app] in Hlist.
  injection Hlist as <- _. apply Forall_cons in Hd as [Hc _].
  rewrite (py_int_unsigned c r Hc Hstrip), <- Hp.
  by rewrite (digits_value_pretty_N_go x "" false Hx).
Qed.

(** [int(str(n))] is [n]. *)
Lemma py_int_str_int (n : Z) : py_int (str_int n) = Ok n.
Proof.
  unfold str_int, pretty, pretty_Z. destruct n as [|p|p].
  - done.
  - unfold pretty, pretty_positive, pretty, pretty_N.
    destruct (decide (N.pos p = 0%N)) as [?|_]; [done|].
    by rewrite py_int_pretty_N.
  - unfold pretty, pretty_positive, pretty, pretty_N.
    destruct (decide (N.pos p = 0%N)) as [?|_]; [done|].
    destruct (pretty_N_go_digits (N.pos p) "") as (d & Hne & Hd & Hlist); [done|].
    rewrite app_nil_r in Hlist.
    change ("-" +:+ pretty_N_go (N.pos p) "")
      with (String "-"%char (pretty_N_go (N.pos p) "")).
    unfold py_int. rewrite strip_id.
    + cbv beta iota.
      rewrite (digits_value_pretty_N_go (N.pos p) "" false) by done. done.
    + cbn [list_ascii_of_string]. rewrite Hlist. constructor; [done|].
      eapply Forall_impl; [exact Hd|]. intros c. apply is_digit_not_space.
Qed.

(** The last character of [str(n)] is a digit. *)
Lemma last_char_str_int (n : Z) :
  ∃ c, last_char (str_int n) = Some c ∧ is_digit c = true.
Proof.
  assert (∀ x, (0 < x)%N →
            ∃ c, last_char (pretty_N_go x "") = Some c ∧ is_digit c = true) as Hpos.
  { intros x Hx. destruct (pretty_N_go_digits x "" Hx) as (d & Hne & Hd & Hlist).
    rewrite app_nil_r in Hlist. unfold last_char. rewrite Hlist.
    destruct (last d) as [c|] eqn:Hlast.
    - exists c. split; [done|]. apply last_Some in Hlast as [d' ->].
      by apply Forall_app in Hd as [_ [? _]%Forall_cons].
    - by apply last_None in Hlast. }
  unfold str_int, pretty, pretty_Z. destruct n as [|p|p].
  - by exists "0"%char.
  - unfold pretty, pretty_positive, pretty, pretty_N.
    destruct (decide (N.pos p = 0%N)) as [?|_]; [done|]. by apply Hpos.
  - unfold pretty, pretty_positive, pretty, pretty_N.
    destruct (decide (N.pos p = 0%N)) as [?|_]; [done|].
    destruct (Hpos (N.pos p)) as (c & Hc & Hd); [done|]. exists c. split; [|done].
    change ("-" +:+ pretty_N_go (N.pos p) "")
      with (String "-"%char (pretty_N_go (N.pos p) "")).
    unfold last_char in *. cbn [list_ascii_of_string].
    destruct (list_ascii_of_string (pretty_N_go (N.pos p) "")); [done|].
    by rewrite last_cons, Hc.
Qed.

Lemma elem_of_lstrip (s : string) (c : ascii) :
  is_space c = false →
  c ∈ list_ascii_of_string s → c ∈ list_ascii_of_string (lstrip s).
Proof.
  intros Hc. induction s as [|a s IH]; cbn [lstrip list_ascii_of_string]; [done|].
  intros Hin. destruct (is_space a) eqn:Ha; [|done].
  apply elem_of_cons in Hin as [->|Hin]; [congruence|by apply IH].
Qed.

Lemma elem_of_rev {A : Type} (l : list A) (x : A) : x ∈ rev l ↔ x ∈ l.
Proof. rewrite !list_elem_of_In. symmetry. apply in_rev. Qed.

Lemma elem_of_strip (s : string) (c : ascii) :
  is_space c = false →
  c ∈ list_ascii_of_string s → c ∈ list_ascii_of_string (strip s).
Proof.
  intros Hc Hin. unfold strip, string_rev at 1.
  rewrite list_ascii_of_string_of_list_ascii. apply elem_of_rev.
  apply elem_of_lstrip; [done|]. unfold string_rev.
  rewrite list_ascii_of_string_of_list_ascii. apply elem_of_rev.
  by apply elem_of_lstrip.
Qed.

(** A literal with a letter has no value. *)
Lemma digits_value_alpha (acc : Z) (b : bool) (s : string) (c : ascii) :
  isalpha c = true → c ∈ list_ascii_of_string s → digits_value acc b s = None.
Proof.
  intros Hc. revert acc b.
  induction s as [|a s IH]; intros acc b; cbn [list_ascii_of_string digits_value].
  { intros Hin. by apply elem_of_nil in Hin. }
  intros Hin. destruct (is_digit a) eqn:Hd.
  - apply IH. apply elem_of_cons in Hin as [->|Hin]; [|done].
    apply is_digit_not_alpha in Hd. congruence.
  - destruct (Ascii.eqb a "_"%char && b) eqn:Hu; [|done].
    apply IH. apply elem_of_cons in Hin as [->|Hin]; [|done].
    apply andb_true_iff in Hu as [->%Ascii.eqb_eq _]. done.
Qed.

(** [int] takes a sign from the stripped literal and reads the rest. *)
Lemma py_int_cases (s : string) :
  ∃ r,
    (strip s = r ∨ strip s = String "+"%char r ∨ strip s = String "-"%char r)
    ∧ (py_int s = from_option (ValueError "invalid literal for int() with base 10")
                              (digits_value 0 false r)
       ∨ py_int s = from_option (ValueError "invalid literal for int() with base 10")
                                (Z.opp <$> digits_value 0 false r)).
Proof.
  unfold py_int. destruct (strip s) as [|a r].
  { exists "". split; [by left|by left]. }
  destruct a as [[] [] [] [] [] [] [] []];
    first [ exists r; split; [right; left; reflexivity|left; reflexivity]
          | exists r; split; [right; right; reflexivity|right; reflexivity]
          | eexists; split; [left; reflexivity|left; reflexivity] ].
Qed.

Lemma py_int_alpha (s : string) (c : ascii) :
  isalpha c = true → c ∈ list_ascii_of_string s →
  py_int s = Raise (ValueError "invalid literal for int() with base 10").
Proof.
  intros Hc Hin.
  apply (elem_of_strip s c (isalpha_not_space c Hc)) in Hin.
  destruct (py_int_cases s) as (r & Hr & Hint).
  assert (c ∈ list_ascii_of_string r) as Hin'.
  { destruct Hr as [<-|[Hr|Hr]]; [done|..]; rewrite Hr in Hin;
      cbn [list_ascii_of_string] in Hin;
      (apply elem_of_cons in Hin as [->|Hin]; [done|done]). }
  by destruct Hint as [->| ->]; rewrite (digits_value_alpha 0 false r c Hc Hin').
Qed.

Lemma py_int_empty :
  py_int "" = Raise (ValueError "invalid literal for int() with base 10").
Proof. done. Qed.

Lemma string_append_assoc (a b c : string) :
  ((a ++ b) ++ c)%string = (a ++ (b ++ c))%string.
Proof.
  induction a as [|x a IH]; [done|].
  change (String x ((a ++ b) ++ c)%string = String x (a ++ (b ++ c))%string).
  by rewrite IH.
Qed.

Section InsertionCodes.
Import PssmTools.

(** X6 — the [pdbresi] field is read back from what the atomic query
    prints as the residue id: for a query without insertion code, or with
    an insertion code of one letter, the split of [parse_pssm] applied to
    [residue_id] gives the residue number and the insertion code of the
    query. *)
Theorem residue_number_of_residue_id (q : AtomicQuery.Query) :
  AtomicQuery._insertion_code q = None
  ∨ (∃ c, isalpha c = true
          ∧ AtomicQuery._insertion_code q = Some (String c EmptyString)) →
  residue_number_of (AtomicQuery.residue_id q)
  = Ok (AtomicQuery._residue_number q, AtomicQuery._insertion_code q).
Proof.
  unfold AtomicQuery.residue_id, residue_number_of.
  intros [Hnone|(c & Hc & Hsome)].
  - rewrite Hnone.
    destruct (last_char_str_int (AtomicQuery._residue_number q)) as (d & -> & Hd).
    rewrite (is_digit_not_alpha d Hd), py_int_str_int. done.
  - rewrite Hsome, last_char_snoc, Hc, but_last_snoc, py_int_str_int. done.
Qed.

(** X7 — a [pdbresi] field that ends with two letters, or is one letter
    without a number, is not read: the split raises ValueError, since only
    the last character is taken for the insertion code. *)
Theorem residue_number_of_rejects_two_letters (s : string) (c1 c2 : ascii) :
  isalpha c1 = true →
  isalpha c2 = true →
  (∃ msg, residue_number_of (s ++ String c1 (String c2 EmptyString))
          = Raise (ValueError msg))
  ∧ (∃ msg, residue_number_of (String c2 EmptyString) = Raise (ValueError msg)).
Proof.
  intros H1 H2. unfold residue_number_of. split.
  - replace (s ++ String c1 (String c2 EmptyString))%string
      with ((s ++ String c1 EmptyString) ++ String c2 EmptyString)%string.
    2: { apply string_append_assoc. }
    rewrite last_char_snoc, H2, but_last_snoc.
    rewrite (py_int_alpha _ c1 H1).
    + by eexists.
    + rewrite list_ascii_of_string_app. apply elem_of_app. right. left.
  - cbn [last_char list_ascii_of_string last]. rewrite H2. by eexists.
Qed.

End InsertionCodes.

(** ** Assignments repeated *)

Section SetAlgebra.
Context {K V : Type} `{PyKey K}.
Implicit Types (kvs : list (K * V)) (d : dict K V).

(** Writing the value that a key holds changes nothing. *)
Lemma set_get_id k v d : PyDict.get k d = Some v → PyDict.set k v d = d.
Proof.
  induction d as [|[k0 v0] d IH]; cbn [PyDict.get PyDict.set]; [done|].
  destruct (key_eqb k0 k); [by intros [= ->]|]. intros Hget. by rewrite IH.
Qed.

Lemma set_set_same k k' v v' d :
  key_eqb k' k = true → is_Some (PyDict.get k d) →
  PyDict.set k' v' (PyDict.set k v d) = PyDict.set k' v' d.
Proof.
  intros Hk. induction d as [|[k0 v0] d IH]; cbn [PyDict.get PyDict.set].
  { by intros [? ?]. }
  destruct (key_eqb k0 k) eqn:Hk0.
  - intros _. cbn [PyDict.set].
    assert (key_eqb k0 k' = true) as ->; [|done].
    apply (key_eqb_trans _ k); [done|]. by rewrite key_eqb_sym.
  - intros Hsome. cbn [PyDict.set].
    assert (key_eqb k0 k' = false) as ->.
    { destruct (key_eqb k0 k') eqn:Hk0'; [|done].
      by rewrite (key_eqb_trans _ _ _ Hk0' Hk) in Hk0. }
    by rewrite IH.
Qed.

Lemma set_set_comm k k' v v' d :
  key_eqb k k' = false → is_Some (PyDict.get k d) →
  PyDict.set k' v' (PyDict.set k v d) = PyDict.set k v (PyDict.set k' v' d).
Proof.
  intros Hk. induction d as [|[k0 v0] d IH]; cbn [PyDict.get PyDict.set].
  { by intros [? ?]. }
  destruct (key_eqb k0 k) eqn:Hk0.
  - intros _.
    assert (key_eqb k0 k' = false) as Hk0'.
    { destruct (key_eqb k0 k') eqn:Hk0'; [|done].
      rewrite (key_eqb_sym k0 k) in Hk0.
      by rewrite (key_eqb_trans _ _ _ Hk0 Hk0') in Hk. }
    cbn [PyDict.set]. rewrite Hk0'. cbn [PyDict.set]. by rewrite Hk0.
  - intros Hsome. cbn [PyDict.set].
    destruct (key_eqb k0 k') eqn:Hk0'; cbn [PyDict.set]; rewrite Hk0; [done|].
    by rewrite IH.
Qed.

Lemma fill_set_overwritten k v kvs d :
  is_Some (PyDict.get k d) → is_Some (last_write k kvs) →
  fill kvs (PyDict.set k v d) = fill kvs d.
Proof.
  revert d. induction kvs as [|kv kvs IH]; intros d Hd Hw.
  { by destruct Hw. }
  rewrite !fill_cons. cbn [last_write] in Hw.
  destruct (key_eqb kv.1 k) eqn:Hk.
  - by rewrite set_set_same.
  - rewrite set_set_comm; [|by rewrite key_eqb_sym|done].
    apply IH; [by apply set_keeps|].
    by destruct (last_write k kvs).
Qed.

(** A sequence of assignments made twice gives what it gives once. *)
Lemma fill_idem kvs d : fill kvs (fill kvs d) = fill kvs d.
Proof.
  revert d. induction kvs as [|kv kvs IH]; intros d; [done|].
  rewrite !fill_cons.
  destruct (last_write kv.1 kvs) as [kv'|] eqn:Hw.
  - rewrite fill_set_overwritten; [apply IH| |by rewrite Hw].
    apply fill_keeps. rewrite get_set_same. by eexists.
  - rewrite set_get_id; [apply IH|].
    rewrite get_fill, Hw. apply get_set_same.
Qed.

End SetAlgebra.

Lemma map_result_fixed {A : Type} (f : A → result A) (xs ys : list A) :
  (∀ x y, f x = Ok y → f y = Ok y) →
  map_result f xs = Ok ys → map_result f ys = Ok ys.
Proof.
  intros Hf. revert ys. induction xs as [|x xs IH]; intros ys; simpl.
  - by intros [= <-].
  - destruct (f x) as [y|] eqn:Hx; cbn [mbind result_bind]; [|done].
    destruct (map_result f xs) as [ys'|] eqn:Hxs; cbn [mbind result_bind]; [|done].
    intros [= <-]. simpl. rewrite (Hf x y Hx). cbn [mbind result_bind].
    by rewrite (IH ys').
Qed.

(** ** The order of the profile *)


Lemma string_ltb_trans_le (a b c : string) :
  String.ltb a b = true → String.ltb c b = false → String.ltb c a = false.
Proof.
  unfold String.ltb.
  change String.compare with OrdersEx.String_as_OT.compare.
  intros Hab Hcb.
  destruct (OrdersEx.String_as_OT.compare c a) eqn:Hca; try done.
  assert (OrdersEx.String_as_OT.lt c b) as Hlt.
  { transitivity a; [done|].
    unfold OrdersEx.String_as_OT.lt.
    by destruct (OrdersEx.String_as_OT.compare a b). }
  unfold OrdersEx.String_as_OT.lt in Hlt. by rewrite Hlt in Hcb.
Qed.

Lemma string_ltb_asym (a b : string) :
  String.ltb a b = true → String.ltb b a = false.
Proof.
  unfold String.ltb. rewrite (String.compare_antisym a b).
  by destruct (String.compare b a).
Qed.

Section Sorted.
Context {A : Type} (key : A → string).

(** The keys do not decrease from one element to a later one. *)
Definition ascending (l : list A) : Prop :=
  Sorted.StronglySorted (λ a b, String.ltb (key b) (key a) = false) l.

Lemma insert_sorted_perm (x : A) (l : list A) : insert_sorted key x l ≡ₚ x :: l.
Proof.
  induction l as [|y l IH]; cbn [insert_sorted]; [done|].
  destruct (String.ltb (key x) (key y)); [done|].
  rewrite IH. apply Permutation_swap.
Qed.

Lemma insert_sorted_ascending (x : A) (l : list A) :
  ascending l → ascending (insert_sorted key x l).
Proof.
  unfold ascending. induction 1 as [|y l Hl IH Hy]; cbn [insert_sorted].
  { constructor; [constructor|constructor]. }
  destruct (String.ltb (key x) (key y)) eqn:Hxy.
  - constructor; [by constructor|]. constructor.
    + by apply string_ltb_asym.
    + eapply Forall_impl; [exact Hy|]. intros z Hz. cbn beta in *.
      by apply (string_ltb_trans_le _ (key y)).
  - constructor; [done|].
    rewrite (insert_sorted_perm x l). by constructor.
Qed.

Lemma sorted_perm_acc (xs acc : list A) :
  fold_left (λ acc x, insert_sorted key x acc) xs acc ≡ₚ acc ++ xs.
Proof.
  revert acc. induction xs as [|x xs IH]; intros acc; cbn [fold_left].
  - by rewrite app_nil_r.
  - rewrite IH, insert_sorted_perm. apply Permutation_middle.
Qed.

Lemma sorted_perm (xs : list A) : sorted key xs ≡ₚ xs.
Proof. unfold sorted. by rewrite sorted_perm_acc. Qed.

Lemma sorted_ascending (xs : list A) : ascending (sorted key xs).
Proof.
  unfold sorted.
  assert (∀ acc, ascending acc →
            ascending (fold_left (λ acc x, insert_sorted key x acc) xs acc)) as Hacc.
  { induction xs as [|x xs IH]; intros acc Hacc; cbn [fold_left]; [done|].
    by apply IH, insert_sorted_ascending. }
  apply Hacc. constructor.
Qed.

End Sorted.

Lemma is_ok_map_result {A B : Type} (f : A → result B) (xs : list A) :
  is_ok (map_result f xs) = true ↔ Forall (λ x, is_ok (f x) = true) xs.
Proof.
  induction xs as [|x xs IH]; simpl.
  - split; [constructor|done].
  - destruct (f x) as [y|] eqn:Hx; cbn [mbind result_bind].
    + destruct (map_result f xs) as [ys|]; cbn [mbind result_bind].
      * split; [|done]. intros _. constructor; [by rewrite Hx|by apply IH].
      * split; [done|]. intros [_ Hxs]%Forall_cons. by apply IH in Hxs.
    + split; [done|]. intros [Hx' _]%Forall_cons. by rewrite Hx in Hx'.
Qed.

Lemma keys_set_prefix {K V : Type} `{PyKey K} (k : K) (v : V) (d : dict K V) :
  PyDict.keys d `prefix_of` PyDict.keys (PyDict.set k v d).
Proof.
  destruct (PyDict.get k d) as [v0|] eqn:Hget.
  - rewrite keys_set_present; [done|by eexists].
  - rewrite keys_set_absent by done. by apply prefix_app_r.
Qed.

Lemma keys_fill_prefix {K V : Type} `{PyKey K} (kvs : list (K * V)) (d : dict K V) :
  PyDict.keys d `prefix_of` PyDict.keys (fill kvs d).
Proof.
  revert d. induction kvs as [|kv kvs IH]; intros d; [done|].
  rewrite fill_cons. etransitivity; [apply keys_set_prefix|apply IH].
Qed.

(** ** The PSSM feature attachment: what is written *)

Section PssmFeatureWritten.
Import PssmFeature.

Context (amino_acids : list AminoAcid).
Context (get_pssm : Residue → result PssmRow).
Context (PSSM INFOCONTENT CONSERVATION DIFFCONSERVATION : string).

Local Abbreviation add_features_node' :=
  (add_features_node amino_acids get_pssm PSSM INFOCONTENT CONSERVATION
                     DIFFCONSERVATION).
Local Abbreviation add_features' :=
  (add_features amino_acids get_pssm PSSM INFOCONTENT CONSERVATION
                DIFFCONSERVATION).
Local Abbreviation added_names' :=
  (added_names PSSM INFOCONTENT CONSERVATION DIFFCONSERVATION).
Local Abbreviation profile_order := (profile_amino_acid_order amino_acids).

(** The assignments that the body of the loop makes on a node, in their
    order. *)
Definition assignments (variant : option SingleResidueVariant) (residue : Residue)
    (pssm_row : PssmRow) (profile : list float) : result (list (string * value)) :=
  let always := [(PSSM, VArray profile);
                 (INFOCONTENT, VFloat (information_content pssm_row))] in
  match variant with
  | None => Ok always
  | Some variant =>
      if residue_eqb residue (variant_residue variant) then
        conservation_wildtype ←
          get_conservation pssm_row (wildtype_amino_acid variant) ;
        conservation_variant ←
          get_conservation pssm_row (variant_amino_acid variant) ;
        Ok (always ++
            [(CONSERVATION, VFloat conservation_wildtype);
             (DIFFCONSERVATION,
              VFloat (conservation_variant - conservation_wildtype)%float)])
      else
        Ok (always ++ [(CONSERVATION, VFloat 0%float);
                       (DIFFCONSERVATION, VFloat 0%float)])
  end.

Lemma add_features_node_fill variant node :
  add_features_node' variant node
  = residue ← residue_of (GraphPy.node_id node) ;
    pssm_row ← get_pssm residue ;
    profile ← map_result (get_conservation pssm_row) profile_order ;
    kvs ← assignments variant residue pssm_row profile ;
    Ok {| GraphPy.node_id := GraphPy.node_id node;
          GraphPy.node_features := fill kvs (GraphPy.node_features node) |}.
Proof.
  unfold add_features_node, assignments.
  destruct (residue_of (GraphPy.node_id node)) as [residue|]; [|done].
  cbn [mbind result_bind].
  destruct (get_pssm residue) as [pssm_row|]; [|done]. cbn [mbind result_bind].
  destruct (map_result _ _) as [profile|]; [|done]. cbn [mbind result_bind].
  destruct variant as [v|]; [|done].
  destruct (residue_eqb residue (variant_residue v)); [|done].
  destruct (get_conservation pssm_row (wildtype_amino_acid v)); [|done].
  cbn [mbind result_bind].
  by destruct (get_conservation pssm_row (variant_amino_acid v)).
Qed.

Lemma add_features_node_inv variant node node' :
  add_features_node' variant node = Ok node' →
  ∃ residue pssm_row profile kvs,
    residue_of (GraphPy.node_id node) = Ok residue
    ∧ get_pssm residue = Ok pssm_row
    ∧ map_result (get_conservation pssm_row) profile_order = Ok profile
    ∧ assignments variant residue pssm_row profile = Ok kvs
    ∧ node' = {| GraphPy.node_id := GraphPy.node_id node;
                 GraphPy.node_features := fill kvs (GraphPy.node_features node) |}.
Proof.
  rewrite add_features_node_fill.
  destruct (residue_of (GraphPy.node_id node)) as [residue|] eqn:Hres; [|done].
  cbn [mbind result_bind].
  destruct (get_pssm residue) as [pssm_row|] eqn:Hrow; [|done].
  cbn [mbind result_bind].
  destruct (map_result _ _) as [profile|] eqn:Hprofile; [|done].
  cbn [mbind result_bind].
  destruct (assignments _ _ _ _) as [kvs|] eqn:Hkvs; [|done].
  cbn [mbind result_bind].
  intros [= <-]. by exists residue, pssm_row, profile, kvs.
Qed.

Lemma assignments_names variant residue pssm_row profile kvs :
  assignments variant residue pssm_row profile = Ok kvs →
  ∀ kv, kv ∈ kvs → kv.1 ∈ added_names' variant.
Proof.
  unfold assignments, added_names. destruct variant as [v|].
  - destruct (residue_eqb residue (variant_residue v)).
    + destruct (get_conservation pssm_row (wildtype_amino_acid v)); [|done].
      cbn [mbind result_bind].
      destruct (get_conservation pssm_row (variant_amino_acid v)); [|done].
      cbn [mbind result_bind]. intros [= <-] kv Hkv.
      repeat (apply elem_of_cons in Hkv as [->|Hkv]; [set_solver|]).
      by apply elem_of_nil in Hkv.
    + intros [= <-] kv Hkv.
      repeat (apply elem_of_cons in Hkv as [->|Hkv]; [set_solver|]).
      by apply elem_of_nil in Hkv.
  - intros [= <-] kv Hkv.
    repeat (apply elem_of_cons in Hkv as [->|Hkv]; [set_solver|]).
    by apply elem_of_nil in Hkv.
Qed.

Lemma add_features_node_again variant node node' :
  add_features_node' variant node = Ok node' →
  add_features_node' variant node' = Ok node'.
Proof.
  intros (residue & pssm_row & profile & kvs & Hres & Hrow & Hprofile & Hkvs & ->)
    %add_features_node_inv.
  rewrite add_features_node_fill. cbn [GraphPy.node_id GraphPy.node_features].
  rewrite Hres. cbn [mbind result_bind]. rewrite Hrow. cbn [mbind result_bind].
  rewrite Hprofile. cbn [mbind result_bind]. rewrite Hkvs. cbn [mbind result_bind].
  by rewrite fill_idem.
Qed.

Lemma add_features_nodes (pdb_path : string) (graph graph' : Graph) variant :
  add_features' pdb_path graph variant = Ok graph' →
  Forall2 (λ kn kn' : NodeId * Node,
             kn'.1 = kn.1 ∧ add_features_node' variant kn.2 = Ok kn'.2)
          (GraphPy._nodes graph) (GraphPy._nodes graph')
  ∧ GraphPy.graph_id graph' = GraphPy.graph_id graph
  ∧ GraphPy._hdf5_path graph' = GraphPy._hdf5_path graph
  ∧ GraphPy._edges graph' = GraphPy._edges graph.
Proof.
  unfold add_features.
  destruct (map_result _ (GraphPy._nodes graph)) as [nodes'|] eqn:Hmap;
    cbn [mbind result_bind]; [|done].
  intros [= <-]. cbn. split; [|done].
  apply map_result_Forall2 in Hmap. eapply Forall2_impl; [exact Hmap|].
  intros [k n] [k' n']. cbn [fst snd].
  destruct (add_features_node' variant n) as [n1|]; cbn [mbind result_bind]; [|done].
  by intros [= <- <-].
Qed.

Lemma Forall2_values {K V : Type} (R : V → V → Prop) (d d' : list (K * V)) :
  Forall2 (λ kv kv', R kv.2 kv'.2) d d' → Forall2 R (d.*2) (d'.*2).
Proof. induction 1; constructor; done. Qed.

(** X8 — the PSSM feature attachment made a second time changes nothing:
    on the graph that a first pass returns, a pass with the same variant
    returns that graph again. *)
Theorem add_features_idempotent
    (pdb_path : string) (graph graph' : Graph)
    (variant : option SingleResidueVariant) :
  add_features' pdb_path graph variant = Ok graph' →
  add_features' pdb_path graph' variant = Ok graph'.
Proof.
  unfold add_features.
  destruct (map_result _ (GraphPy._nodes graph)) as [nodes'|] eqn:Hmap;
    cbn [mbind result_bind]; [|done].
  intros [= <-]. cbn [GraphPy._nodes GraphPy.graph_id GraphPy._hdf5_path
                      GraphPy._edges].
  erewrite map_result_fixed; [done| |exact Hmap].
  intros [k n] [k' n']. cbn [fst snd].
  destruct (add_features_node' variant n) as [n1|] eqn:Hn;
    cbn [mbind result_bind]; [|done].
  intros [= <- <-]. by rewrite (add_features_node_again _ _ _ Hn).
Qed.

(** X9 — what the pass writes.  When the four feature names are different,
    every node of the returned graph carries under [PSSM] the conservation
    scores of the row of its residue, one for each amino acid in the order
    of [profile_amino_acid_order], and under [INFOCONTENT] the information
    content of that row; the node of the variant residue carries under
    [CONSERVATION] the score of the wildtype amino acid and under
    [DIFFCONSERVATION] the score of the variant amino acid minus that of
    the wildtype. *)
Theorem add_features_values
    (pdb_path : string) (graph graph' : Graph)
    (variant : option SingleResidueVariant) :
  NoDup [PSSM; INFOCONTENT; CONSERVATION; DIFFCONSERVATION] →
  add_features' pdb_path graph variant = Ok graph' →
  Forall2
    (λ n n',
       ∃ residue pssm_row profile,
         residue_of (GraphPy.node_id n) = Ok residue
         ∧ get_pssm residue = Ok pssm_row
         ∧ Forall2 (λ amino_acid score,
                      PyDict.get amino_acid (conservations pssm_row) = Some score)
                   profile_order profile
         ∧ length profile = length amino_acids
         ∧ PyDict.get PSSM (GraphPy.node_features n') = Some (VArray profile)
         ∧ PyDict.get INFOCONTENT (GraphPy.node_features n')
           = Some (VFloat (information_content pssm_row))
         ∧ (∀ v, variant = Some v →
              residue_eqb residue (variant_residue v) = true →
              ∃ conservation_wildtype conservation_variant,
                PyDict.get (wildtype_amino_acid v) (conservations pssm_row)
                = Some conservation_wildtype
                ∧ PyDict.get (variant_amino_acid v) (conservations pssm_row)
                  = Some conservation_variant
                ∧ PyDict.get CONSERVATION (GraphPy.node_features n')
                  = Some (VFloat conservation_wildtype)
                ∧ PyDict.get DIFFCONSERVATION (GraphPy.node_features n')
                  = Some (VFloat (conservation_variant
                                  - conservation_wildtype)%float)))
    (GraphPy.nodes graph) (GraphPy.nodes graph').
Proof.
  intros Hnames Hadd.
  apply NoDup_cons in Hnames as [H1 Hnames].
  apply NoDup_cons in Hnames as [H2 Hnames].
  apply NoDup_cons in Hnames as [H3 _].
  assert (String.eqb INFOCONTENT PSSM = false ∧ String.eqb CONSERVATION PSSM = false
          ∧ String.eqb DIFFCONSERVATION PSSM = false
          ∧ String.eqb CONSERVATION INFOCONTENT = false
          ∧ String.eqb DIFFCONSERVATION INFOCONTENT = false
          ∧ String.eqb DIFFCONSERVATION CONSERVATION = false)
    as (HIP & HCP & HDP & HCI & HDI & HDC).
  { repeat split; apply String.eqb_neq; intros Heq;
      first [apply H1|apply H2|apply H3]; rewrite <- ?Heq, ?Heq; set_solver. }
  destruct (add_features_nodes _ _ _ _ Hadd) as [Hnodes _].
  apply Forall2_values. eapply Forall2_impl; [exact Hnodes|].
  intros [k n] [k' n']. cbn [fst snd]. intros [_ Hn].
  apply add_features_node_inv in Hn
    as (residue & pssm_row & profile & kvs & Hres & Hrow & Hprofile & Hkvs & ->).
  exists residue, pssm_row, profile. cbn [GraphPy.node_features].
  split; [done|]. split; [done|].
  apply map_result_Forall2 in Hprofile.
  assert (Forall2 (λ amino_acid score,
                     PyDict.get amino_acid (conservations pssm_row) = Some score)
                  profile_order profile) as Hscores.
  { eapply Forall2_impl; [exact Hprofile|]. intros a x. unfold get_conservation.
    destruct (PyDict.get a (conservations pssm_row)); [|done]. by intros [= ->]. }
  split; [done|]. split.
  { rewrite <- (Forall2_length _ _ _ Hscores).
    unfold profile_amino_acid_order. by rewrite (sorted_perm one_letter_code). }
  unfold assignments in Hkvs. destruct variant as [v|].
  - destruct (residue_eqb residue (variant_residue v)) eqn:Hv.
    + unfold get_conservation in Hkvs.
      destruct (PyDict.get (wildtype_amino_acid v) (conservations pssm_row))
        as [cw|] eqn:Hcw; cbn [from_option mbind result_bind] in Hkvs; [|done].
      destruct (PyDict.get (variant_amino_acid v) (conservations pssm_row))
        as [cv|] eqn:Hcv; cbn [from_option mbind result_bind] in Hkvs; [|done].
      injection Hkvs as <-. rewrite !get_fill.
      cbn [app last_write fst snd]. change key_eqb with String.eqb.
      rewrite HIP, HCP, HDP, HCI, HDI, HDC, !String.eqb_refl.
      split; [done|]. split; [done|]. intros v' [= <-] _. by exists cw, cv.
    + injection Hkvs as <-. rewrite !get_fill.
      cbn [app last_write fst snd]. change key_eqb with String.eqb.
      rewrite HIP, HCP, HDP, HCI, HDI, !String.eqb_refl.
      split; [done|]. split; [done|]. intros v' [= <-] Hv'. congruence.
  - injection Hkvs as <-. rewrite !get_fill.
    cbn [app last_write fst snd]. change key_eqb with String.eqb.
    rewrite HIP, !String.eqb_refl. split; [done|]. split; [done|]. done.
Qed.

(** X10 — what the pass leaves alone.  The graph keeps its id, its path
    and its edges, and its nodes keep their keys, their order and their
    ids; on every node the features under other names than the names of
    the pass keep their values, and the names the node had keep their
    places in the order of its features. *)
Theorem add_features_keeps_the_rest
    (pdb_path : string) (graph graph' : Graph)
    (variant : option SingleResidueVariant) :
  add_features' pdb_path graph variant = Ok graph' →
  GraphPy.graph_id graph' = GraphPy.graph_id graph
  ∧ GraphPy._hdf5_path graph' = GraphPy._hdf5_path graph
  ∧ GraphPy._edges graph' = GraphPy._edges graph
  ∧ PyDict.keys (GraphPy._nodes graph') = PyDict.keys (GraphPy._nodes graph)
  ∧ Forall2
      (λ n n',
         GraphPy.node_id n' = GraphPy.node_id n
         ∧ (∀ name, name ∉ added_names' variant →
              PyDict.get name (GraphPy.node_features n')
              = PyDict.get name (GraphPy.node_features n))
         ∧ PyDict.keys (GraphPy.node_features n)
             `prefix_of` PyDict.keys (GraphPy.node_features n'))
      (GraphPy.nodes graph) (GraphPy.nodes graph').
Proof.
  intros Hadd.
  destruct (add_features_nodes _ _ _ _ Hadd) as (Hnodes & Hid & Hpath & Hedges).
  split; [done|]. split; [done|]. split; [done|]. split.
  - unfold PyDict.keys. clear -Hnodes.
    induction Hnodes as [|kn kn' l l' [Hk _] _ IH]; [done|].
    rewrite !fmap_cons. by rewrite Hk, IH.
  - apply Forall2_values. eapply Forall2_impl; [exact Hnodes|].
    intros [k n] [k' n']. cbn [fst snd]. intros [_ Hn].
    apply add_features_node_inv in Hn
      as (residue & pssm_row & profile & kvs & Hres & Hrow & Hprofile & Hkvs & ->).
    cbn [GraphPy.node_id GraphPy.node_features]. split; [done|]. split.
    + intros name Hname. rewrite get_fill.
      rewrite (proj2 (last_write_None name kvs)); [done|].
      intros kv Hkv. apply String.eqb_neq. intros <-. apply Hname.
      by apply (assignments_names _ _ _ _ _ Hkvs).
    + apply keys_fill_prefix.
Qed.

(** A node that the pass can annotate: it wraps a residue or an atom, the
    residue has a row, the row scores every amino acid, and on the node of
    the variant residue also the wildtype and the variant amino acid. *)
Definition annotatable (variant : option SingleResidueVariant) (node : Node) : Prop :=
  ∃ residue pssm_row,
    residue_of (GraphPy.node_id node) = Ok residue
    ∧ get_pssm residue = Ok pssm_row
    ∧ (∀ amino_acid, amino_acid ∈ amino_acids →
         is_Some (PyDict.get amino_acid (conservations pssm_row)))
    ∧ (∀ v, variant = Some v →
         residue_eqb residue (variant_residue v) = true →
         is_Some (PyDict.get (wildtype_amino_acid v) (conservations pssm_row))
         ∧ is_Some (PyDict.get (variant_amino_acid v) (conservations pssm_row))).

Lemma is_ok_get_conservation row a :
  is_ok (get_conservation row a) = true ↔ is_Some (PyDict.get a (conservations row)).
Proof.
  unfold get_conservation. destruct (PyDict.get a (conservations row)); cbn.
  - split; [by eexists|done].
  - split; [done|]. by intros [? ?].
Qed.

Lemma add_features_node_ok variant node :
  is_ok (add_features_node' variant node) = true ↔ annotatable variant node.
Proof.
  unfold add_features_node, annotatable.
  destruct (residue_of (GraphPy.node_id node)) as [residue|] eqn:Hres;
    cbn [mbind result_bind].
  2: { split; [done|]. by intros (? & ? & ? & _). }
  destruct (get_pssm residue) as [pssm_row|] eqn:Hrow; cbn [mbind result_bind].
  2: { split; [done|]. intros (r & row & [= <-] & Hrow' & _). congruence. }
  assert (is_ok (map_result (get_conservation pssm_row) profile_order) = true
          ↔ ∀ a, a ∈ amino_acids →
                 is_Some (PyDict.get a (conservations pssm_row))) as Hall.
  { rewrite is_ok_map_result, Forall_forall. unfold profile_amino_acid_order.
    split; intros Hall a Ha.
    - apply is_ok_get_conservation, Hall. by rewrite (sorted_perm one_letter_code).
    - apply is_ok_get_conservation, Hall.
      by rewrite (sorted_perm one_letter_code) in Ha. }
  destruct (map_result _ _) as [profile|]; cbn [mbind result_bind].
  2: { split; [done|]. intros (r & row & [= <-] & Hrow' & Hscores & _).
       assert (row = pssm_row) as -> by congruence. by apply Hall in Hscores. }
  destruct variant as [v|].
  - destruct (residue_eqb residue (variant_residue v)) eqn:Hv.
    + split.
      * intros Hok. exists residue, pssm_row. split; [done|]. split; [done|].
        split; [by apply Hall|]. intros v' [= <-] _.
        rewrite <- !is_ok_get_conservation.
        destruct (get_conservation pssm_row (wildtype_amino_acid v));
          cbn [mbind result_bind] in Hok; [|done].
        by destruct (get_conservation pssm_row (variant_amino_acid v)).
      * intros (r & row & [= <-] & Hrow' & _ & Hvar).
        assert (row = pssm_row) as -> by congruence.
        destruct (Hvar v eq_refl Hv) as [Hcw%is_ok_get_conservation
                                         Hcv%is_ok_get_conservation].
        destruct (get_conservation pssm_row (wildtype_amino_acid v)); [|done].
        cbn [mbind result_bind].
        by destruct (get_conservation pssm_row (variant_amino_acid v)).
    + split; [|done]. intros _. exists residue, pssm_row.
      split; [done|]. split; [done|]. split; [by apply Hall|].
      intros v' [= <-] Hv'. congruence.
  - split; [|done]. intros _. exists residue, pssm_row.
    split; [done|]. split; [done|]. split; [by apply Hall|]. done.
Qed.

(** X11 — when the pass returns.  [add_features] returns a graph exactly
    when every node can be annotated: it wraps a residue or an atom whose
    residue has a row that scores every amino acid (and, for the variant
    residue, the wildtype and the variant amino acid).  A node that wraps
    anything else, or a residue without a row, makes the whole pass
    raise. *)
Theorem add_features_returns_iff
    (pdb_path : string) (graph : Graph) (variant : option SingleResidueVariant) :
  (is_ok (add_features' pdb_path graph variant) = true
   ↔ ∀ n, n ∈ GraphPy.nodes graph → annotatable variant n)
  ∧ (∀ n type_name,
       n ∈ GraphPy.nodes graph → GraphPy.node_id n = IdOther type_name →
       is_ok (add_features' pdb_path graph variant) = false)
  ∧ (∀ n residue e,
       n ∈ GraphPy.nodes graph →
       residue_of (GraphPy.node_id n) = Ok residue → get_pssm residue = Raise e →
       is_ok (add_features' pdb_path graph variant) = false).
Proof.
  assert (is_ok (add_features' pdb_path graph variant) = true
          ↔ ∀ n, n ∈ GraphPy.nodes graph → annotatable variant n) as Hiff.
  { unfold add_features.
    transitivity
      (is_ok (map_result
                (λ kn : NodeId * Node,
                   node ← add_features_node' variant kn.2 ; Ok (kn.1, node))
                (GraphPy._nodes graph)) = true).
    { by destruct (map_result _ (GraphPy._nodes graph)). }
    rewrite is_ok_map_result, Forall_forall. unfold GraphPy.nodes, PyDict.values.
    split.
    - intros Hall n ([k n0] & -> & Hin)%list_elem_of_fmap.
      apply add_features_node_ok. specialize (Hall _ Hin). cbn [snd] in *.
      by destruct (add_features_node' variant n0).
    - intros Hall [k n] Hin. cbn [fst snd].
      assert (annotatable variant n) as Hn.
      { apply Hall. apply list_elem_of_fmap. by exists (k, n). }
      apply add_features_node_ok in Hn.
      by destruct (add_features_node' variant n). }
  split; [done|]. split.
  - intros n type_name Hn Hid.
    destruct (is_ok (add_features' pdb_path graph variant)) eqn:Hok; [|done].
    destruct (proj1 Hiff eq_refl n Hn) as (r & row & Hres & _).
    rewrite Hid in Hres. done.
  - intros n residue e Hn Hres Hrow.
    destruct (is_ok (add_features' pdb_path graph variant)) eqn:Hok; [|done].
    destruct (proj1 Hiff eq_refl n Hn) as (r & row & Hres' & Hrow' & _).
    congruence.
Qed.

(** X12 — the order of the profile: [profile_amino_acid_order] lists the
    amino acids of [amino_acids], each as often as it stands there, with
    one letter codes that never decrease from an amino acid to a later
    one. *)
Theorem profile_amino_acid_order_sorted :
  profile_order ≡ₚ amino_acids
  ∧ Sorted.StronglySorted
      (λ a b, String.ltb (one_letter_code b) (one_letter_code a) = false)
      profile_order.
Proof.
  split; [apply sorted_perm|apply (sorted_ascending one_letter_code)].
Qed.

End PssmFeatureWritten.

(** ** The nodes of the graph container *)

Section GraphNodes.
Context {E : Type} `{Entity E} {P : Type}.
Import GraphPy.
Implicit Types (g : Graph E P) (n : Node E).

Lemma get_node_get g (k : E) :
  get_node g k
  = match PyDict.get k (_nodes g) with
    | Some n => Ok n
    | None => Raise (KeyError "")
    end.
Proof. unfold get_node. cbn. by destruct (PyDict.get k (_nodes g)). Qed.

Lemma reachable_node_keys g (k : E) n :
  reachable g → (k, n) ∈ _nodes g → key_eqb k (node_id n) = true.
Proof.
  intros (Hkeys & _)%reachable_keyed Hin.
  by apply (proj1 (Forall_forall _ _) Hkeys (k, n)).
Qed.

(** X13 — [get_node] returns the node that was added last under an equal
    id: the node just added is found under its id, the lookup of another
    id is not changed by the addition, a node that is found has the id
    that was asked for, and an id under which no node was added raises
    KeyError. *)
Theorem get_node_finds_the_node_added g :
  reachable g →
  (∀ n, get_node (add_node g n) (node_id n) = Ok n)
  ∧ (∀ n k, key_eqb (node_id n) k = false →
            get_node (add_node g n) k = get_node g k)
  ∧ (∀ k n, get_node g k = Ok n → key_eqb (node_id n) k = true ∧ n ∈ nodes g)
  ∧ (∀ k, (∀ n, n ∈ nodes g → key_eqb (node_id n) k = false) →
          ∃ key, get_node g k = Raise (KeyError key)).
Proof.
  intros Hg. split; [|split; [|split]].
  - intros n. rewrite get_node_get. cbn [add_node _nodes]. by rewrite get_set_same.
  - intros n k Hk. rewrite !get_node_get. cbn [add_node _nodes].
    by rewrite get_set_ne.
  - intros k n. rewrite get_node_get.
    destruct (PyDict.get k (_nodes g)) as [n'|] eqn:Hget; [|done].
    intros [= ->]. apply get_Some_elem in Hget as (k0 & Hin & Hk0).
    pose proof (reachable_node_keys g k0 n Hg Hin) as Hid. split.
    + apply (key_eqb_trans _ k0); [by rewrite key_eqb_sym|done].
    + unfold nodes, PyDict.values. apply list_elem_of_fmap. by exists (k0, n).
  - intros k Hnone. rewrite get_node_get.
    destruct (PyDict.get k (_nodes g)) as [n|] eqn:Hget; [|by eexists].
    apply get_Some_elem in Hget as (k0 & Hin & Hk0).
    pose proof (reachable_node_keys g k0 n Hg Hin) as Hid.
    assert (key_eqb (node_id n) k = false) as Hno.
    { apply Hnone. unfold nodes, PyDict.values. apply list_elem_of_fmap.
      by exists (k0, n). }
    rewrite (key_eqb_trans (node_id n) k0 k) in Hno; [done| |done].
    by rewrite key_eqb_sym.
Qed.

(** X14 — a graph holds one node for an id.  No two nodes of a graph have
    equal ids; [add_node] with a node whose id is present puts the node in
    the place of the node with that id, so that the number of nodes stays
    and the features of the former node are gone, and with a new id it
    puts the node after the others.  The edges are not touched. *)
Theorem add_node_replaces_the_node_of_its_id g n :
  reachable g →
  (∀ i j n1 n2,
     nodes g !! i = Some n1 → nodes g !! j = Some n2 →
     key_eqb (node_id n1) (node_id n2) = true → i = j)
  ∧ (∀ i n0,
       nodes g !! i = Some n0 → key_eqb (node_id n0) (node_id n) = true →
       nodes (add_node g n) = <[i := n]> (nodes g))
  ∧ ((∀ n0, n0 ∈ nodes g → key_eqb (node_id n0) (node_id n) = false) →
     nodes (add_node g n) = nodes g ++ [n])
  ∧ edges (add_node g n) = edges g.
Proof.
  intros Hg. pose proof (reachable_keyed g Hg) as (Hkeys & _ & Hwf & _).
  assert (∀ i n0, nodes g !! i = Some n0 →
            ∃ k0, _nodes g !! i = Some (k0, n0)
                  ∧ key_eqb k0 (node_id n0) = true) as Hentry.
  { intros i n0 Hi. unfold nodes, PyDict.values in Hi.
    apply list_lookup_fmap_Some in Hi as ([k0 n0'] & -> & Hi).
    exists k0. split; [done|].
    apply (reachable_node_keys g k0 n0' Hg). by eapply list_elem_of_lookup_2. }
  split; [|split; [|split]].
  - intros i j n1 n2 Hi Hj Heq.
    destruct (Hentry i n1 Hi) as (k1 & Hi' & Hk1).
    destruct (Hentry j n2 Hj) as (k2 & Hj' & Hk2).
    apply (wf_lookup_unique (_nodes g) i j k1 n1 k2 n2 Hwf Hi' Hj').
    apply (key_eqb_trans _ (node_id n1)); [done|].
    apply (key_eqb_trans _ (node_id n2)); [done|]. by rewrite key_eqb_sym.
  - intros i n0 Hi Heq. destruct (Hentry i n0 Hi) as (k0 & Hi' & Hk0).
    assert (key_eqb k0 (node_id n) = true) as Hk by by eapply key_eqb_trans.
    unfold nodes, PyDict.values. cbn [add_node _nodes].
    clear Hentry Hkeys Hi. revert i Hi'.
    induction (_nodes g) as [|[k1 n1] d IH]; intros i Hi'; [done|].
    cbn [PyDict.set]. destruct i as [|i].
    + injection Hi' as -> ->. by rewrite Hk.
    + cbn [lookup] in Hi'. destruct Hwf as [Hfresh Hwf].
      assert (key_eqb k1 (node_id n) = false) as ->.
      { destruct (key_eqb k1 (node_id n)) eqn:Hk1; [|done].
        assert (PyDict.get k1 d = Some n0) as Hget; [|by rewrite Hget in Hfresh].
        rewrite (get_proper k1 k0 d).
        - apply elem_get; [done|]. by eapply list_elem_of_lookup_2.
        - apply (key_eqb_trans _ (node_id n)); [done|]. by rewrite key_eqb_sym. }
      rewrite !fmap_cons. cbn [snd].
      change (<[S i:=n]> (n1 :: d.*2)) with (n1 :: <[i:=n]> d.*2).
      f_equal. by apply IH.
  - intros Hnone. unfold nodes, PyDict.values. cbn [add_node _nodes].
    rewrite set_absent; [by rewrite fmap_app|].
    destruct (PyDict.get (node_id n) (_nodes g)) as [n0|] eqn:Hget; [|done].
    apply get_Some_elem in Hget as (k0 & Hin & Hk0).
    pose proof (reachable_node_keys g k0 n0 Hg Hin) as Hid.
    assert (key_eqb (node_id n0) (node_id n) = false) as Hno.
    { apply Hnone. unfold nodes, PyDict.values. apply list_elem_of_fmap.
      by exists (k0, n0). }
    rewrite (key_eqb_trans (node_id n0) k0 (node_id n)) in Hno; [done| |done].
    by rewrite key_eqb_sym.
  - done.
Qed.

End GraphNodes.

Lemma option_string_eqb_eq (a b : option string) :
  option_string_eqb a b = true ↔ a = b.
Proof.
  destruct a as [x|], b as [y|]; cbn; try done.
  rewrite String.eqb_eq. split; [by intros ->|by intros [= ->]].
Qed.

(** ** The atomic query: loading *)

Section AtomicLoading.
Import AtomicQuery.

Context (get_structure : string → string → result Structure).
Context (open_text : string → result (list string)).
Context (py_float : string → result float) (amino_acids : list AminoAcid).
Context (get_surrounding_residues : Structure → Residue → float → list Residue).
Context (str_atom : Atom → string).
Context (FEATURENAME_EDGETYPE FEATURENAME_EDGEDISTANCE FEATURENAME_POSITION : string).

Local Abbreviation read_pssm' := (read_pssm open_text py_float amino_acids).
Local Abbreviation query_atoms' :=
  (query_atoms get_structure open_text py_float amino_acids get_surrounding_residues).
Local Abbreviation graph_of_atoms' :=
  (graph_of_atoms str_atom FEATURENAME_EDGETYPE FEATURENAME_EDGEDISTANCE
                  FEATURENAME_POSITION).
Local Abbreviation neighbour_step' :=
  (neighbour_step str_atom FEATURENAME_EDGETYPE FEATURENAME_EDGEDISTANCE).
Local Abbreviation build_graph' :=
  (build_graph get_structure open_text py_float amino_acids
               get_surrounding_residues str_atom FEATURENAME_EDGETYPE
               FEATURENAME_EDGEDISTANCE FEATURENAME_POSITION).

(** A residue with the number and the insertion code of the query. *)
Definition is_variant_residue (q : Query) (r : Residue) : Prop :=
  res_number r = _residue_number q ∧ res_insertion_code r = _insertion_code q.

Lemma filter_variant_residues q (residues : list Residue) :
  (Forall (λ r, ¬ is_variant_residue q r) residues →
   filter (λ r, Z.eqb (res_number r) (_residue_number q)
                && option_string_eqb (res_insertion_code r) (_insertion_code q)
                = true) residues = [])
  ∧ (∀ before r after,
       residues = before ++ r :: after →
       Forall (λ r, ¬ is_variant_residue q r) before →
       is_variant_residue q r →
       ∃ rest,
         filter (λ r, Z.eqb (res_number r) (_residue_number q)
                      && option_string_eqb (res_insertion_code r)
                                           (_insertion_code q)
                      = true) residues = r :: rest).
Proof.
  assert (∀ r, (Z.eqb (res_number r) (_residue_number q)
                && option_string_eqb (res_insertion_code r) (_insertion_code q)
                = true) ↔ is_variant_residue q r) as Htest.
  { intros r. unfold is_variant_residue.
    by rewrite andb_true_iff, Z.eqb_eq, option_string_eqb_eq. }
  assert (∀ l, Forall (λ r, ¬ is_variant_residue q r) l →
            filter (λ r, Z.eqb (res_number r) (_residue_number q)
                         && option_string_eqb (res_insertion_code r)
                                              (_insertion_code q)
                         = true) l = []) as Hnone.
  { induction 1 as [|r l Hr _ IH]; [done|].
    rewrite filter_cons_False; [done|]. by rewrite Htest. }
  split; [apply Hnone|].
  intros before r after -> Hbefore Hr.
  rewrite filter_app, (Hnone before Hbefore).
  rewrite filter_cons_True by by rewrite Htest. by eexists.
Qed.

(** X15 — how the variant residue is found.  When the structure is read,
    the PSSM files (if any) are read and the chain of the query is found,
    [build_graph] raises ValueError with the message
    [Residue <chain>:<residue id> not found in <path>] if no residue of
    the chain has the number and the insertion code of the query;
    otherwise the atoms of the graph are those of the residues around the
    first residue of the chain that has them. *)
Theorem atomic_query_variant_residue
    (q : Query) (structure : Structure) (chain : ChainData) :
  get_structure (_pdb_path q) (model_id q) = Ok structure →
  is_ok (read_pssm' q structure) = true →
  get_chain structure (_chain_id q) = Ok chain →
  (Forall (λ r, ¬ is_variant_residue q r) (cd_residues chain) →
   build_graph' q
   = Raise (ValueError ("Residue " ++ _chain_id q ++ ":" ++ residue_id q
                        ++ " not found in " ++ _pdb_path q)))
  ∧ (∀ before r after,
       cd_residues chain = before ++ r :: after →
       Forall (λ r, ¬ is_variant_residue q r) before →
       is_variant_residue q r →
       query_atoms' q
       = Ok (flat_map residue_atoms
               (get_surrounding_residues structure r (_radius q)))).
Proof.
  intros Hstructure Hpssm Hchain.
  destruct (filter_variant_residues q (cd_residues chain)) as [Hnone Hfirst].
  split.
  - intros Hno. unfold build_graph, query_atoms. rewrite Hstructure.
    cbn [mbind result_bind].
    destruct (read_pssm' q structure); [|done]. cbn [mbind result_bind].
    rewrite Hchain. cbn [mbind result_bind]. by rewrite (Hnone Hno).
  - intros before r after Hsplit Hbefore Hr. unfold query_atoms.
    rewrite Hstructure. cbn [mbind result_bind].
    destruct (read_pssm' q structure); [|done]. cbn [mbind result_bind].
    rewrite Hchain. cbn [mbind result_bind].
    by destruct (Hfirst before r after Hsplit Hbefore Hr) as [rest ->].
Qed.

Lemma graph_of_atoms_without_pssm q (atoms : list Atom) :
  graph_of_atoms' (without_pssm q) atoms = graph_of_atoms' q atoms.
Proof. reflexivity. Qed.

(** X16 — the PSSM files do not change the outcome: the tables are
    attached to the chains and the rest of [build_graph] does not read
    them.  When the structure is read and the PSSM files are read without
    error, [build_graph] ends as it does for the query made without PSSM
    paths, with the same graph or with the same exception; the two queries
    have the same query id. *)
Theorem atomic_query_graph_without_pssm (q : Query) (structure : Structure) :
  get_structure (_pdb_path q) (model_id q) = Ok structure →
  is_ok (read_pssm' q structure) = true →
  build_graph' (without_pssm q) = build_graph' q
  ∧ get_query_id (without_pssm q) = get_query_id q.
Proof.
  intros Hstructure Hpssm. split; [|done]. unfold build_graph, query_atoms.
  change (model_id (without_pssm q)) with (model_id q).
  change (_pdb_path (without_pssm q)) with (_pdb_path q).
  rewrite Hstructure. cbn [mbind result_bind].
  destruct (read_pssm' q structure) as [[]|]; [|done].
  change (read_pssm' (without_pssm q) structure) with (Ok () : result unit).
  cbn [mbind result_bind].
  change (_chain_id (without_pssm q)) with (_chain_id q).
  destruct (get_chain structure (_chain_id q)) as [chain|]; [|done].
  cbn [mbind result_bind].
  change (_residue_number (without_pssm q)) with (_residue_number q).
  change (_insertion_code (without_pssm q)) with (_insertion_code q).
  destruct (filter _ (cd_residues chain)) as [|variant_residue rest]; [done|].
  cbn [mbind result_bind].
  change (_radius (without_pssm q)) with (_radius q).
  apply graph_of_atoms_without_pssm.
Qed.

(** A chain whose PSSM file is found and read. *)
Definition chain_pssm_read (paths : dict string string) (cd : ChainData) : Prop :=
  ∃ pssm_path f,
    PyDict.get (chain_id (cd_chain cd)) paths = Some pssm_path
    ∧ open_text pssm_path = Ok f
    ∧ is_ok (PssmTools.parse_pssm py_float amino_acids f (cd_chain cd)) = true.

(** X17 — with PSSM paths, every chain of the structure must have one, not
    only the chain of the variant residue: [build_graph] raises KeyError
    with the id of the first chain of the structure that has no path, when
    the files of the chains before it are read. *)
Theorem atomic_query_needs_a_pssm_path_for_every_chain
    (q : Query) (structure : Structure) (paths : dict string string)
    (before : list ChainData) (cd : ChainData) (after : list ChainData) :
  get_structure (_pdb_path q) (model_id q) = Ok structure →
  _pssm_paths q = Some paths →
  structure_chains structure = before ++ cd :: after →
  Forall (chain_pssm_read paths) before →
  PyDict.get (chain_id (cd_chain cd)) paths = None →
  build_graph' q = Raise (KeyError (chain_id (cd_chain cd))).
Proof.
  intros Hstructure Hpaths Hchains Hbefore Hnone.
  unfold build_graph, query_atoms. rewrite Hstructure. cbn [mbind result_bind].
  unfold read_pssm. rewrite Hpaths, Hchains.
  rewrite for_each_raises with (e := KeyError (chain_id (cd_chain cd))); [done| |].
  - eapply Forall_impl; [exact Hbefore|].
    intros cd' (pssm_path & f & Hpath & Hopen & Hparse) [].
    cbn beta zeta. rewrite Hpath. cbn [from_option mbind result_bind].
    rewrite Hopen. cbn [mbind result_bind].
    by destruct (PssmTools.parse_pssm py_float amino_acids f (cd_chain cd')).
  - intros []. cbn beta zeta. by rewrite Hnone.
Qed.

End AtomicLoading.

(** ** The atomic query: the graph *)

Section AtomicGraph.
Import AtomicQuery.

Context (get_structure : string → string → result Structure).
Context (open_text : string → result (list string)).
Context (py_float : string → result float) (amino_acids : list AminoAcid).
Context (get_surrounding_residues : Structure → Residue → float → list Residue).
Context (str_atom : Atom → string).
Context (FEATURENAME_EDGETYPE FEATURENAME_EDGEDISTANCE FEATURENAME_POSITION : string).

Local Abbreviation query_atoms' :=
  (query_atoms get_structure open_text py_float amino_acids get_surrounding_residues).
Local Abbreviation graph_of_atoms' :=
  (graph_of_atoms str_atom FEATURENAME_EDGETYPE FEATURENAME_EDGEDISTANCE
                  FEATURENAME_POSITION).
Local Abbreviation build_graph' :=
  (build_graph get_structure open_text py_float amino_acids
               get_surrounding_residues str_atom FEATURENAME_EDGETYPE
               FEATURENAME_EDGEDISTANCE FEATURENAME_POSITION).

(** X18 — what [build_graph] returns.  Once the atoms are collected,
    [build_graph] returns a graph exactly when there is an atom and no two
    different places of the list of atoms hold atoms closer than the
    nonbonded cutoff.  The graph it returns is the graph as
    [Graph(self.get_query_id(), self.targets)] made it: it has the query id
    for id and no node and no edge. *)
Theorem atomic_graph_is_returned_without_neighbours
    (q : Query) (atoms : list Atom) :
  query_atoms' q = Ok atoms →
  (is_ok (build_graph' q) = true
   ↔ atoms ≠ [] ∧ ∀ i j, ¬ close_pair q atoms i j)
  ∧ (∀ g, build_graph' q = Ok g →
       g = GraphPy.Graph_init (get_query_id q) (_targets q)
       ∧ GraphPy.graph_id g = get_query_id q
       ∧ GraphPy.nodes g = [] ∧ GraphPy.edges g = []).
Proof.
  intros Hatoms. unfold build_graph. rewrite Hatoms. cbn [mbind result_bind].
  destruct (graph_of_atoms_cases str_atom FEATURENAME_EDGETYPE
              FEATURENAME_EDGEDISTANCE FEATURENAME_POSITION q atoms)
    as [(Hempty & msg & ->)|[(Hsome & (i & j & Hclose) & ->)|(Hsome & Hnone & ->)]].
  - split; [|done]. split; [done|]. by intros [? _].
  - split; [|done]. split; [done|]. intros [_ Hnone]. by destruct (Hnone i j).
  - split; [done|]. by intros g [= <-].
Qed.

(** X19 — when [build_graph] raises after the atoms are collected.  With
    no atom at all it raises ValueError, from [distance_matrix].  With two
    atoms at different places of the list that are closer than the
    nonbonded cutoff it raises TypeError, from
    [graph.add_edge(atom1_key, atom2_key)]: the [add_edge] of [graph.py]
    takes one edge. *)
Theorem atomic_graph_raises_for_close_atoms (q : Query) (atoms : list Atom) :
  query_atoms' q = Ok atoms →
  (atoms = [] → ∃ msg, build_graph' q = Raise (ValueError msg))
  ∧ (∀ i j a b,
       i ≠ j → atoms !! i = Some a → atoms !! j = Some b →
       PrimFloat.ltb (euclidean (atom_position a) (atom_position b))
                     (_nonbonded_distance_cutoff q) = true →
       ∃ msg, build_graph' q = Raise (TypeError msg)).
Proof.
  intros Hatoms. unfold build_graph. rewrite Hatoms. cbn [mbind result_bind].
  destruct (graph_of_atoms_cases str_atom FEATURENAME_EDGETYPE
              FEATURENAME_EDGEDISTANCE FEATURENAME_POSITION q atoms)
    as [(Hempty & msg & ->)|[(Hsome & _ & ->)|(Hsome & Hnone & ->)]].
  - split; [by exists msg|]. intros i j a b _ Ha. subst atoms. done.
  - split; [done|]. intros. by eexists.
  - split; [done|]. intros i j a b Hij Ha Hb Hclose.
    destruct (Hnone i j). split; [done|]. by exists a, b.
Qed.

End AtomicGraph.

(** ** Equality of queries *)

Lemma pair_set_eq (a b c d : string) :
  ({[ a; b ]} : gset string) = {[ c; d ]} ↔ (a = c ∧ b = d) ∨ (a = d ∧ b = c).
Proof.
  split.
  - intros Heq.
    assert (a ∈ ({[ c; d ]} : gset string)) as Ha.
    { rewrite <- Heq. apply elem_of_union. left. by apply elem_of_singleton. }
    assert (b ∈ ({[ c; d ]} : gset string)) as Hb.
    { rewrite <- Heq. apply elem_of_union. right. by apply elem_of_singleton. }
    assert (c ∈ ({[ a; b ]} : gset string)) as Hc.
    { rewrite Heq. apply elem_of_union. left. by apply elem_of_singleton. }
    assert (d ∈ ({[ a; b ]} : gset string)) as Hd.
    { rewrite Heq. apply elem_of_union. right. by apply elem_of_singleton. }
    rewrite elem_of_union, !elem_of_singleton in Ha, Hb, Hc, Hd.
    destruct Ha as [->| ->], Hb as [->| ->], Hc as [Hc|Hc], Hd as [Hd|Hd];
      subst; auto.
  - intros [[-> ->]|[-> ->]]; [done|]. apply (comm_L (∪)).
Qed.

Section InterfaceEquality.
Import InterfaceQuery.

Lemma interface_eq_spec (q o : Query) :
  eq q o = true ↔
  model_id q = model_id o
  ∧ ((_chain_id1 q = _chain_id1 o ∧ _chain_id2 q = _chain_id2 o)
     ∨ (_chain_id1 q = _chain_id2 o ∧ _chain_id2 q = _chain_id1 o)).
Proof.
  unfold eq. rewrite andb_true_iff, String.eqb_eq, bool_decide_eq_true.
  by rewrite pair_set_eq.
Qed.

Lemma interface_eq_refl (q : Query) : eq q q = true.
Proof. apply interface_eq_spec. auto. Qed.

Lemma interface_eq_sym (q o : Query) : eq q o = eq o q.
Proof.
  apply eq_true_iff_eq. rewrite !interface_eq_spec.
  split; intros (-> & [[-> ->]|[-> ->]]); auto.
Qed.

Lemma interface_eq_trans (q o r : Query) :
  eq q o = true → eq o r = true → eq q r = true.
Proof.
  rewrite !interface_eq_spec.
  intros (-> & [[-> ->]|[-> ->]]) (-> & [[-> ->]|[-> ->]]); auto.
Qed.

(** X21 — [__eq__] of the interface query is an equivalence, and equal
    queries have equal hashes: two queries are equal exactly when their
    model ids are equal and their chains are the same two chains, in the
    same or in the other order. *)
Theorem interface_query_eq_is_an_equivalence
    (py_hash : string * list string → Z) :
  (∀ q, eq q q = true)
  ∧ (∀ q o, eq q o = eq o q)
  ∧ (∀ q o r, eq q o = true → eq o r = true → eq q r = true)
  ∧ (∀ q o, eq q o = true ↔
       model_id q = model_id o
       ∧ ((_chain_id1 q = _chain_id1 o ∧ _chain_id2 q = _chain_id2 o)
          ∨ (_chain_id1 q = _chain_id2 o ∧ _chain_id2 q = _chain_id1 o)))
  ∧ (∀ q o, eq q o = true → hash py_hash q = hash py_hash o).
Proof.
  split; [apply interface_eq_refl|]. split; [apply interface_eq_sym|].
  split; [apply interface_eq_trans|]. split; [apply interface_eq_spec|].
  intros q o (Hm & [[H1 H2]|[H1 H2]])%interface_eq_spec; unfold hash;
    rewrite Hm, H1, H2; [done|]. by rewrite sorted_pair_comm.
Qed.

End InterfaceEquality.

Section AtomicEquality.
Import AtomicQuery.

Lemma atomic_eq_spec (q o : Query) :
  eq q o = true ↔
  model_id q = model_id o ∧ _chain_id q = _chain_id o
  ∧ residue_id q = residue_id o
  ∧ aa_name (_wildtype_amino_acid q) = aa_name (_wildtype_amino_acid o)
  ∧ aa_name (_variant_amino_acid q) = aa_name (_variant_amino_acid o).
Proof.
  unfold eq, amino_acid_eqb. rewrite !andb_true_iff, !String.eqb_eq. tauto.
Qed.

Lemma atomic_eq_refl (q : Query) : eq q q = true.
Proof. by apply atomic_eq_spec. Qed.

Lemma atomic_eq_sym (q o : Query) : eq q o = eq o q.
Proof.
  apply eq_true_iff_eq. rewrite !atomic_eq_spec.
  split; intros (-> & -> & -> & -> & ->); done.
Qed.

Lemma atomic_eq_trans (q o r : Query) :
  eq q o = true → eq o r = true → eq q r = true.
Proof.
  rewrite !atomic_eq_spec.
  by intros (-> & -> & -> & -> & ->) (-> & -> & -> & -> & ->).
Qed.

(** X22 — [__eq__] of the atomic query is an equivalence; equal queries
    have the same query id, and the same hash when the hash of a tuple
    does not tell equal amino acids apart. *)
Theorem atomic_query_eq_is_an_equivalence :
  (∀ q, eq q q = true)
  ∧ (∀ q o, eq q o = eq o q)
  ∧ (∀ q o r, eq q o = true → eq o r = true → eq q r = true)
  ∧ (∀ q o, eq q o = true → get_query_id q = get_query_id o)
  ∧ (∀ py_hash : string * string * string * AminoAcid * AminoAcid → Z,
       (∀ m c r w v w' v',
          amino_acid_eqb w w' = true → amino_acid_eqb v v' = true →
          py_hash (m, c, r, w, v) = py_hash (m, c, r, w', v')) →
       ∀ q o, eq q o = true → hash py_hash q = hash py_hash o).
Proof.
  split; [apply atomic_eq_refl|]. split; [apply atomic_eq_sym|].
  split; [apply atomic_eq_trans|]. split.
  - intros q o (Hm & Hc & Hr & Hw & Hv)%atomic_eq_spec. unfold get_query_id.
    by rewrite Hm, Hc, Hr, Hw, Hv.
  - intros py_hash Hhash q o Heq. pose proof Heq as Heq'. unfold eq in Heq'.
    apply andb_true_iff in Heq' as [[[[Hm Hc]%andb_true_iff Hr]%andb_true_iff
                                      Hw]%andb_true_iff Hv].
    apply String.eqb_eq in Hm, Hc, Hr. unfold hash. rewrite Hm, Hc, Hr.
    by apply Hhash.
Qed.

End AtomicEquality.

(** ** The collection of queries *)

Section Dataset.
Import QueryDataset.

Lemma query_eq_sym (q o : Query) : query_eq q o = query_eq o q.
Proof.
  destruct q, o; cbn [query_eq]; try done;
    [apply atomic_eq_sym|apply interface_eq_sym].
Qed.

Lemma query_eq_trans (q o r : Query) :
  query_eq q o = true → query_eq o r = true → query_eq q r = true.
Proof.
  destruct q, o, r; cbn [query_eq]; try done;
    [apply atomic_eq_trans|apply interface_eq_trans].
Qed.

Lemma query_eq_refl (q : Query) : query_eq q q = true.
Proof. destruct q; [apply atomic_eq_refl|apply interface_eq_refl]. Qed.

(** X23 — membership in a dataset follows the equality of queries, and
    [add] keeps everything.  An empty dataset contains nothing; after
    [add] the dataset contains what it contained and what equals the
    added query, so an interface query is found under the query with its
    two chains in the other order; equal queries are members of the same
    datasets.  [add] does not look for an equal query: it always puts the
    query after the others, also when the dataset contains it. *)
Theorem dataset_membership_follows_equality :
  (∀ query, contains QueryDataset_init query = false)
  ∧ (∀ dataset query other,
       contains (add dataset query) other
       = contains dataset other || query_eq query other)
  ∧ (∀ dataset q,
       contains (add dataset (Interface q))
                (Interface (InterfaceQuery.swapped q)) = true)
  ∧ (∀ dataset query other,
       query_eq query other = true →
       contains dataset query = contains dataset other)
  ∧ (∀ dataset query,
       queries (add dataset query) = queries dataset ++ [query]
       ∧ iter (add dataset query) = iter dataset ++ [query]
       ∧ length (queries (add (add dataset query) query))
         = S (S (length (queries dataset)))).
Proof.
  assert (∀ dataset query other,
            contains (add dataset query) other
            = contains dataset other || query_eq query other) as Hadd.
  { intros dataset query other. unfold contains, add. cbn [_queries].
    rewrite existsb_app. cbn [existsb]. by rewrite orb_false_r. }
  split; [done|]. split; [exact Hadd|]. split; [|split].
  - intros dataset q. rewrite Hadd. apply orb_true_iff. right. cbn [query_eq].
    apply interface_eq_spec. cbn. auto.
  - intros dataset query other Heq. unfold contains.
    induction (_queries dataset) as [|element l IH]; [done|].
    cbn [existsb]. rewrite IH. f_equal. apply eq_true_iff_eq. split; intros He.
    + by apply (query_eq_trans element query other).
    + apply (query_eq_trans element other query); [done|].
      by rewrite query_eq_sym.
  - intros dataset query. split; [done|]. split; [done|].
    unfold queries, add. cbn [_queries]. rewrite !length_app. cbn. lia.
Qed.

End Dataset.

(** ** The model id of a query *)

(** A string without a character. *)
Definition char_free (c : ascii) (s : string) : bool :=
  forallb (λ x, negb (Ascii.eqb x c)) (list_ascii_of_string s).

Lemma basename_from_app (a b name : string) :
  basename_from (a ++ b) name = basename_from b (basename_from a name).
Proof.
  revert name. induction a as [|c a IH]; intros name; [done|].
  change (String c a ++ b)%string with (String c (a ++ b)%string).
  cbn [basename_from]. by destruct (Ascii.eqb c "/"%char).
Qed.

Lemma basename_from_slash_free (b name : string) :
  char_free "/" b = true → basename_from b name = (name ++ b)%string.
Proof.
  unfold char_free. revert name.
  induction b as [|c b IH]; intros name; cbn [list_ascii_of_string forallb basename_from].
  - intros _. clear. induction name as [|x name IH]; [done|].
    change (String x name ++ "")%string with (String x (name ++ "")%string).
    by rewrite <- IH.
  - intros [Hc Hb]%andb_true_iff. apply negb_true_iff in Hc. rewrite Hc.
    rewrite IH by done. apply string_append_assoc.
Qed.

Lemma basename_after_slash (dir rest : string) :
  char_free "/" rest = true →
  basename (dir ++ String "/"%char rest) = rest.
Proof.
  intros Hrest. unfold basename. rewrite basename_from_app.
  cbn [basename_from Ascii.eqb]. cbn. by rewrite basename_from_slash_free.
Qed.

Section Rfind.
Context (c : ascii).

Local Abbreviation step :=
  (λ (st : nat * nat) (x : ascii), (S st.1, if Ascii.eqb x c then S st.1 else st.2)).

Lemma rfind_count (l : list ascii) (st : nat * nat) :
  (fold_left step l st).1 = st.1 + length l.
Proof.
  revert st. induction l as [|x l IH]; intros st; cbn [fold_left length]; [lia|].
  rewrite IH. cbn [fst]. lia.
Qed.

Lemma rfind_absent (l : list ascii) (st : nat * nat) :
  forallb (λ x, negb (Ascii.eqb x c)) l = true →
  (fold_left step l st).2 = st.2.
Proof.
  revert st. induction l as [|x l IH]; intros st; cbn [fold_left forallb]; [done|].
  intros [Hx Hl]%andb_true_iff. apply negb_true_iff in Hx.
  rewrite IH by done. cbn [snd]. by rewrite Hx.
Qed.

Lemma rfind_last (a b : list ascii) :
  forallb (λ x, negb (Ascii.eqb x c)) b = true →
  (fold_left step (a ++ c :: b) (0, 0)).2 = S (length a).
Proof.
  intros Hb. rewrite fold_left_app. cbn [fold_left].
  rewrite rfind_absent by done. cbn [snd].
  rewrite Ascii.eqb_refl. by rewrite rfind_count.
Qed.

End Rfind.

Lemma char_free_app (c : ascii) (a b : string) :
  char_free c (a ++ b) = char_free c a && char_free c b.
Proof. unfold char_free. by rewrite list_ascii_of_string_app, forallb_app. Qed.

(** X24 — the model id of a query is the file name of its PDB path
    without the directories and without the extension: for a path made of
    any directory part, a separator, a name and an extension after a dot,
    where the name has no separator and is not made of dots only and the
    extension has neither a separator nor a dot, the model id of both
    kinds of query is the name.  The same holds for a path without
    directory part. *)
Theorem model_id_is_the_file_name_without_extension (dir name ext : string) :
  char_free "/" name = true →
  existsb (λ x, negb (Ascii.eqb x ".")) (list_ascii_of_string name) = true →
  char_free "/" ext = true →
  char_free "." ext = true →
  (∀ q : AtomicQuery.Query,
     AtomicQuery._pdb_path q = (dir ++ String "/" (name ++ String "." ext))%string
     ∨ AtomicQuery._pdb_path q = (name ++ String "." ext)%string →
     AtomicQuery.model_id q = name)
  ∧ (∀ q : InterfaceQuery.Query,
       InterfaceQuery._pdb_path q
       = (dir ++ String "/" (name ++ String "." ext))%string
       ∨ InterfaceQuery._pdb_path q = (name ++ String "." ext)%string →
       InterfaceQuery.model_id q = name).
Proof.
  intros Hname Hnondot Hext_slash Hext_dot.
  assert (char_free "/" (name ++ String "." ext) = true) as Hfile.
  { rewrite char_free_app, Hname. unfold char_free in *.
    cbn [list_ascii_of_string forallb]. by rewrite Hext_slash. }
  assert (basename (dir ++ String "/" (name ++ String "." ext))
          = (name ++ String "." ext)%string) as Hbase1
    by by apply basename_after_slash.
  assert (basename (name ++ String "." ext) = (name ++ String "." ext)%string)
    as Hbase2.
  { unfold basename. by rewrite basename_from_slash_free. }
  assert (splitext_root (name ++ String "." ext) = name) as Hroot.
  { unfold splitext_root, rfind1.
    rewrite list_ascii_of_string_app. cbn [list_ascii_of_string].
    rewrite (rfind_last "."%char) by exact Hext_dot.
    rewrite (rfind_absent "/"%char).
    2: { unfold char_free in Hfile. rewrite list_ascii_of_string_app in Hfile.
         exact Hfile. }
    cbn [snd]. replace (S (length (list_ascii_of_string name)) - 1)
      with (length (list_ascii_of_string name)) by lia.
    rewrite take_app_length, drop_0, Hnondot.
    replace (0 <? S (length (list_ascii_of_string name)))%nat with true
      by (symmetry; by apply Nat.ltb_lt; lia).
    cbn [andb]. apply string_of_list_ascii_of_string. }
  split.
  - intros q [Hq|Hq]; unfold AtomicQuery.model_id; rewrite Hq;
      [by rewrite Hbase1|by rewrite Hbase2].
  - intros q [Hq|Hq]; unfold InterfaceQuery.model_id; rewrite Hq;
      [by rewrite Hbase1|by rewrite Hbase2].
Qed.

(** ** The interface query: how [build_graph] ends *)

Section InterfaceGraph.
Import InterfaceQuery.

Context (get_residue_contact_pairs :
           string → string → string → string → float → result (list (Residue * Residue))).
Context (get_residue_distance : Residue → Residue → float).
Context (model_get_chain : string → string → result Chain).
Context (open_text : string → result (list string)).
Context (py_float : string → result float) (amino_acids : list AminoAcid).
Context (attached_pssm : dict Chain PssmTable).
Context (get_bsa_data : string → float → result (string * Z * string → option float)).
Context (get_depth_contact_res :
           string → list (string * Z * string) → result (dict Residue float)).
Context (get_hse : string → result (string * Z → option (list float))).
Context (str_residue : Residue → string).
Context (FEATURENAME_EDGEDISTANCE FEATURENAME_EDGETYPE FEATURENAME_CHAIN
         FEATURENAME_POSITION FEATURENAME_AMINOACID FEATURENAME_CHARGE
         FEATURENAME_POLARITY FEATURENAME_BURIEDSURFACEAREA FEATURENAME_PSSM
         FEATURENAME_CONSERVATION FEATURENAME_INFORMATIONCONTENT
         FEATURENAME_RESIDUEDEPTH FEATURENAME_HALFSPHEREEXPOSURE : string).
Context (amino_acid_order : list AminoAcid).

Local Abbreviation is_valid := (_residue_is_valid str_residue).
Local Abbreviation add_contact' :=
  (add_contact str_residue FEATURENAME_EDGEDISTANCE FEATURENAME_EDGETYPE).
Local Abbreviation interface_step' :=
  (interface_step get_residue_distance str_residue FEATURENAME_EDGEDISTANCE
                  FEATURENAME_EDGETYPE).
Local Abbreviation internal_step' :=
  (internal_step get_residue_distance str_residue FEATURENAME_EDGEDISTANCE
                 FEATURENAME_EDGETYPE).
Local Abbreviation internal_edges' :=
  (internal_edges get_residue_distance str_residue FEATURENAME_EDGEDISTANCE
                  FEATURENAME_EDGETYPE).
Local Abbreviation node_features_of' :=
  (node_features_of str_residue FEATURENAME_CHAIN FEATURENAME_POSITION
     FEATURENAME_AMINOACID FEATURENAME_CHARGE FEATURENAME_POLARITY
     FEATURENAME_BURIEDSURFACEAREA FEATURENAME_PSSM FEATURENAME_CONSERVATION
     FEATURENAME_INFORMATIONCONTENT FEATURENAME_RESIDUEDEPTH
     FEATURENAME_HALFSPHEREEXPOSURE amino_acid_order).
Local Abbreviation read_pssm' :=
  (read_pssm open_text py_float amino_acids attached_pssm).
Local Abbreviation build_graph' :=
  (build_graph get_residue_contact_pairs get_residue_distance model_get_chain
     open_text py_float amino_acids attached_pssm get_bsa_data
     get_depth_contact_res get_hse str_residue
     FEATURENAME_EDGEDISTANCE FEATURENAME_EDGETYPE FEATURENAME_CHAIN
     FEATURENAME_POSITION FEATURENAME_AMINOACID FEATURENAME_CHARGE
     FEATURENAME_POLARITY FEATURENAME_BURIEDSURFACEAREA FEATURENAME_PSSM
     FEATURENAME_CONSERVATION FEATURENAME_INFORMATIONCONTENT
     FEATURENAME_RESIDUEDEPTH FEATURENAME_HALFSPHEREEXPOSURE amino_acid_order).

(** X25 — [build_graph] of the interface query returns no graph, whatever
    the query is and whatever the contact search, the chains, the files
    and the surface and depth tools answer.  It ends with an exception:
    one of the steps before the graph is filled raises, or
    [graph.add_edge(key1, key2)] does, or at last [graph.nodes.items()]
    does, [nodes] being a list. *)
Theorem interface_build_graph_never_returns (q : Query) :
  is_ok (build_graph' q) = false
  ∧ ∀ g logged, build_graph' q ≠ Ok (g, logged).
Proof.
  assert (Hraise : is_ok (build_graph' q) = false).
  { unfold build_graph, GraphPy.list_items.
    repeat first
      [ reflexivity
      | match goal with
        | |- is_ok (mbind _ ?r) = false =>
            destruct r; cbn [mbind result_bind is_ok]
        | |- is_ok (match ?l with [] => _ | _ :: _ => _ end) = false =>
            destruct l
        end ]. }
  split; [exact Hraise|]. intros g logged Hg. by rewrite Hg in Hraise.
Qed.

(** X26 — where [build_graph] of the interface query ends once the
    contact search has found pairs, the two chains are found, the PSSM
    files are read and every residue can be tested.  If some pair holds
    two valid residues, it raises TypeError, from
    [graph.add_edge(key1, key2)].  If no pair does, and the surface tool
    (and, with biopython, the depth and exposure tools) answers, it raises
    TypeError, from [add_edge] for two residues of one chain, or
    AttributeError, from [graph.nodes.items()]; it is AttributeError when
    no residue of the pairs is valid. *)
Theorem interface_build_graph_raises_at_the_graph
    (q : Query) (first : Residue * Residue) (rest : list (Residue * Residue))
    (chain1 chain2 : Chain) (pssm : dict Chain PssmTable) :
  get_residue_contact_pairs (_pdb_path q) (model_id q) (_chain_id1 q)
    (_chain_id2 q) (_interface_distance_cutoff q) = Ok (first :: rest) →
  model_get_chain (chain_model (res_chain first.1)) (_chain_id1 q) = Ok chain1 →
  model_get_chain (chain_model (res_chain first.1)) (_chain_id2 q) = Ok chain2 →
  read_pssm' q chain1 chain2 = Ok pssm →
  Forall (checkable pssm) (residues_of (first :: rest)) →
  (Exists (λ pair, valid pssm pair.1 ∧ valid pssm pair.2) (first :: rest) →
   ∃ msg, build_graph' q = Raise (TypeError msg))
  ∧ (Forall (λ pair, ¬ (valid pssm pair.1 ∧ valid pssm pair.2)) (first :: rest) →
     is_ok (get_bsa_data (_pdb_path q) (_interface_distance_cutoff q)) = true →
     (_use_biopython q = true →
      is_ok (get_depth_contact_res (_pdb_path q) []) = true
      ∧ is_ok (get_hse (_pdb_path q)) = true) →
     (∃ msg, build_graph' q = Raise (TypeError msg)
             ∨ build_graph' q = Raise (AttributeError msg))
     ∧ (Forall (λ r, ¬ valid pssm r) (residues_of (first :: rest)) →
        ∃ msg, build_graph' q = Raise (AttributeError msg))).
Proof.
  intros Hpairs Hc1 Hc2 Hpssm Hcheck.
  set (pairs := first :: rest) in *.
  assert (Hpairs_ok : Forall (pair_ok pssm pairs) pairs).
  { apply Forall_forall. intros pair Hin. rewrite Forall_forall in Hcheck.
    assert (H1 : pair.1 ∈ residues_of pairs)
      by (apply elem_of_residues_of; exists pair; auto).
    assert (H2 : pair.2 ∈ residues_of pairs)
      by (apply elem_of_residues_of; exists pair; auto).
    repeat split; auto. }
  destruct (separate_loop_ok str_residue q pssm pairs pairs (([], []), []))
    as (sets & Hsets & Hs1 & Hs2 & Hlog & _); try done.
  { intros line Hin. by apply elem_of_nil in Hin. }
  set (st0 := {| graph := GraphPy.Graph_init (get_query_id q) (_targets q);
                 residues_by_node := []; log := sets.2 |}).
  assert (Hstart : build_graph' q
    = (st ← for_each (interface_step' pssm) pairs st0 ;
       st ← for_each (λ st residue_set, internal_edges' q residue_set st)
                     [sets.1.1; sets.1.2] st ;
       bsa_data ← get_bsa_data (_pdb_path q) (_interface_distance_cutoff q) ;
       bio ←
         (if _use_biopython q then
            contact_residues ←
              map_result
                (λ residue,
                   amino_acid ← from_option (AttributeError "three_letter_code")
                                            (res_amino_acid residue) ;
                   Ok (chain_id (res_chain residue), res_number residue,
                       three_letter_code amino_acid))
                (PyDict.values (residues_by_node st)) ;
            residue_depths ← get_depth_contact_res (_pdb_path q) contact_residues ;
            hse ← get_hse (_pdb_path q) ;
            Ok (Some (residue_depths, hse))
          else Ok None) ;
       Raise (AttributeError "'list' object has no attribute 'items'"))).
  { subst pairs. unfold build_graph. rewrite Hpairs. cbn [mbind result_bind].
    rewrite Hc1. cbn [mbind result_bind].
    rewrite Hc2. cbn [mbind result_bind]. rewrite Hpssm. cbn [mbind result_bind].
    rewrite Hsets. cbn [mbind result_bind]. reflexivity. }
  rewrite Hstart. clear Hstart.
  destruct (interface_loop_cases get_residue_distance str_residue
              FEATURENAME_EDGEDISTANCE FEATURENAME_EDGETYPE pssm pairs pairs st0
              Hpairs_ok Hlog)
    as [(Hnone & l & -> & _ & _)|(Hsome & ->)].
  - split.
    { intros Hex. apply Exists_exists in Hex as (pair & Hin & Hv).
      rewrite Forall_forall in Hnone. by destruct (Hnone pair Hin). }
    intros _ Hbsa Hbio. cbn [mbind result_bind for_each].
    assert (Hrest : ∀ st,
      residues_by_node st = [] →
      (bsa_data ← get_bsa_data (_pdb_path q) (_interface_distance_cutoff q) ;
       bio ←
         (if _use_biopython q then
            contact_residues ←
              map_result
                (λ residue,
                   amino_acid ← from_option (AttributeError "three_letter_code")
                                            (res_amino_acid residue) ;
                   Ok (chain_id (res_chain residue), res_number residue,
                       three_letter_code amino_acid))
                (PyDict.values (residues_by_node st)) ;
            residue_depths ← get_depth_contact_res (_pdb_path q) contact_residues ;
            hse ← get_hse (_pdb_path q) ;
            Ok (Some (residue_depths, hse))
          else Ok None) ;
       (Raise (AttributeError "'list' object has no attribute 'items'")
        : result (Graph * list string)))
      = Raise (AttributeError "'list' object has no attribute 'items'")).
    { intros st Hst.
      destruct (get_bsa_data _ _); [|done]. cbn [mbind result_bind].
      destruct (_use_biopython q); [|done].
      destruct (Hbio eq_refl) as [Hdepth Hhse]. rewrite Hst.
      cbn [PyDict.values fmap list_fmap map_result mbind result_bind].
      destruct (get_depth_contact_res _ []); [|done]. cbn [mbind result_bind].
      by destruct (get_hse _). }
    split.
    + destruct (internal_edges_cases get_residue_distance str_residue
                  FEATURENAME_EDGEDISTANCE FEATURENAME_EDGETYPE q sets.1.1
                  (with_log st0 l)) as [-> | ->]; cbn [mbind result_bind];
        [|by eexists; left].
      destruct (internal_edges_cases get_residue_distance str_residue
                  FEATURENAME_EDGEDISTANCE FEATURENAME_EDGETYPE q sets.1.2
                  (with_log st0 l)) as [-> | ->]; cbn [mbind result_bind];
        [|by eexists; left].
      rewrite Hrest by done. by eexists; right.
    + intros Hinvalid.
      assert (Hempty : ∀ s, Forall (good pssm pairs) s → s = []).
      { intros [|r s] Hs; [done|]. apply Forall_cons in Hs as [[Hv Hin] _].
        rewrite Forall_forall in Hinvalid. by destruct (Hinvalid r Hin). }
      rewrite (Hempty _ Hs1), (Hempty _ Hs2). cbn [internal_edges mbind result_bind].
      rewrite Hrest by done. by eexists.
  - split; [intros _; by eexists|].
    intros Hnone. apply Exists_exists in Hsome as (pair & Hin & Hv).
    rewrite Forall_forall in Hnone. by destruct (Hnone pair Hin).
Qed.

(** X27 — with PSSM paths, both chains of the query need one: when the
    contact search finds pairs and the two chains are found,
    [build_graph] raises KeyError with the id of the first chain if it
    has no path, and with the id of the second chain if the file of the
    first is read and the second has no path. *)
Theorem interface_query_needs_a_pssm_path_for_both_chains
    (q : Query) (first : Residue * Residue) (rest : list (Residue * Residue))
    (chain1 chain2 : Chain) (paths : dict string string) :
  get_residue_contact_pairs (_pdb_path q) (model_id q) (_chain_id1 q)
    (_chain_id2 q) (_interface_distance_cutoff q) = Ok (first :: rest) →
  model_get_chain (chain_model (res_chain first.1)) (_chain_id1 q) = Ok chain1 →
  model_get_chain (chain_model (res_chain first.1)) (_chain_id2 q) = Ok chain2 →
  _pssm_paths q = Some paths →
  (PyDict.get (chain_id chain1) paths = None →
   build_graph' q = Raise (KeyError (chain_id chain1)))
  ∧ (∀ pssm_path f,
       PyDict.get (chain_id chain1) paths = Some pssm_path →
       open_text pssm_path = Ok f →
       is_ok (PssmTools.parse_pssm py_float amino_acids f chain1) = true →
       PyDict.get (chain_id chain2) paths = None →
       build_graph' q = Raise (KeyError (chain_id chain2))).
Proof.
  intros Hpairs Hc1 Hc2 Hpaths. split.
  - intros Hnone. unfold build_graph. rewrite Hpairs. cbn [mbind result_bind].
    rewrite Hc1. cbn [mbind result_bind]. rewrite Hc2. cbn [mbind result_bind].
    unfold read_pssm. rewrite Hpaths. cbn [for_each]. by rewrite Hnone.
  - intros pssm_path f Hpath Hopen Hparse Hnone. unfold build_graph.
    rewrite Hpairs. cbn [mbind result_bind].
    rewrite Hc1. cbn [mbind result_bind]. rewrite Hc2. cbn [mbind result_bind].
    unfold read_pssm. rewrite Hpaths. cbn [for_each]. rewrite Hpath.
    cbn [from_option mbind result_bind]. rewrite Hopen. cbn [mbind result_bind].
    destruct (PssmTools.parse_pssm py_float amino_acids f chain1); [|done].
    cbn [mbind result_bind]. by rewrite Hnone.
Qed.

End InterfaceGraph.

(** * The further properties on examples *)

Module Cases.

(** ** Files for the PSSM parser *)

Definition pssm_header : string := "pdbresi pdbresn seqresi seqresn A C G IC".

(** A line whose score of glycine is no number. *)
Definition pssm_lines_bad_score : list string :=
  [ pssm_header;
    "1 G 1 G 0 -3 6 0.75";
    "2 G 2 G 1 -2 five 1.5";
    "2A A 3 A 4 -1 0 0.125" ].

(** A blank line among the data lines. *)
Definition pssm_lines_blank : list string :=
  [ pssm_header; "1 G 1 G 0 -3 6 0.75"; "   "; "2 G 2 G 1 -2 5 1.5" ].

(** A header without the column of the amino acid. *)
Definition pssm_header_short : string := "pdbresi seqresi seqresn A C G IC".

(** A line of an amino acid that is not known. *)
Definition pssm_lines_unknown : list string :=
  [ pssm_header; "1 G 1 G 0 -3 6 0.75"; "3 X 3 X 0 0 0 0.5" ].

(** Two lines for one residue. *)
Definition pssm_lines_twice : list string :=
  [ pssm_header; "1 G 1 G 0 -3 6 0.75"; "1 G 1 G 1 -2 5 1.5" ].

Definition pssm_table_twice : PssmTable :=
  Eval vm_compute in
    match PssmTools.parse_pssm Example.decimal_float Example.amino_acids
            pssm_lines_twice Example.chainB with
    | Ok table => table
    | Raise _ => []
    end.

(** ** Atomic queries *)

(** The query of the residue 12A. *)
Definition coded_query : AtomicQuery.Query :=
  {| AtomicQuery._pdb_path := "data/1abc.pdb";
     AtomicQuery._pssm_paths := None;
     AtomicQuery._targets := [];
     AtomicQuery._chain_id := "A";
     AtomicQuery._residue_number := 12;
     AtomicQuery._insertion_code := Some "A";
     AtomicQuery._wildtype_amino_acid := Example.cysteine;
     AtomicQuery._variant_amino_acid := Example.alanine;
     AtomicQuery._radius := 10%float;
     AtomicQuery._nonbonded_distance_cutoff := 4.5%float;
     AtomicQuery._bonded_distance_cutoff := 1.5625%float;
     AtomicQuery._disulfid_distance := 2.25%float |}.

(** The example query with PSSM paths. *)
Definition pssm_query (paths : dict string string) : AtomicQuery.Query :=
  {| AtomicQuery._pdb_path := "data/1abc.pdb";
     AtomicQuery._pssm_paths := Some paths;
     AtomicQuery._targets := [];
     AtomicQuery._chain_id := "A";
     AtomicQuery._residue_number := 1;
     AtomicQuery._insertion_code := None;
     AtomicQuery._wildtype_amino_acid := Example.cysteine;
     AtomicQuery._variant_amino_acid := Example.alanine;
     AtomicQuery._radius := 10%float;
     AtomicQuery._nonbonded_distance_cutoff := 4.5%float;
     AtomicQuery._bonded_distance_cutoff := 1.5625%float;
     AtomicQuery._disulfid_distance := 2.25%float |}.

(** The example query with a nonbonded cutoff that no two atoms of the
    structure are within. *)
Definition narrow_query : AtomicQuery.Query :=
  {| AtomicQuery._pdb_path := "data/1abc.pdb";
     AtomicQuery._pssm_paths := None;
     AtomicQuery._targets := [("bind", 1%float)];
     AtomicQuery._chain_id := "A";
     AtomicQuery._residue_number := 1;
     AtomicQuery._insertion_code := None;
     AtomicQuery._wildtype_amino_acid := Example.cysteine;
     AtomicQuery._variant_amino_acid := Example.alanine;
     AtomicQuery._radius := 10%float;
     AtomicQuery._nonbonded_distance_cutoff := 1%float;
     AtomicQuery._bonded_distance_cutoff := 0.5%float;
     AtomicQuery._disulfid_distance := 0.75%float |}.

Definition atomic_build_graph (q : AtomicQuery.Query) : result AtomicQuery.Graph :=
  AtomicQuery.build_graph Example.get_structure Example.pssm_file
    Example.decimal_float Example.amino_acids Example.get_surrounding_residues
    Example.str_atom "type" "dist" "pos" q.

Definition atomic_query_atoms (q : AtomicQuery.Query) : result (list Atom) :=
  AtomicQuery.query_atoms Example.get_structure Example.pssm_file
    Example.decimal_float Example.amino_acids Example.get_surrounding_residues q.

Definition chain_data_A : ChainData :=
  {| cd_chain := Example.chainA; cd_residues := [Example.cys1; Example.cys2] |}.

(** ** An interface query without the path of the first chain *)

Definition pathless_query : InterfaceQuery.Query :=
  {| InterfaceQuery._pdb_path := "data/1abc.pdb";
     InterfaceQuery._chain_id1 := "A";
     InterfaceQuery._chain_id2 := "B";
     InterfaceQuery._pssm_paths := Some [("B", "B.pssm")];
     InterfaceQuery._interface_distance_cutoff := 8.5%float;
     InterfaceQuery._internal_distance_cutoff := 3%float;
     InterfaceQuery._use_biopython := false;
     InterfaceQuery._targets := [] |}.

(** A node with the id of the first node of the example graph. *)
Definition node0' : GraphPy.Node nat :=
  {| GraphPy.node_id := 0; GraphPy.node_features := [("other", VFloat 7%float)] |}.

End Cases.

(** A string is not among the strings of a list that is written out. *)
Ltac not_among :=
  let H := fresh in
  intros H; apply list_elem_of_In in H; vm_compute in H;
  repeat (destruct H as [H|H]; [discriminate H|]); exact H.

Ltac among := apply list_elem_of_In; vm_compute; tauto.

(** ** The PSSM parser *)

Lemma parse_pssm_raises_at_first_unreadable_line_witness :
  Forall (readable Example.decimal_float Example.amino_acids Cases.pssm_header
            Example.chainB) ["1 G 1 G 0 -3 6 0.75"]
  ∧ PssmTools.parse_pssm Example.decimal_float Example.amino_acids
      Cases.pssm_lines_bad_score Example.chainB
    = Raise (ValueError "could not convert string to float").
Proof.
  assert (Hgood : Forall (readable Example.decimal_float Example.amino_acids
                            Cases.pssm_header Example.chainB)
                         ["1 G 1 G 0 -3 6 0.75"]).
  { constructor; [vm_compute; reflexivity|constructor]. }
  assert (Hbad : PssmTools.parse_line Example.decimal_float Example.amino_acids
                   (PssmTools.column_indices_of (split Cases.pssm_header))
                   Example.chainB "2 G 2 G 1 -2 five 1.5"
                 = Raise (ValueError "could not convert string to float"))
    by (vm_compute; reflexivity).
  split; [exact Hgood|].
  exact (parse_pssm_raises_at_first_unreadable_line Example.decimal_float
           Example.amino_acids Cases.pssm_header ["1 G 1 G 0 -3 6 0.75"]
           "2 G 2 G 1 -2 five 1.5" ["2A A 3 A 4 -1 0 0.125"] Example.chainB
           (ValueError "could not convert string to float") Hgood Hbad).
Defined.

Lemma parse_pssm_blank_line_raises_witness :
  "pdbresn" ∈ column_names Cases.pssm_header
  ∧ forallb is_space (list_ascii_of_string "   ") = true
  ∧ PssmTools.parse_pssm Example.decimal_float Example.amino_acids
      Cases.pssm_lines_blank Example.chainB = Raise IndexError.
Proof.
  assert (Hcol : "pdbresn" ∈ column_names Cases.pssm_header) by among.
  assert (Hgood : Forall (readable Example.decimal_float Example.amino_acids
                            Cases.pssm_header Example.chainB)
                         ["1 G 1 G 0 -3 6 0.75"]).
  { constructor; [vm_compute; reflexivity|constructor]. }
  assert (Hblank : forallb is_space (list_ascii_of_string "   ") = true)
    by reflexivity.
  split; [exact Hcol|]. split; [exact Hblank|].
  exact (parse_pssm_blank_line_raises Example.decimal_float Example.amino_acids
           Cases.pssm_header ["1 G 1 G 0 -3 6 0.75"] "   " ["2 G 2 G 1 -2 5 1.5"]
           Example.chainB Hcol Hgood Hblank).
Defined.

Lemma parse_pssm_needs_every_column_witness :
  "pdbresn" ∈ needed_columns Example.amino_acids
  ∧ ("pdbresn" ∉ column_names Cases.pssm_header_short)
  ∧ PssmTools.parse_pssm Example.decimal_float Example.amino_acids
      [Cases.pssm_header_short] Example.chainB = Ok []
  ∧ PssmTools.parse_pssm Example.decimal_float Example.amino_acids
      [Cases.pssm_header_short; "1 1 G 0 -3 6 0.75"] Example.chainB
    = Raise (KeyError "pdbresn").
Proof.
  assert (Hneeded : "pdbresn" ∈ needed_columns Example.amino_acids) by among.
  assert (Hno : "pdbresn" ∉ column_names Cases.pssm_header_short) by not_among.
  destruct (parse_pssm_needs_every_column Example.decimal_float Example.amino_acids
              Cases.pssm_header_short "pdbresn" Example.chainB Hneeded Hno)
    as (Hempty & _ & Hkey).
  split; [exact Hneeded|]. split; [exact Hno|]. split; [exact Hempty|].
  exact (Hkey eq_refl "1 1 G 0 -3 6 0.75" []).
Defined.

Lemma parse_pssm_unknown_amino_acid_letter_witness :
  ("X" ∉ one_letter_code <$> Example.amino_acids)
  ∧ PssmTools.parse_pssm Example.decimal_float Example.amino_acids
      Cases.pssm_lines_unknown Example.chainB = Raise (KeyError "X").
Proof.
  assert (Hgood : Forall (readable Example.decimal_float Example.amino_acids
                            Cases.pssm_header Example.chainB)
                         ["1 G 1 G 0 -3 6 0.75"]).
  { constructor; [vm_compute; reflexivity|constructor]. }
  assert (Hfield : PssmTools.field
                     (PssmTools.column_indices_of (split Cases.pssm_header))
                     (split "3 X 3 X 0 0 0 0.5") "pdbresn" = Ok "X")
    by (vm_compute; reflexivity).
  assert (Hno : "X" ∉ (one_letter_code <$> Example.amino_acids)) by not_among.
  split; [exact Hno|].
  exact (parse_pssm_unknown_amino_acid_letter Example.decimal_float
           Example.amino_acids Cases.pssm_header ["1 G 1 G 0 -3 6 0.75"]
           "3 X 3 X 0 0 0 0.5" [] Example.chainB "X" Hgood Hfield Hno).
Defined.

Lemma parse_pssm_last_line_wins_witness :
  PssmTools.parse_pssm Example.decimal_float Example.amino_acids
    Cases.pssm_lines_twice Example.chainB = Ok Cases.pssm_table_twice
  ∧ ∃ rows,
      Forall2 (λ line rr,
                 PssmTools.parse_line Example.decimal_float Example.amino_acids
                   (PssmTools.column_indices_of (split Cases.pssm_header))
                   Example.chainB line = Ok rr)
              ["1 G 1 G 0 -3 6 0.75"; "1 G 1 G 1 -2 5 1.5"] rows
      ∧ (∀ i rr,
           rows !! i = Some rr →
           (∀ j rr', i < j → rows !! j = Some rr' →
                     key_eqb rr'.1 rr.1 = false) →
           PyDict.get rr.1 Cases.pssm_table_twice = Some rr.2)
      ∧ (∀ residue,
           (∀ rr, rr ∈ rows → key_eqb rr.1 residue = false) →
           PyDict.get residue Cases.pssm_table_twice = None
           ∧ PyDict.contains residue Cases.pssm_table_twice = false)
      ∧ (∀ residue row,
           PyDict.get residue Cases.pssm_table_twice = Some row →
           ∃ rr, rr ∈ rows ∧ key_eqb rr.1 residue = true ∧ row = rr.2).
Proof.
  assert (Hp : PssmTools.parse_pssm Example.decimal_float Example.amino_acids
                 Cases.pssm_lines_twice Example.chainB = Ok Cases.pssm_table_twice)
    by (vm_compute; reflexivity).
  split; [exact Hp|].
  exact (parse_pssm_last_line_wins Example.decimal_float Example.amino_acids
           Cases.pssm_header ["1 G 1 G 0 -3 6 0.75"; "1 G 1 G 1 -2 5 1.5"]
           Example.chainB Cases.pssm_table_twice Hp).
Defined.

(** The table of the file with two lines for one residue holds the row of
    the second line. *)
(** Two data lines that name one residue give one entry: the table has
    fewer residues than the file has data lines, and the row of the first
    of the two lines is not in it. *)
Lemma parse_pssm_two_lines_one_residue :
  PssmTools.parse_pssm Example.decimal_float Example.amino_acids
    Cases.pssm_lines_twice Example.chainB = Ok Cases.pssm_table_twice
  ∧ Cases.pssm_lines_twice
    = [ Cases.pssm_header; "1 G 1 G 0 -3 6 0.75"; "1 G 1 G 1 -2 5 1.5" ]
  ∧ length Cases.pssm_table_twice = 1%nat
  ∧ map (λ kv : Residue * PssmRow, information_content kv.2)
        Cases.pssm_table_twice
    = [1.5%float].
Proof. repeat split; vm_compute; reflexivity. Qed.

Example parse_pssm_twice_example :
  map (λ kv : Residue * PssmRow, (res_number kv.1, information_content kv.2))
      Cases.pssm_table_twice
  = [ (1%Z, 1.5%float) ].
Proof. vm_compute. reflexivity. Qed.

Lemma residue_number_of_residue_id_witness :
  AtomicQuery.residue_id Cases.coded_query = "12A"
  ∧ PssmTools.residue_number_of (AtomicQuery.residue_id Cases.coded_query)
    = Ok (12%Z, Some "A").
Proof.
  split; [vm_compute; reflexivity|].
  apply (residue_number_of_residue_id Cases.coded_query).
  right. exists "A"%char. split; reflexivity.
Defined.

Lemma residue_number_of_rejects_two_letters_witness :
  (∃ msg, PssmTools.residue_number_of "12AB" = Raise (ValueError msg))
  ∧ (∃ msg, PssmTools.residue_number_of "B" = Raise (ValueError msg)).
Proof.
  exact (residue_number_of_rejects_two_letters "12" "A"%char "B"%char
           eq_refl eq_refl).
Defined.

(** ** The PSSM feature attachment *)

Lemma add_features_idempotent_witness :
  Example.pssm_add_features Example.pssm_graph (Some Example.variant)
  = Ok Example.pssm_graph_after
  ∧ Example.pssm_add_features Example.pssm_graph_after (Some Example.variant)
    = Ok Example.pssm_graph_after.
Proof.
  assert (Ha : Example.pssm_add_features Example.pssm_graph (Some Example.variant)
               = Ok Example.pssm_graph_after) by (vm_compute; reflexivity).
  split; [exact Ha|].
  exact (add_features_idempotent Example.amino_acids Example.get_pssm
           "pssm" "info_content" "conservation" "diff_conservation"
           "data/1abc.pdb" Example.pssm_graph Example.pssm_graph_after
           (Some Example.variant) Ha).
Defined.

Lemma feature_names_differ :
  NoDup ["pssm"; "info_content"; "conservation"; "diff_conservation"].
Proof.
  repeat (apply NoDup_cons; split; [not_among|]). apply NoDup_nil_2.
Qed.

Lemma add_features_values_witness :
  NoDup ["pssm"; "info_content"; "conservation"; "diff_conservation"]
  ∧ Forall2
      (λ n n',
         ∃ residue pssm_row profile,
           PssmFeature.residue_of (GraphPy.node_id n) = Ok residue
           ∧ Example.get_pssm residue = Ok pssm_row
           ∧ Forall2 (λ amino_acid score,
                        PyDict.get amino_acid (conservations pssm_row)
                        = Some score)
                     (PssmFeature.profile_amino_acid_order Example.amino_acids)
                     profile
           ∧ length profile = length Example.amino_acids
           ∧ PyDict.get "pssm" (GraphPy.node_features n') = Some (VArray profile)
           ∧ PyDict.get "info_content" (GraphPy.node_features n')
             = Some (VFloat (information_content pssm_row))
           ∧ (∀ v, Some Example.variant = Some v →
                residue_eqb residue (PssmFeature.variant_residue v) = true →
                ∃ conservation_wildtype conservation_variant,
                  PyDict.get (PssmFeature.wildtype_amino_acid v)
                             (conservations pssm_row)
                  = Some conservation_wildtype
                  ∧ PyDict.get (PssmFeature.variant_amino_acid v)
                               (conservations pssm_row)
                    = Some conservation_variant
                  ∧ PyDict.get "conservation" (GraphPy.node_features n')
                    = Some (VFloat conservation_wildtype)
                  ∧ PyDict.get "diff_conservation" (GraphPy.node_features n')
                    = Some (VFloat (conservation_variant
                                    - conservation_wildtype)%float)))
      (GraphPy.nodes Example.pssm_graph) (GraphPy.nodes Example.pssm_graph_after).
Proof.
  assert (Ha : Example.pssm_add_features Example.pssm_graph (Some Example.variant)
               = Ok Example.pssm_graph_after) by (vm_compute; reflexivity).
  split; [exact feature_names_differ|].
  exact (add_features_values Example.amino_acids Example.get_pssm
           "pssm" "info_content" "conservation" "diff_conservation"
           "data/1abc.pdb" Example.pssm_graph Example.pssm_graph_after
           (Some Example.variant) feature_names_differ Ha).
Defined.

Lemma add_features_keeps_the_rest_witness :
  Example.pssm_add_features Example.pssm_graph (Some Example.variant)
  = Ok Example.pssm_graph_after
  ∧ GraphPy._edges Example.pssm_graph_after = GraphPy._edges Example.pssm_graph
  ∧ PyDict.keys (GraphPy._nodes Example.pssm_graph_after)
    = PyDict.keys (GraphPy._nodes Example.pssm_graph).
Proof.
  assert (Ha : Example.pssm_add_features Example.pssm_graph (Some Example.variant)
               = Ok Example.pssm_graph_after) by (vm_compute; reflexivity).
  destruct (add_features_keeps_the_rest Example.amino_acids Example.get_pssm
              "pssm" "info_content" "conservation" "diff_conservation"
              "data/1abc.pdb" Example.pssm_graph Example.pssm_graph_after
              (Some Example.variant) Ha) as (_ & _ & Hedges & Hkeys & _).
  split; [exact Ha|]. split; [exact Hedges|exact Hkeys].
Defined.

(** ** The nodes of the graph container *)

Lemma example_graph_reachable : reachable Example.graph01.
Proof.
  apply reachable_add_edge, reachable_add_node, reachable_add_node, reachable_init.
Qed.

Lemma get_node_finds_the_node_added_witness :
  reachable Example.graph01
  ∧ GraphPy.get_node (GraphPy.add_node Example.graph01 Cases.node0') 0
    = Ok Cases.node0'
  ∧ GraphPy.get_node (GraphPy.add_node Example.graph01 Cases.node0') 1
    = GraphPy.get_node Example.graph01 1.
Proof.
  destruct (get_node_finds_the_node_added Example.graph01 example_graph_reachable)
    as (Hadded & Hother & _).
  split; [exact example_graph_reachable|]. split.
  - exact (Hadded Cases.node0').
  - exact (Hother Cases.node0' 1 eq_refl).
Defined.

Lemma add_node_replaces_the_node_of_its_id_witness :
  reachable Example.graph01
  ∧ GraphPy.nodes (GraphPy.add_node Example.graph01 Cases.node0')
    = <[0 := Cases.node0']> (GraphPy.nodes Example.graph01)
  ∧ GraphPy.edges (GraphPy.add_node Example.graph01 Cases.node0')
    = GraphPy.edges Example.graph01.
Proof.
  destruct (add_node_replaces_the_node_of_its_id Example.graph01 Cases.node0'
              example_graph_reachable) as (_ & Hreplace & _ & Hedges).
  split; [exact example_graph_reachable|]. split; [|exact Hedges].
  exact (Hreplace 0 Example.node0 eq_refl eq_refl).
Defined.

(** ** The atomic query *)

Lemma atomic_query_variant_residue_witness :
  Example.get_structure "data/1abc.pdb" "1abc" = Ok Example.structure
  ∧ get_chain Example.structure "A" = Ok Cases.chain_data_A
  ∧ Example.atomic_query_atoms Example.atomic_query
    = Ok (flat_map residue_atoms
            (Example.get_surrounding_residues Example.structure Example.cys1
               10%float)).
Proof.
  assert (Hs : Example.get_structure
                 (AtomicQuery._pdb_path Example.atomic_query)
                 (AtomicQuery.model_id Example.atomic_query)
               = Ok Example.structure) by (vm_compute; reflexivity).
  assert (Hp : is_ok (AtomicQuery.read_pssm Example.open_text Example.decimal_float
                        Example.amino_acids Example.atomic_query Example.structure)
               = true) by reflexivity.
  assert (Hc : get_chain Example.structure (AtomicQuery._chain_id Example.atomic_query)
               = Ok Cases.chain_data_A) by (vm_compute; reflexivity).
  destruct (atomic_query_variant_residue Example.get_structure Example.open_text
              Example.decimal_float Example.amino_acids
              Example.get_surrounding_residues Example.str_atom "type" "dist" "pos"
              Example.atomic_query Example.structure Cases.chain_data_A Hs Hp Hc)
    as [_ Hfirst].
  split; [vm_compute; reflexivity|]. split; [exact Hc|].
  apply (Hfirst [] Example.cys1 [Example.cys2]).
  - reflexivity.
  - constructor.
  - split; reflexivity.
Defined.

(** The query of a residue that the chain does not hold. *)
Example atomic_query_residue_not_found_example :
  Example.atomic_build_graph Cases.coded_query
  = Raise (ValueError "Residue A:12A not found in data/1abc.pdb").
Proof. vm_compute. reflexivity. Qed.

Lemma atomic_query_graph_without_pssm_witness :
  Example.get_structure "data/1abc.pdb" "1abc" = Ok Example.structure
  ∧ is_ok (AtomicQuery.read_pssm Example.pssm_file Example.decimal_float
             Example.amino_acids (Cases.pssm_query [("A", "A.pssm")])
             Example.structure) = true
  ∧ Cases.atomic_build_graph
      (AtomicQuery.without_pssm (Cases.pssm_query [("A", "A.pssm")]))
    = Cases.atomic_build_graph (Cases.pssm_query [("A", "A.pssm")]).
Proof.
  assert (Hs : Example.get_structure
                 (AtomicQuery._pdb_path (Cases.pssm_query [("A", "A.pssm")]))
                 (AtomicQuery.model_id (Cases.pssm_query [("A", "A.pssm")]))
               = Ok Example.structure) by (vm_compute; reflexivity).
  assert (Hp : is_ok (AtomicQuery.read_pssm Example.pssm_file Example.decimal_float
                        Example.amino_acids (Cases.pssm_query [("A", "A.pssm")])
                        Example.structure) = true) by (vm_compute; reflexivity).
  split; [vm_compute; reflexivity|]. split; [exact Hp|].
  exact (proj1 (atomic_query_graph_without_pssm Example.get_structure
                  Example.pssm_file Example.decimal_float Example.amino_acids
                  Example.get_surrounding_residues Example.str_atom
                  "type" "dist" "pos" (Cases.pssm_query [("A", "A.pssm")])
                  Example.structure Hs Hp)).
Defined.

Lemma atomic_query_needs_a_pssm_path_for_every_chain_witness :
  Cases.atomic_build_graph (Cases.pssm_query [("B", "B.pssm")])
  = Raise (KeyError "A").
Proof.
  apply (atomic_query_needs_a_pssm_path_for_every_chain Example.get_structure
           Example.pssm_file Example.decimal_float Example.amino_acids
           Example.get_surrounding_residues Example.str_atom "type" "dist" "pos"
           (Cases.pssm_query [("B", "B.pssm")]) Example.structure
           [("B", "B.pssm")] [] Cases.chain_data_A []).
  - vm_compute. reflexivity.
  - reflexivity.
  - reflexivity.
  - constructor.
  - reflexivity.
Defined.

Lemma atomic_graph_is_returned_without_neighbours_witness :
  Example.atomic_query_atoms Cases.narrow_query = Ok Example.atomic_atoms
  ∧ Example.atomic_build_graph Cases.narrow_query
    = Ok (GraphPy.Graph_init "1abc:A:1:Cysteine->Alanine" [("bind", 1%float)])
  ∧ (is_ok (Example.atomic_build_graph Cases.narrow_query) = true
     ↔ Example.atomic_atoms ≠ []
       ∧ ∀ i j, ¬ close_pair Cases.narrow_query Example.atomic_atoms i j).
Proof.
  assert (Ha : Example.atomic_query_atoms Cases.narrow_query
               = Ok Example.atomic_atoms) by (vm_compute; reflexivity).
  split; [exact Ha|]. split; [vm_compute; reflexivity|].
  exact (proj1 (atomic_graph_is_returned_without_neighbours Example.get_structure
                  Example.open_text Example.decimal_float Example.amino_acids
                  Example.get_surrounding_residues Example.str_atom
                  "type" "dist" "pos" Cases.narrow_query Example.atomic_atoms Ha)).
Defined.

Example atomic_query_id_example :
  AtomicQuery.get_query_id Example.atomic_query = "1abc:A:1:Cysteine->Alanine".
Proof. vm_compute. reflexivity. Qed.

Lemma atomic_graph_raises_for_close_atoms_witness :
  Example.atomic_query_atoms Example.atomic_query = Ok Example.atomic_atoms
  ∧ ∃ msg, Example.atomic_build_graph Example.atomic_query
           = Raise (TypeError msg).
Proof.
  assert (Ha : Example.atomic_query_atoms Example.atomic_query
               = Ok Example.atomic_atoms) by (vm_compute; reflexivity).
  split; [exact Ha|].
  refine (proj2 (atomic_graph_raises_for_close_atoms Example.get_structure
                   Example.open_text Example.decimal_float Example.amino_acids
                   Example.get_surrounding_residues Example.str_atom
                   "type" "dist" "pos" Example.atomic_query Example.atomic_atoms Ha)
                0%nat 1%nat
                {| atom_residue := Example.cys1; atom_name := "N";
                   atom_position := {| px := 0; py := 0; pz := 0 |} |}
                {| atom_residue := Example.cys1; atom_name := "CA";
                   atom_position := {| px := 1.5; py := 0; pz := 0 |} |}
                _ _ _ _).
  - discriminate.
  - vm_compute. reflexivity.
  - vm_compute. reflexivity.
  - vm_compute. reflexivity.
Defined.

(** ** The model id *)

Lemma model_id_is_the_file_name_without_extension_witness :
  AtomicQuery.model_id Example.atomic_query = "1abc"
  ∧ InterfaceQuery.model_id Example.interface_query = "1abc".
Proof.
  destruct (model_id_is_the_file_name_without_extension "data" "1abc" "pdb"
              eq_refl eq_refl eq_refl eq_refl) as [Hatomic Hinterface].
  split.
  - apply (Hatomic Example.atomic_query). left. reflexivity.
  - apply (Hinterface Example.interface_query). left. reflexivity.
Defined.

(** ** The interface query *)

(** The example query ends at [add_edge] for its first pair, two valid
    residues. *)
Example interface_query_raises_example :
  Example.interface_build_graph Example.interface_query
  = Raise (TypeError "add_edge() takes 2 positional arguments but 3 were given").
Proof. vm_compute. reflexivity. Qed.

(** The query whose only pair holds the residue without amino acid ends at
    [graph.nodes.items()]. *)
Example unknown_query_raises_example :
  Example.interface_build_graph Example.unknown_query
  = Raise (AttributeError "'list' object has no attribute 'items'").
Proof. vm_compute. reflexivity. Qed.

Lemma interface_build_graph_raises_at_the_graph_witness :
  Example.get_residue_contact_pairs "data/1abc.pdb" "1abc" "A" "B" 8.5%float
  = Ok Example.contact_pairs
  ∧ Forall (checkable Example.interface_pssm) (residues_of Example.contact_pairs)
  ∧ Exists (λ pair, valid Example.interface_pssm pair.1
                    ∧ valid Example.interface_pssm pair.2) Example.contact_pairs
  ∧ ∃ msg, Example.interface_build_graph Example.interface_query
           = Raise (TypeError msg).
Proof.
  assert (H1 : Example.get_residue_contact_pairs
    (InterfaceQuery._pdb_path Example.interface_query)
    (InterfaceQuery.model_id Example.interface_query)
    (InterfaceQuery._chain_id1 Example.interface_query)
    (InterfaceQuery._chain_id2 Example.interface_query)
    (InterfaceQuery._interface_distance_cutoff Example.interface_query)
    = Ok ((Example.cys1, Example.gly1)
          :: [(Example.unknown3, Example.gly1); (Example.ala4, Example.gly2);
              (Example.cys2, Example.gly1)])) by reflexivity.
  assert (H2 : Example.model_get_chain
                 (chain_model (res_chain (Example.cys1, Example.gly1).1))
                 (InterfaceQuery._chain_id1 Example.interface_query)
               = Ok Example.chainA) by reflexivity.
  assert (H3 : Example.model_get_chain
                 (chain_model (res_chain (Example.cys1, Example.gly1).1))
                 (InterfaceQuery._chain_id2 Example.interface_query)
               = Ok Example.chainB) by reflexivity.
  assert (H4 : InterfaceQuery.read_pssm Example.pssm_file Example.decimal_float
                 Example.amino_acids [] Example.interface_query
                 Example.chainA Example.chainB = Ok Example.interface_pssm)
    by (vm_compute; reflexivity).
  assert (H5 : Forall (checkable Example.interface_pssm)
                      (residues_of Example.contact_pairs)).
  { repeat (constructor;
              [first [ left; reflexivity
                     | right; vm_compute; eexists; reflexivity ]|]).
    constructor. }
  assert (H6 : Exists (λ pair, valid Example.interface_pssm pair.1
                               ∧ valid Example.interface_pssm pair.2)
                      Example.contact_pairs).
  { apply Exists_cons_hd. split; apply valid_validb; vm_compute; reflexivity. }
  split; [vm_compute; reflexivity|]. split; [exact H5|]. split; [exact H6|].
  exact (proj1 (interface_build_graph_raises_at_the_graph
                  Example.get_residue_contact_pairs Example.get_residue_distance
                  Example.model_get_chain Example.pssm_file Example.decimal_float
                  Example.amino_acids [] Example.get_bsa_data
                  Example.get_depth_contact_res Example.get_hse
                  Example.str_residue
                  "dist" "type" "chain" "pos" "res_type" "charge" "polarity" "bsa"
                  "pssm" "cons" "ic" "depth" "hse"
                  [Example.alanine; Example.cysteine; Example.glycine]
                  Example.interface_query (Example.cys1, Example.gly1)
                  [(Example.unknown3, Example.gly1); (Example.ala4, Example.gly2);
                   (Example.cys2, Example.gly1)]
                  Example.chainA Example.chainB Example.interface_pssm
                  H1 H2 H3 H4 H5) H6).
Defined.

Lemma interface_query_needs_a_pssm_path_for_both_chains_witness :
  Example.interface_build_graph Cases.pathless_query = Raise (KeyError "A").
Proof.
  refine (proj1 (interface_query_needs_a_pssm_path_for_both_chains
                   Example.get_residue_contact_pairs Example.get_residue_distance
                   Example.model_get_chain Example.pssm_file Example.decimal_float
                   Example.amino_acids [] Example.get_bsa_data
                   Example.get_depth_contact_res Example.get_hse
                   Example.str_residue
                   "dist" "type" "chain" "pos" "res_type" "charge" "polarity" "bsa"
                   "pssm" "cons" "ic" "depth" "hse"
                   [Example.alanine; Example.cysteine; Example.glycine]
                   Cases.pathless_query (Example.cys1, Example.gly1)
                   [(Example.unknown3, Example.gly1); (Example.ala4, Example.gly2);
                    (Example.cys2, Example.gly1)]
                   Example.chainA Example.chainB [("B", "B.pssm")] _ _ _ _) _).
  - vm_compute. reflexivity.
  - vm_compute. reflexivity.
  - vm_compute. reflexivity.
  - reflexivity.
  - reflexivity.
Defined.
